(** * ansible-uv: the [pip] module ([plugins/modules/pip.py])

    A shallow embedding of the module and the properties stated of it.

    - Requirement specifiers: [_is_package_name], [_recover_package_name]
      (the reconstruction of requirement strings from the raw, possibly
      split, [name] tokens) and the [Package] class.
    - The orchestration: [main] with [setup_virtualenv], [_get_pip],
      [_get_packages] (and the framework's [get_best_parsable_locale],
      which runs a subprocess), [_get_cmd_options] and [_fail], written in a
      state-and-exception monad.  The state holds the process umask, the
      additions to [os.environ] and the subprocesses run so far;
      a computation returns, or leaves through [exit_json] or
      [fail_json], or raises.  What the module asks of the Python
      library, of the framework and of the operating system
      ([shlex.split], [argparse], [module.run_command],
      [module.get_bin_path], [os.path.exists], ...) is a [Host].

    Python [str] values are modelled by [string]; a character stands for
    the code point of the same number (0..255).  Lists are [list]. *)

From Stdlib Require Import String Ascii List Bool ZArith Lia.
Import ListNotations.
Local Open Scope string_scope.
Local Open Scope list_scope.

(** String concatenation, Python's [+] on [str]. *)
Infix "@@" := String.append (right associativity, at level 60).

(* ================================================================= *)
(** ** Python string primitives used by the module *)

Module PyStr.

(** [sub in s] *)
Fixpoint str_in (sub s : string) : bool :=
  String.prefix sub s ||
  match s with
  | EmptyString => false
  | String _ s' => str_in sub s'
  end.

(** [s.startswith(tuple(prefixes))] *)
Definition startswith_any (s : string) (prefixes : list string) : bool :=
  existsb (fun p => String.prefix p s) prefixes.

(** [c.isspace()] on the code points below 256. *)
Definition isspace (c : ascii) : bool :=
  let n := nat_of_ascii c in
  ((9 <=? n)%nat && (n <=? 13)%nat) || ((28 <=? n)%nat && (n <=? 32)%nat)
  || (n =? 133)%nat || (n =? 160)%nat.

(** [s.lstrip()] *)
Fixpoint lstrip (s : string) : string :=
  match s with
  | String c s' => if isspace c then lstrip s' else s
  | EmptyString => EmptyString
  end.

(** [s.split(sep)] for a one-character separator: the accumulator [cur]
    holds the text of the field being read. *)
Fixpoint split_acc (sep : ascii) (cur : string) (s : string) : list string :=
  match s with
  | EmptyString => [cur]
  | String c s' =>
      if Ascii.eqb c sep then cur :: split_acc sep EmptyString s'
      else split_acc sep (cur @@ String c EmptyString) s'
  end.

Definition split (sep : ascii) (s : string) : list string :=
  split_acc sep EmptyString s.

(** [sep.join(l)] *)
Definition join (sep : string) (l : list string) : string :=
  String.concat sep l.

(** Truth value of a [str]: non-empty. *)
Definition nonempty (s : string) : bool :=
  match s with EmptyString => false | _ => true end.

(** [s.split()]: fields separated by runs of white space, no empty field. *)
Fixpoint words_acc (cur : string) (s : string) : list string :=
  match s with
  | EmptyString => if nonempty cur then [cur] else []
  | String c s' =>
      if isspace c
      then (if nonempty cur then cur :: words_acc EmptyString s'
            else words_acc EmptyString s')
      else words_acc (cur @@ String c EmptyString) s'
  end.

Definition words (s : string) : list string := words_acc EmptyString s.

(** [re.search(r'^(?:a|b|...)', s, re.MULTILINE)]: some alternative is a
    prefix of the text at the start of [s] or right after a newline. *)
Definition newline : ascii := ascii_of_nat 10.

Fixpoint line_start_any_from (alts : list string) (at_start : bool) (s : string) : bool :=
  (at_start && startswith_any s alts) ||
  match s with
  | EmptyString => false
  | String c s' => line_start_any_from alts (Ascii.eqb c newline) s'
  end.

Definition line_start_any (alts : list string) (s : string) : bool :=
  line_start_any_from alts true s.

(** [s.lower()] on a text of code points below 256: the letters [A]-[Z]
    and the capital letters of Latin-1 (192-222 but for the sign 215)
    have a lower-case form, 32 places up, and the lower-case form of
    such a text is that of its characters, one by one.  (Beyond Latin-1
    [str.lower] also looks at the neighbours of a character, for the
    final sigma; such texts are not texts of this development.) *)
Definition lower_char (c : ascii) : ascii :=
  let n := nat_of_ascii c in
  if ((65 <=? n)%nat && (n <=? 90)%nat)
     || ((192 <=? n)%nat && (n <=? 222)%nat && negb (n =? 215)%nat)
  then ascii_of_nat (n + 32) else c.

Fixpoint lower (s : string) : string :=
  match s with
  | EmptyString => EmptyString
  | String c s' => String (lower_char c) (lower s')
  end.

End PyStr.
Import PyStr.

(* ================================================================= *)
(** ** Requirement specifiers *)

(** The keys of [op_dict], in insertion order. *)
Definition op_dict_keys : list string :=
  [">="; "<="; ">"; "<"; "=="; "!="; "~="].

(** [_is_vcs_url]: [re.match(r'(svn|git|hg|bzr)\+', name)]. *)
Definition _is_vcs_url (name : string) : bool :=
  startswith_any name ["svn+"; "git+"; "hg+"; "bzr+"].

(** [_is_package_name] *)
Definition _is_package_name (name : string) : bool :=
  negb (startswith_any (lstrip name) op_dict_keys).

(** The first loop of [_recover_package_name]:
    [tmp.extend(one_line.split(","))] for every element. *)
Definition flatten_names (names : list string) : list string :=
  flat_map (split ","%char) names.

(** The second loop of [_recover_package_name], over the remaining
    tokens, with the loop's three local variables as arguments; the
    result is the value returned after the loop. *)
Fixpoint recover_loop (names : list string)
         (name_parts package_names : list string) (in_brackets : bool)
  : list string :=
  match names with
  | [] => package_names ++ [join "," name_parts]
  | name :: rest =>
      let '(name_parts, package_names) :=
        if _is_package_name name && negb in_brackets then
          ([], match name_parts with
               | [] => package_names
               | _ :: _ => package_names ++ [join "," name_parts]
               end)
        else (name_parts, package_names) in
      let in_brackets := if str_in "[" name then true else in_brackets in
      let in_brackets :=
        if in_brackets && str_in "]" name then false else in_brackets in
      recover_loop rest (name_parts ++ [name]) package_names in_brackets
  end.

Definition _recover_package_name (names : list string) : list string :=
  recover_loop (flatten_names names) [] [] false.


(** The same loop with every requirement kept as the list of its tokens
    instead of their [","]-joined text; [recover_loop] is its image under
    [join ","] (lemma [recover_loop_groups]). *)
Fixpoint group_loop (names : list string)
         (name_parts : list string) (groups : list (list string))
         (in_brackets : bool) : list (list string) :=
  match names with
  | [] => groups ++ [name_parts]
  | name :: rest =>
      let '(name_parts, groups) :=
        if _is_package_name name && negb in_brackets then
          ([], match name_parts with
               | [] => groups
               | _ :: _ => groups ++ [name_parts]
               end)
        else (name_parts, groups) in
      let in_brackets := if str_in "[" name then true else in_brackets in
      let in_brackets :=
        if in_brackets && str_in "]" name then false else in_brackets in
      group_loop rest (name_parts ++ [name]) groups in_brackets
  end.

(** The [Package] class.  [pkg_name] is the text matched by
    [_NAME_RE.match(requirement)]: the pattern's first alternative is a
    single alphanumeric character and alternation is ordered, so a match
    is the first character of the text, when that is a letter or digit. *)
Record Package := mkPackage { _unparsed : string; pkg_name : option string }.

Definition is_alnum (c : ascii) : bool :=
  let n := nat_of_ascii c in
  ((48 <=? n)%nat && (n <=? 57)%nat) || ((65 <=? n)%nat && (n <=? 90)%nat)
  || ((97 <=? n)%nat && (n <=? 122)%nat).

Definition _NAME_RE_match (requirement : string) : option string :=
  match requirement with
  | String c _ => if is_alnum c then Some (String c EmptyString) else None
  | EmptyString => None
  end.

(** [Package.__init__] *)
Definition Package_init (requirement : string) : Package :=
  {| _unparsed := requirement; pkg_name := _NAME_RE_match requirement |}.

(** [Package.has_version_specifier]: [_VERSION_OPS_RE.search] finds one
    of the operators of [op_dict] somewhere in the text. *)
Definition has_version_specifier (pkg : Package) : bool :=
  existsb (fun op => str_in op (_unparsed pkg)) op_dict_keys.

(** [Package.__str__] *)
Definition Package_str (pkg : Package) : string := _unparsed pkg.

(** [Package.__repr__] *)
Definition Package_repr (pkg : Package) : string :=
  "Package(" @@ _unparsed pkg @@ ")".

(** The character class of [_CANONICALIZE_RE], [[-_.]]. *)
Definition is_separator (c : ascii) : bool :=
  Ascii.eqb c "-" || Ascii.eqb c "_" || Ascii.eqb c ".".

(** [_CANONICALIZE_RE.sub("-", name)]: every maximal run of separators
    is replaced by one ["-"]; [in_run] tells that the character before
    belongs to a run, whose ["-"] is written already. *)
Fixpoint sub_runs (in_run : bool) (name : string) : string :=
  match name with
  | EmptyString => EmptyString
  | String c rest =>
      if is_separator c then
        if in_run then sub_runs true rest
        else String "-" (sub_runs true rest)
      else String c (sub_runs false rest)
  end.

(** [Package.canonicalize_name] *)
Definition canonicalize_name (name : string) : string :=
  lower (sub_runs false name).

(* ================================================================= *)
(** ** [posixpath] *)

Module PosixPath.

Fixpoint endswith_slash (s : string) : bool :=
  match s with
  | EmptyString => false
  | String c EmptyString => Ascii.eqb c "/"%char
  | String _ s' => endswith_slash s'
  end.

Definition isabs (s : string) : bool := String.prefix "/" s.

Definition join2 (a b : string) : string :=
  if String.prefix "/" b then b
  else if negb (nonempty a) || endswith_slash a then a @@ b
  else a @@ "/" @@ b.

Definition join3 (a b c : string) : string := join2 (join2 a b) c.

Definition basename (p : string) : string :=
  last (split "/"%char p) EmptyString.

End PosixPath.

(* ================================================================= *)
(** ** The process, its environment and the module's parameters *)

Inductive State := present | absent | latest | forcereinstall.

Definition State_eqb (a b : State) : bool :=
  match a, b with
  | present, present | absent, absent | latest, latest
  | forcereinstall, forcereinstall => true
  | _, _ => false
  end.

Definition state_name (s : State) : string :=
  match s with
  | present => "present" | absent => "absent"
  | latest => "latest" | forcereinstall => "forcereinstall"
  end.

(** [state_map] of [main] *)
Definition state_map (s : State) : list string :=
  match s with
  | present => ["install"]
  | absent => ["uninstall"]
  | latest => ["install"; "-U"]
  | forcereinstall => ["install"; "-U"; "--force-reinstall"]
  end.

(** [module.params] after the framework's own validation, and
    [module.check_mode]. *)
Record Params := mkParams {
  p_state : State;
  p_name : option (list string);
  p_version : option string;
  p_requirements : option string;
  p_virtualenv : option string;
  p_virtualenv_site_packages : bool;
  p_virtualenv_command : string;
  p_virtualenv_python : option string;
  p_extra_args : option string;
  p_editable : bool;
  p_chdir : option string;
  p_executable : option string;
  p_umask : option string;
  p_break_system_packages : bool;
  p_check_mode : bool
}.

(** Truth values of an optional [str] and of an optional list. *)
Definition truthy (o : option string) : bool :=
  match o with Some s => nonempty s | None => false end.

Definition truthy_list {A} (o : option (list A)) : bool :=
  match o with Some (_ :: _) => true | _ => false end.

(** The first argument of [module.run_command]: a command line or an
    argument vector. *)
Inductive Cmd := CmdStr (s : string) | CmdArgv (argv : list string).

(** One subprocess started through [module.run_command], with the
    process umask and the additions to [os.environ] it inherits. *)
Record Call := mkCall {
  call_cmd : Cmd;
  call_cwd : option string;
  call_path_prefix : option string;
  call_environ_update : list (string * string);
  call_umask : Z;
  call_environ : list (string * string)
}.

(** The state the module changes: the process umask, its additions to
    [os.environ], and the subprocesses run so far, oldest first. *)
Record World := mkWorld {
  w_umask : Z;
  w_environ : list (string * string);
  w_trace : list Call
}.

(** What the module asks of the Python library, the framework and the
    operating system.  A subprocess's result and a lookup on the search
    path may depend on the subprocesses run before.  [shlex_split] is
    [None] where [shlex.split] raises [ValueError]; [argparse_m argv] is
    [args.m] after [parse_known_args(argv)] of a parser with the single
    option [-m], and [None] where the parser exits; [int_base8 s] is
    [int(s, 8)] or the text of the exception; [run] gives the exit code,
    stdout and stderr of a subprocess, and [None] when the program cannot
    be started; [path_exists] is [os.path.exists], which [main] asks
    once, before any subprocess; [best_parsable_locale result] is the
    locale that the framework's [get_best_parsable_locale] picks from
    the [result] of [locale -a] (the first of its preferences among the
    lines of stdout, or ["C"]). *)
Record Host := mkHost {
  shlex_split : string -> option (list string);
  argparse_m : list string -> option (option string);
  int_base8 : string -> Z + string;
  get_bin_path : list Call -> string -> option string;
  path_exists : string -> bool;
  run : list Call -> Call -> option (Z * string * string);
  sys_executable : string;
  gettempdir : string;
  best_parsable_locale : Z * string * string -> string
}.

(** Keyword arguments of [exit_json] and [fail_json]. *)
Inductive pyval :=
| VNone
| VBool (b : bool)
| VStr (s : string)
| VList (l : list string).

Definition kwargs := list (string * pyval).

Fixpoint kw_get (k : string) (kw : kwargs) : option pyval :=
  match kw with
  | [] => None
  | (k', v) :: kw' => if String.eqb k k' then Some v else kw_get k kw'
  end.

Definition opt_str (o : option string) : pyval :=
  match o with Some s => VStr s | None => VNone end.

Definition opt_list (o : option (list string)) : pyval :=
  match o with Some l => VList l | None => VNone end.

(** How a piece of the module ends: it returns a value, or it leaves
    through [exit_json] or [fail_json] (both raise [SystemExit]), or with
    another exception. *)
Inductive Outcome (A : Type) :=
| Ret (a : A)
| ExitJson (kw : kwargs)
| FailJson (kw : kwargs)
| Raise (exc : string).
Arguments Ret {A} a.
Arguments ExitJson {A} kw.
Arguments FailJson {A} kw.
Arguments Raise {A} exc.

Definition M (A : Type) : Type := World -> Outcome A * World.

Definition ret {A} (a : A) : M A := fun w => (Ret a, w).

Definition bind {A B} (m : M A) (f : A -> M B) : M B :=
  fun w =>
    match m w with
    | (Ret a, w') => f a w'
    | (ExitJson kw, w') => (ExitJson kw, w')
    | (FailJson kw, w') => (FailJson kw, w')
    | (Raise e, w') => (Raise e, w')
    end.

Declare Scope py_scope.
Delimit Scope py_scope with py.
Notation "x <- m ;; k" := (bind m (fun x => k))
  (at level 100, m at next level, right associativity) : py_scope.
Notation "' pat <- m ;; k" := (bind m (fun x => match x with pat => k end))
  (at level 100, pat pattern, m at next level, right associativity) : py_scope.
Notation "m ;;; k" := (bind m (fun _ => k))
  (at level 100, right associativity) : py_scope.
Local Open Scope py_scope.

(** A step that does not touch the process state. *)
Definition lift {A} (o : Outcome A) : M A := fun w => (o, w).

Definition exit_json {A} (kw : kwargs) : M A := fun w => (ExitJson kw, w).
Definition fail_json {A} (kw : kwargs) : M A := fun w => (FailJson kw, w).
Definition raise {A} (exc : string) : M A := fun w => (Raise exc, w).

(** [if c: m] *)
Definition when (c : bool) (m : M unit) : M unit :=
  if c then m else ret tt.

(** [try: body finally: fin] *)
Definition try_finally {A} (body : M A) (fin : M unit) : M A :=
  fun w =>
    match body w with
    | (o, w1) =>
        match fin w1 with
        | (Ret _, w2) => (o, w2)
        | (ExitJson kw, w2) => (ExitJson kw, w2)
        | (FailJson kw, w2) => (FailJson kw, w2)
        | (Raise e, w2) => (Raise e, w2)
        end
    end.

(** [os.umask(mask)]: the mask is a C [int]; the kernel keeps its nine
    permission bits and the old mask is returned. *)
Definition os_umask (mask : Z) : M Z :=
  fun w =>
    if ((- 2147483648 <=? mask) && (mask <=? 2147483647))%Z then
      (Ret (w_umask w),
       {| w_umask := Z.land mask 511; w_environ := w_environ w; w_trace := w_trace w |})
    else (Raise "OverflowError", w).

(** [os.environ[k] = v] *)
Definition os_environ_set (k v : string) : M unit :=
  fun w =>
    (Ret tt,
     {| w_umask := w_umask w; w_environ := w_environ w ++ [(k, v)]; w_trace := w_trace w |}).

(** The subprocess that [module.run_command] starts in the state [w],
    and the state once it has run. *)
Definition call_of (cmd : Cmd) (cwd path_prefix : option string)
           (environ_update : list (string * string)) (w : World) : Call :=
  {| call_cmd := cmd; call_cwd := cwd; call_path_prefix := path_prefix;
     call_environ_update := environ_update;
     call_umask := w_umask w; call_environ := w_environ w |}.

Definition add_call (w : World) (c : Call) : World :=
  {| w_umask := w_umask w; w_environ := w_environ w; w_trace := w_trace w ++ [c] |}.

Section PipModule.

Variable host : Host.

(** [module.run_command]: when the program cannot be started, the
    framework fails the module itself (its keyword arguments are
    shortened here). *)
Definition run_command (cmd : Cmd) (cwd path_prefix : option string)
           (environ_update : list (string * string)) : M (Z * string * string) :=
  fun w =>
    let c := call_of cmd cwd path_prefix environ_update w in
    match run host (w_trace w) c with
    | Some result => (Ret result, add_call w c)
    | None => (FailJson [("msg", VStr "Error executing command")], w)
    end.

(** [module.get_bin_path(arg, False, opt_dirs)]: [None] when the
    executable is not found. *)
Definition module_get_bin_path (arg : string) : M (option string) :=
  fun w => (Ret (get_bin_path host (w_trace w) arg), w).

(** [module.get_bin_path(arg, True)]: the framework fails the module when
    the executable is not found (its message is shortened here). *)
Definition module_get_bin_path_required (arg : string) : M string :=
  fun w =>
    match get_bin_path host (w_trace w) arg with
    | Some path => (Ret path, w)
    | None => (FailJson [("msg", VStr ("Failed to find required executable " @@ arg))], w)
    end.

(** [_is_venv_command] *)
Definition _is_venv_command (command : string) : Outcome bool :=
  match shlex_split host command with
  | None => Raise "ValueError"
  | Some [] => Raise "IndexError"
  | Some (argv0 :: rest) =>
      if String.eqb argv0 "pyvenv" then Ret true
      else match argparse_m host rest with
           | None => Raise "SystemExit"
           | Some m =>
               match m with
               | Some v => if String.eqb v "venv" then Ret true else Ret false
               | None => Ret false
               end
           end
  end.

(** [_fail] *)
Definition _fail {A} (cmd : list string) (out err : string) : M A :=
  let msg := EmptyString in
  let msg := if nonempty out then msg @@ "stdout: " @@ out else msg in
  let msg := if nonempty err
             then msg @@ String newline ":stderr: " @@ err else msg in
  fail_json [("cmd", VList cmd); ("msg", VStr msg)].

(** [_get_cmd_options]; [stdout.strip().split()] is [words stdout], the
    split dropping leading and trailing white space itself. *)
Definition _get_cmd_options (cmd : string) : M (list string) :=
  let thiscmd := cmd @@ " --help" in
  '(rc, stdout, stderr) <- run_command (CmdStr thiscmd) None None [] ;;
  when (negb (rc =? 0)%Z)
       (fail_json [("msg", VStr ("Could not get output from " @@ thiscmd @@ ": "
                                 @@ stdout @@ stderr))]) ;;;
  ret (filter (fun x => String.prefix "--" x) (words stdout)).

(** [get_best_parsable_locale(module)], of the framework
    ([ansible.module_utils.common.locale]): it looks for the [locale]
    tool on the search path and, when there is one, runs [locale -a]
    through [module.run_command] and picks a locale from the result;
    without the tool the locale is ["C"]. *)
Definition get_best_parsable_locale : M string :=
  locale <- module_get_bin_path "locale" ;;
  match locale with
  | Some locale =>
      if nonempty locale then
        result <- run_command (CmdArgv [locale; "-a"]) None None [] ;;
        ret (best_parsable_locale host result)
      else ret "C"
  | None => ret "C"
  end.

(** [_get_packages] *)
Definition _get_packages (pip : list string) (chdir : string)
  : M (string * string * string) :=
  let command := pip ++ ["list"; "--format=freeze"] in
  locale <- get_best_parsable_locale ;;
  let lang_env := [("LANG", locale); ("LC_ALL", locale); ("LC_MESSAGES", locale)] in
  '(rc, out, err) <- run_command (CmdArgv command) (Some chdir) None lang_env ;;
  when (negb (rc =? 0)%Z) (_fail command out err) ;;;
  ret (join " " command, out, err).

(** The [for ... else] of [_get_pip]: the first candidate whose base
    name is found on the search path. *)
Fixpoint find_candidate (candidate_argvs : list (list string)) : M (option (list string)) :=
  match candidate_argvs with
  | [] => ret None
  | [] :: _ => raise "ValueError"
  | (basename :: rest) :: more =>
      uv <- module_get_bin_path basename ;;
      match uv with
      | Some uv => ret (Some (uv :: rest))
      | None => find_candidate more
      end
  end.

(** [_get_pip] *)
Definition _get_pip (executable : option string) : M (list string) :=
  let candidate_argvs := [["uv"; "pip"]] in
  '(pip, candidate_argvs) <-
    match executable with
    | Some e =>
        match shlex_split host e with
        | None => raise "ValueError"
        | Some [] => raise "IndexError"
        | Some (argv0 :: rest) =>
            if PosixPath.isabs argv0 then ret (Some (argv0 :: rest), candidate_argvs)
            else ret (None, [argv0 :: rest])
        end
    | None => ret (None, candidate_argvs)
    end ;;
  match pip with
  | Some pip => ret pip
  | None =>
      found <- find_candidate candidate_argvs ;;
      match found with
      | Some pip => ret pip
      | None =>
          let basenames := join ", " (map (fun argv => hd EmptyString argv) candidate_argvs) in
          fail_json [("msg", VStr ("Unable to find any of " @@ basenames
                                   @@ " to use. uv needs to be installed."))]
      end
  end.

(** [setup_virtualenv] *)
Definition setup_virtualenv (p : Params) (env chdir out err : string)
  : M (string * string) :=
  when (p_check_mode p) (exit_json [("changed", VBool true)]) ;;;
  cmd <- match shlex_split host (p_virtualenv_command p) with
         | None => raise "ValueError"
         | Some [] => raise "IndexError"
         | Some (cmd0 :: rest) =>
             if String.eqb (PosixPath.basename cmd0) cmd0 then
               path <- module_get_bin_path_required cmd0 ;;
               ret (path :: rest)
             else ret (cmd0 :: rest)
         end ;;
  cmd <- (if p_virtualenv_site_packages p then ret (cmd ++ ["--system-site-packages"])
          else
            cmd_opts <- _get_cmd_options (hd EmptyString cmd) ;;
            if existsb (String.eqb "--no-site-packages") cmd_opts
            then ret (cmd ++ ["--no-site-packages"]) else ret cmd) ;;
  let cmd := cmd ++ ["--python-preference"; "only-system"] in
  let virtualenv_python := p_virtualenv_python p in
  is_venv <- lift (_is_venv_command (p_virtualenv_command p)) ;;
  cmd <- (if negb is_venv then
            match virtualenv_python with
            | Some v => if nonempty v then ret (cmd ++ ["-p" @@ v])
                        else ret (cmd ++ ["-p" @@ sys_executable host])
            | None => ret (cmd ++ ["-p" @@ sys_executable host])
            end
          else if truthy (p_virtualenv_python p) then
            fail_json [("msg", VStr ("virtualenv_python should not be used when"
                                     @@ " using the venv module or pyvenv as virtualenv_command"))]
          else ret cmd) ;;
  let cmd := cmd ++ [env] in
  '(rc, out_venv, err_venv) <- run_command (CmdArgv cmd) (Some chdir) None [] ;;
  let out := out @@ out_venv in
  let err := err @@ err_venv in
  when (negb (rc =? 0)%Z) (_fail cmd out err) ;;;
  ret (out, err).

(** The local variables of [main] that its last two blocks read. *)
Record Locals := mkLocals {
  l_env : option string;
  l_chdir : string;
  l_out : string;
  l_err : string;
  l_venv_created : bool;
  l_pip : list string;
  l_cmd : list string;
  l_path_prefix : option string;
  l_has_vcs : bool;
  l_extra_args : option string
}.

Definition str_of (o : option string) : string :=
  match o with Some s => s | None => EmptyString end.

Definition list_of {A} (o : option (list A)) : list A :=
  match o with Some l => l | None => [] end.

(** [main], lines 537-538: [env] after [if env and chdir]. *)
Definition main_env (p : Params) : option string :=
  if truthy (p_virtualenv p) && truthy (p_chdir p)
  then Some (PosixPath.join2 (str_of (p_chdir p)) (str_of (p_virtualenv p)))
  else p_virtualenv p.

(** [main], lines 540-549: the umask is parsed and set; the result is
    [old_umask]. *)
Definition main_umask (p : Params) : M (option Z) :=
  umask <- match p_umask p with
           | Some s =>
               if nonempty s then
                 match int_base8 host s with
                 | inl z => ret (Some (inl z))
                 | inr e => fail_json [("msg", VStr "umask must be an octal integer");
                                       ("details", VStr e)]
                 end
               else ret (Some (inr s))
           | None => ret None
           end ;;
  match umask with
  | None => ret None
  | Some (inl z) => old_umask <- os_umask z ;; ret (Some old_umask)
  | Some (inr _) => raise "TypeError"
  end.

(** [main], the [finally] clause. *)
Definition main_finally (old_umask : option Z) : M unit :=
  match old_umask with
  | Some old => os_umask old ;;; ret tt
  | None => ret tt
  end.

(** [main], lines 561-567: the result is
    [(venv_created, out, err, py_bin)]. *)
Definition main_venv (p : Params) (env : option string) (chdir : string)
  : M (bool * string * string * string) :=
  if truthy env then
    let py_bin := PosixPath.join3 (str_of env) "bin" "python" in
    if negb (path_exists host (PosixPath.join3 (str_of env) "bin" "activate")) then
      '(out, err) <- setup_virtualenv p (str_of env) chdir EmptyString EmptyString ;;
      ret (true, out, err, py_bin)
    else ret (false, EmptyString, EmptyString, py_bin)
  else
    ret (false, EmptyString, EmptyString,
         if truthy (p_executable p) then str_of (p_executable p)
         else sys_executable host).

(** [main], lines 586-608: the result is [(has_vcs, packages)]. *)
Definition main_packages (p : Params) : M (bool * list Package) :=
  if truthy_list (p_name p) then
    let name := list_of (p_name p) in
    let has_vcs := existsb (fun pkg => nonempty pkg && _is_vcs_url pkg) name in
    let packages := map Package_init (_recover_package_name name) in
    match p_version p with
    | Some version =>
        when (1 <? length packages)%nat
             (fail_json [("msg", VStr ("'version' argument is ambiguous when installing multiple package distributions. "
                                       @@ "Please specify version restrictions next to each package in 'name' argument."))]) ;;;
        match packages with
        | [] => raise "IndexError"
        | pkg0 :: rest =>
            when (has_version_specifier pkg0)
                 (fail_json [("msg", VStr ("The 'version' argument conflicts with any version specifier provided along with a package name. "
                                           @@ "Please keep the version specifier, but remove the 'version' argument."))]) ;;;
            ret (has_vcs, Package_init (Package_str pkg0 @@ "==" @@ version) :: rest)
        end
    | None => ret (has_vcs, packages)
    end
  else ret (false, []).

(** [main], lines 610-617: [extra_args] after the [editable] block. *)
Definition main_extra_args (p : Params) : option string :=
  if p_editable p then
    let args_list :=
      if truthy (p_extra_args p) then split " "%char (str_of (p_extra_args p)) else [] in
    if negb (existsb (String.eqb "-e") args_list)
    then Some (join " " (args_list ++ ["-e"]))
    else p_extra_args p
  else p_extra_args p.

(** [main], lines 551-635: everything in the [try] block before the
    check-mode test. *)
Definition main_prepare (p : Params) (env : option string) : M Locals :=
  when (State_eqb (p_state p) latest
        && match p_version p with Some _ => true | None => false end)
       (fail_json [("msg", VStr "version is incompatible with state=latest")]) ;;;
  let chdir := match p_chdir p with
               | None => gettempdir host
               | Some c => c
               end in
  '(venv_created, out, err, py_bin) <- main_venv p env chdir ;;
  pip <- _get_pip (p_executable p) ;;
  let cmd := pip ++ state_map (p_state p) in
  let cmd := cmd ++ ["--python"; py_bin] in
  let path_prefix :=
    if truthy env then Some (PosixPath.join2 (str_of env) "bin") else None in
  '(has_vcs, packages) <- main_packages p ;;
  let extra_args := main_extra_args p in
  cmd <- (if truthy extra_args then
            match shlex_split host (str_of extra_args) with
            | Some args => ret (cmd ++ args)
            | None => raise "ValueError"
            end
          else ret cmd) ;;
  when (p_break_system_packages p)
       (os_environ_set "PIP_BREAK_SYSTEM_PACKAGES" "1") ;;;
  cmd <- (if truthy_list (p_name p) then ret (cmd ++ map Package_str packages)
          else if truthy (p_requirements p) then
            ret (cmd ++ ["-r"; str_of (p_requirements p)])
          else
            exit_json [("changed", VBool false);
                       ("warnings", VList ["No valid name or requirements file found."])]) ;;
  ret {| l_env := env; l_chdir := chdir; l_out := out; l_err := err;
         l_venv_created := venv_created; l_pip := pip; l_cmd := cmd;
         l_path_prefix := path_prefix; l_has_vcs := has_vcs;
         l_extra_args := extra_args |}.

(** [main], lines 637-651: the check-mode block. *)
Definition main_check (p : Params) (L : Locals) : M unit :=
  when (truthy (l_extra_args L) || truthy (p_requirements p)
        || State_eqb (p_state p) latest || negb (truthy_list (p_name p)))
       (exit_json [("changed", VBool true)]) ;;;
  let cmd := l_cmd L ++ ["--dry-run"] in
  '(rc, dryrun_out, dryrun_err) <-
    run_command (CmdArgv cmd) (Some (l_chdir L)) (l_path_prefix L) [] ;;
  let out := l_out L @@ dryrun_out in
  let err := l_err L @@ dryrun_err in
  when (negb (rc =? 0)%Z) (_fail cmd out err) ;;;
  let changed := line_start_any ["Would uninstall"; "Would install"] dryrun_err in
  exit_json [("changed", VBool changed); ("cmd", VList cmd);
             ("stdout", VStr out); ("stderr", VStr err)].

(** [main], lines 653-655: the result is [out_freeze_before]. *)
Definition main_before (p : Params) (L : Locals) : M (option string) :=
  if truthy (p_requirements p) || l_has_vcs L then
    '(_, out_freeze, _) <- _get_packages (l_pip L) (l_chdir L) ;;
    ret (Some out_freeze)
  else ret None.

(** [main], lines 658-679: what follows the run of the command, whose
    exit code and output are [rc], [out_pip] and [err_pip]. *)
Definition main_report (p : Params) (L : Locals) (out_freeze_before : option string)
           (rc : Z) (out_pip err_pip : string) : M unit :=
  let out := l_out L @@ out_pip in
  let err := l_err L @@ err_pip in
  (if (rc =? 1)%Z && State_eqb (p_state p) absent
      && (str_in "not installed" out_pip || str_in "not installed" err_pip)
   then ret tt
   else when (negb (rc =? 0)%Z) (_fail (l_cmd L) out err)) ;;;
  changed <-
    (if State_eqb (p_state p) absent then
       ret (str_in "Successfully uninstalled" out_pip)
     else
       match out_freeze_before with
       | None => ret (str_in "Successfully installed" out_pip)
       | Some before =>
           '(_, out_freeze_after, _) <- _get_packages (l_pip L) (l_chdir L) ;;
           ret (negb (String.eqb before out_freeze_after))
       end) ;;
  let changed := changed || l_venv_created L in
  exit_json [("changed", VBool changed); ("cmd", VList (l_cmd L));
             ("name", opt_list (p_name p)); ("version", opt_str (p_version p));
             ("state", VStr (state_name (p_state p)));
             ("requirements", opt_str (p_requirements p));
             ("virtualenv", opt_str (l_env L));
             ("stdout", VStr out); ("stderr", VStr err)].

(** [main], lines 653-679: the snapshot before, the command itself, and
    the report. *)
Definition main_apply (p : Params) (L : Locals) : M unit :=
  out_freeze_before <- main_before p L ;;
  '(rc, out_pip, err_pip) <-
    run_command (CmdArgv (l_cmd L)) (Some (l_chdir L)) (l_path_prefix L) [] ;;
  main_report p L out_freeze_before rc out_pip err_pip.

(** [main], the body of the [try] block. *)
Definition main_try (p : Params) : M unit :=
  L <- main_prepare p (main_env p) ;;
  if p_check_mode p then main_check p L else main_apply p L.

(** [main] *)
Definition main (p : Params) : M unit :=
  old_umask <- main_umask p ;;
  try_finally (main_try p) (main_finally old_umask).

End PipModule.

(* ================================================================= *)
(** ** Vocabulary of the statements *)

(** The process umask is a value of nine permission bits. *)
Definition wf_world (w : World) : Prop := (0 <= w_umask w < 512)%Z.

(** The module ends in failure: through [fail_json] or with an uncaught
    exception. *)
Definition is_fatal {A} (o : Outcome A) : Prop :=
  match o with
  | FailJson _ | Raise _ => True
  | Ret _ | ExitJson _ => False
  end.

(** A virtual environment is requested and its activation marker is
    absent: [main] sets [venv_created] and calls [setup_virtualenv]. *)
Definition venv_needed (h : Host) (p : Params) : bool :=
  truthy (main_env p)
  && negb (path_exists h (PosixPath.join3 (str_of (main_env p)) "bin" "activate")).

(** The run gets as far as the check-mode test of [main] (line 637),
    with the local variables [L], in the state [w1]. *)
Definition reaches_command (h : Host) (p : Params) (w : World)
           (L : Locals) (w1 : World) : Prop :=
  exists old_umask w0,
    main_umask h p w = (Ret old_umask, w0)
    /\ main_prepare h p (main_env p) w0 = (Ret L, w1).

(** The subprocesses of the last two blocks of [main], started in the
    state [w]: the command itself, its dry run, and the listing of the
    installed packages. *)
Definition main_call (L : Locals) (w : World) : Call :=
  call_of (CmdArgv (l_cmd L)) (Some (l_chdir L)) (l_path_prefix L) [] w.

Definition dry_run_call (L : Locals) (w : World) : Call :=
  call_of (CmdArgv (l_cmd L ++ ["--dry-run"])) (Some (l_chdir L)) (l_path_prefix L) [] w.

Definition list_call (locale : string) (pip : list string) (chdir : string)
           (w : World) : Call :=
  call_of (CmdArgv (pip ++ ["list"; "--format=freeze"])) (Some chdir) None
          [("LANG", locale); ("LC_ALL", locale); ("LC_MESSAGES", locale)] w.

(** The [locale] tool that [get_best_parsable_locale] finds in the state
    [w], and the subprocess it then runs. *)
Definition locale_tool (h : Host) (w : World) : option string :=
  match get_bin_path h (w_trace w) "locale" with
  | Some tool => if nonempty tool then Some tool else None
  | None => None
  end.

Definition locale_call (tool : string) (w : World) : Call :=
  call_of (CmdArgv [tool; "-a"]) None None [] w.

(** The subprocess of [_get_cmd_options]. *)
Definition help_call (cmd0 : string) (w : World) : Call :=
  call_of (CmdStr (cmd0 @@ " --help")) None None [] w.

(** [has_vcs] as [main] computes it from the raw names. *)
Definition has_vcs_of (p : Params) : bool :=
  existsb (fun pkg => nonempty pkg && _is_vcs_url pkg) (list_of (p_name p)).

(** The test of line 638. *)
Definition check_gate (p : Params) (extra_args : option string) : bool :=
  truthy extra_args || truthy (p_requirements p)
  || State_eqb (p_state p) latest || negb (truthy_list (p_name p)).

(** The test of lines 597 and 602: the version override is rejected
    when the names give several requirements or one requirement that has
    a version specifier. *)
Definition override_rejected (p : Params) : bool :=
  let reqs := _recover_package_name (list_of (p_name p)) in
  (1 <? length reqs)%nat
  || has_version_specifier (Package_init (hd EmptyString reqs)).

(** The executable of the provisioning command as [setup_virtualenv]
    resolves it (lines 408-413), in the state [w]. *)
Definition provisioning_tool (h : Host) (p : Params) (w : World) : option string :=
  match shlex_split h (p_virtualenv_command p) with
  | Some (cmd0 :: _) =>
      if String.eqb (PosixPath.basename cmd0) cmd0
      then get_bin_path h (w_trace w) cmd0
      else Some cmd0
  | _ => None
  end.

(** The keyword arguments of an exit report a change. *)
Definition reports_changed (kw : kwargs) : Prop :=
  kw_get "changed" kw = Some (VBool true).

(** A piece of the module leaves the process umask as it found it, and
    every subprocess it starts inherits that umask. *)
Definition keeps_umask {A} (m : M A) : Prop :=
  forall w o w',
    m w = (o, w') ->
    w_umask w' = w_umask w
    /\ exists calls,
         w_trace w' = w_trace w ++ calls
         /\ Forall (fun c => call_umask c = w_umask w) calls.

(** A piece of the module starts no subprocess. *)
Definition runs_nothing {A} (m : M A) : Prop :=
  forall w o w', m w = (o, w') -> w_trace w' = w_trace w.

(** A piece of the module leaves through [exit_json] only with keyword
    arguments satisfying [P]. *)
Definition exits_only {A} (P : kwargs -> Prop) (m : M A) : Prop :=
  forall w o w',
    m w = (o, w') ->
    match o with
    | ExitJson kw => P kw
    | _ => True
    end.

(** A piece of the module never returns to its caller: it leaves
    through [exit_json] or [fail_json], or with an exception. *)
Definition never_returns {A} (m : M A) : Prop :=
  forall w a w', m w <> (Ret a, w').

(** A piece of the module leaves [os.environ] as it found it, and every
    subprocess it starts inherits that environment. *)
Definition inherits_environ {A} (m : M A) : Prop :=
  forall w o w',
    m w = (o, w') ->
    w_environ w' = w_environ w
    /\ exists calls,
         w_trace w' = w_trace w ++ calls
         /\ Forall (fun c => call_environ c = w_environ w) calls.

(** The [umask] parameter is absent, or it is a text that [int(umask, 8)]
    parses to a number that [os.umask] takes (a C [int]). *)
Definition umask_accepted (h : Host) (p : Params) : Prop :=
  match p_umask p with
  | None => True
  | Some s =>
      nonempty s = true
      /\ exists m, int_base8 h s = inl m /\ (- 2147483648 <= m <= 2147483647)%Z
  end.

(** A subprocess is a dry run: the last word of its argument vector is
    [--dry-run]. *)
Definition is_dry_run (c : Call) : Prop :=
  exists argv, call_cmd c = CmdArgv (argv ++ ["--dry-run"]).

(** [chdir] after line 556, [py_bin] after lines 561-567 and
    [path_prefix] after lines 580-582 of [main]. *)
Definition chdir_of (h : Host) (p : Params) : string :=
  match p_chdir p with
  | None => gettempdir h
  | Some c => c
  end.

Definition py_bin_of (h : Host) (p : Params) : string :=
  if truthy (main_env p) then PosixPath.join3 (str_of (main_env p)) "bin" "python"
  else if truthy (p_executable p) then str_of (p_executable p)
  else sys_executable h.

Definition path_prefix_of (p : Params) : option string :=
  if truthy (main_env p) then Some (PosixPath.join2 (str_of (main_env p)) "bin")
  else None.

(** The words that lines 627-630 of [main] put at the end of the
    command. *)
Definition requirement_args (p : Params) : list string :=
  if truthy_list (p_name p) then
    match p_version p with
    | None => _recover_package_name (list_of (p_name p))
    | Some v => [hd EmptyString (_recover_package_name (list_of (p_name p))) @@ "==" @@ v]
    end
  else ["-r"; str_of (p_requirements p)].

(** The subprocess that creates the environment [env], with the
    argument vector [cmd], started in the state [w]. *)
Definition venv_call (cmd : list string) (env chdir : string) (w : World) : Call :=
  call_of (CmdArgv (cmd ++ [env])) (Some chdir) None [] w.

(* ================================================================= *)
(** ** Sample hosts and runs

    Concrete hosts on which the model is run.  On these command lines
    (words separated by blanks, no quotes, no escapes, no abbreviated
    options) the functions below compute what [shlex.split] and the [-m]
    parser return, and on texts of ASCII letters and digits what
    [int(s, 8)] returns. *)

Module Sample.

Definition split_words (s : string) : option (list string) := Some (words s).

Fixpoint find_m (argv : list string) (m : option string) : option (option string) :=
  match argv with
  | [] => Some m
  | a :: rest =>
      if String.eqb a "-m" then
        match rest with
        | [] => None
        | v :: rest' => find_m rest' (Some v)
        end
      else find_m rest m
  end.

Fixpoint octal_acc (s : string) (acc : Z) : option Z :=
  match s with
  | EmptyString => Some acc
  | String c s' =>
      let n := nat_of_ascii c in
      if ((48 <=? n) && (n <=? 55))%nat
      then octal_acc s' (acc * 8 + Z.of_nat (n - 48))%Z
      else None
  end.

Definition int8 (s : string) : Z + string :=
  let digits :=
    match s with
    | String c0 (String c1 rest) =>
        if Ascii.eqb c0 "0" && (Ascii.eqb c1 "o" || Ascii.eqb c1 "O") then rest else s
    | _ => s
    end in
  match (if nonempty digits then octal_acc digits 0%Z else None) with
  | Some z => inl z
  | None => inr ("invalid literal for int() with base 8: '" @@ s @@ "'")
  end.

Definition which (_ : list Call) (name : string) : option string :=
  Some ("/usr/bin/" @@ name).

Definition is_main_call (c : Call) : bool :=
  match call_cmd c with
  | CmdArgv argv => existsb (String.eqb "--python") argv
  | CmdStr _ => false
  end.

(** Subprocess results: the [--help] probe and the environment creation
    succeed silently, and so does [locale -a], which lists no locale (the
    framework then takes ["C"]); the package listing prints [before]
    until the main command has run and [after] from then on; the main
    command (and its dry run) gives [main_res]. *)
Definition run_with (main_res : Z * string * string) (before after : string)
  : list Call -> Call -> option (Z * string * string) :=
  fun tr c =>
    match call_cmd c with
    | CmdStr _ => Some (0%Z, EmptyString, EmptyString)
    | CmdArgv argv =>
        if existsb (String.eqb "--format=freeze") argv then
          Some (0%Z, if existsb is_main_call tr then after else before, EmptyString)
        else if existsb (String.eqb "--python") argv then Some main_res
        else Some (0%Z, EmptyString, EmptyString)
    end.

Definition host (exists_ : string -> bool)
           (run_ : list Call -> Call -> option (Z * string * string)) : Host :=
  {| shlex_split := split_words;
     argparse_m := fun argv => find_m argv None;
     int_base8 := int8;
     get_bin_path := which;
     path_exists := exists_;
     run := run_;
     sys_executable := "/usr/bin/python3";
     gettempdir := "/tmp";
     best_parsable_locale := fun _ => "C" |}.

Definition world : World :=
  {| w_umask := 18; w_environ := []; w_trace := [] |}.

(** Parameters with the defaults of the argument specification. *)
Definition params (state : State) (name : option (list string))
           (version requirements virtualenv : option string) (check_mode : bool)
  : Params :=
  {| p_state := state; p_name := name; p_version := version;
     p_requirements := requirements; p_virtualenv := virtualenv;
     p_virtualenv_site_packages := false;
     p_virtualenv_command := "uv venv";
     p_virtualenv_python := None;
     p_extra_args := None; p_editable := false; p_chdir := None;
     p_executable := Some "uv pip"; p_umask := None;
     p_break_system_packages := false; p_check_mode := check_mode |}.

Definition no_file (_ : string) : bool := false.
Definition any_file (_ : string) : bool := true.
Definition silent : Z * string * string := (0%Z, EmptyString, EmptyString).

End Sample.

(** The runs on which the statements below are exercised. *)
Module Scenario.

(** A run with the override [umask=027] whose command fails. *)
Definition umask_params : Params :=
  {| p_state := present; p_name := Some ["six"]; p_version := None;
     p_requirements := None; p_virtualenv := None;
     p_virtualenv_site_packages := false; p_virtualenv_command := "uv venv";
     p_virtualenv_python := None; p_extra_args := None; p_editable := false;
     p_chdir := None; p_executable := Some "uv pip"; p_umask := Some "027";
     p_break_system_packages := false; p_check_mode := false |}.

Definition umask_host : Host :=
  Sample.host Sample.no_file
              (Sample.run_with (2%Z, EmptyString, "error: no such package")
                               EmptyString EmptyString).

(** [state=absent]: the uninstall command exits with code 1 and reports
    on stderr that the package is not installed. *)
Definition absent_host : Host :=
  Sample.host Sample.no_file
              (Sample.run_with (1%Z, EmptyString, "warning: six is not installed")
                               EmptyString EmptyString).

Definition absent_params : Params :=
  Sample.params absent (Some ["six"]) None None None false.

(** The same, in a virtual environment that does not exist yet. *)
Definition absent_venv_params : Params :=
  Sample.params absent (Some ["six"]) None None (Some "/venv") false.

(** [state=absent] for two packages, one of them installed. *)
Definition absent_partly_host : Host :=
  Sample.host Sample.no_file
              (Sample.run_with (1%Z, "Successfully uninstalled five-1.0",
                                "warning: six is not installed")
                               EmptyString EmptyString).

Definition absent_partly_params : Params :=
  Sample.params absent (Some ["five"; "six"]) None None None false.

(** [state=present] from a requirements file that upgrades a package:
    the listings before and after differ. *)
Definition upgrade_host : Host :=
  Sample.host Sample.no_file (Sample.run_with Sample.silent "six==1.15.0" "six==1.16.0").

Definition requirements_params : Params :=
  Sample.params present None None (Some "requirements.txt") None false.

(** The same file when everything is installed already. *)
Definition satisfied_host : Host :=
  Sample.host Sample.no_file (Sample.run_with Sample.silent "six==1.16.0" "six==1.16.0").

(** The same, in a virtual environment that does not exist yet. *)
Definition requirements_venv_params : Params :=
  Sample.params present None None (Some "requirements.txt") (Some "/venv") false.

(** [state=present] for a package that is installed already, in a
    virtual environment that does not exist yet. *)
Definition audited_host : Host :=
  Sample.host Sample.no_file
              (Sample.run_with (0%Z, "Audited 1 package", EmptyString)
                               EmptyString EmptyString).

Definition present_venv_params : Params :=
  Sample.params present (Some ["six"]) None None (Some "/venv") false.

(** Check mode: the dry run announces an installation on stderr. *)
Definition dry_run_host : Host :=
  Sample.host Sample.no_file
              (Sample.run_with
                 (0%Z, EmptyString,
                  "Resolved 1 package" @@ String newline "Would install six==1.16.0")
                 EmptyString EmptyString).

Definition check_params : Params :=
  Sample.params present (Some ["six"]) None None None true.

(** Check mode: a dry run that announces the installation on stdout. *)
Definition dry_run_stdout_host : Host :=
  Sample.host Sample.no_file
              (Sample.run_with (0%Z, "Would install six==1.16.0", EmptyString)
                               EmptyString EmptyString).

(** Check mode with an empty list of names and no requirements file. *)
Definition check_no_name_params : Params :=
  Sample.params present (Some []) None None None true.

(** A version override for one requirement without a specifier. *)
Definition quiet_host : Host :=
  Sample.host Sample.no_file (Sample.run_with Sample.silent EmptyString EmptyString).

Definition version_params : Params :=
  Sample.params present (Some ["six"]) (Some "1.16.0") None None false.

(** A version override for two requirements; then the same in a virtual
    environment that does not exist yet, and the same again in check
    mode. *)
Definition version_two_params : Params :=
  Sample.params present (Some ["six"; "five"]) (Some "1.16.0") None None false.

Definition version_two_venv_params : Params :=
  Sample.params present (Some ["six"; "five"]) (Some "1.16.0") None (Some "/venv") false.

Definition version_two_venv_check_params : Params :=
  Sample.params present (Some ["six"; "five"]) (Some "1.16.0") None (Some "/venv") true.

(** A virtual environment to be created with the [venv] module and an
    explicit interpreter. *)
Definition venv_python_params : Params :=
  {| p_state := present; p_name := Some ["six"]; p_version := None;
     p_requirements := None; p_virtualenv := Some "/venv";
     p_virtualenv_site_packages := false;
     p_virtualenv_command := "python3 -m venv";
     p_virtualenv_python := Some "python3.9";
     p_extra_args := None; p_editable := false; p_chdir := None;
     p_executable := Some "uv pip"; p_umask := None;
     p_break_system_packages := false; p_check_mode := false |}.

(** An empty list of names, no requirements file, and a virtual
    environment that does not exist yet. *)
Definition no_name_venv_params : Params :=
  Sample.params present (Some []) None None (Some "/venv") false.

(** [state=latest] together with a version. *)
Definition latest_version_params : Params :=
  Sample.params latest (Some ["six"]) (Some "1.16.0") None None false.

(** A umask with a digit that is not octal. *)
Definition bad_umask_params : Params :=
  {| p_state := present; p_name := Some ["six"]; p_version := None;
     p_requirements := None; p_virtualenv := None;
     p_virtualenv_site_packages := false; p_virtualenv_command := "uv venv";
     p_virtualenv_python := None; p_extra_args := None; p_editable := false;
     p_chdir := None; p_executable := Some "uv pip"; p_umask := Some "028";
     p_break_system_packages := false; p_check_mode := false |}.

(** An empty umask. *)
Definition empty_umask_params : Params :=
  {| p_state := present; p_name := Some ["six"]; p_version := None;
     p_requirements := None; p_virtualenv := None;
     p_virtualenv_site_packages := false; p_virtualenv_command := "uv venv";
     p_virtualenv_python := None; p_extra_args := None; p_editable := false;
     p_chdir := None; p_executable := Some "uv pip"; p_umask := Some EmptyString;
     p_break_system_packages := false; p_check_mode := false |}.

(** A host on whose search path nothing is found. *)
Definition bare_host : Host :=
  {| shlex_split := Sample.split_words;
     argparse_m := fun argv => Sample.find_m argv None;
     int_base8 := Sample.int8;
     get_bin_path := fun _ _ => None;
     path_exists := Sample.no_file;
     run := Sample.run_with Sample.silent EmptyString EmptyString;
     sys_executable := "/usr/bin/python3";
     gettempdir := "/tmp";
     best_parsable_locale := fun _ => "C" |}.

(** A host whose provisioning tool lists its options on [--help]. *)
Definition help_text : string :=
  "Usage: virtualenv [OPTIONS] DEST_DIR" @@ String newline
  "  --no-site-packages  -q" @@ String newline "  --system-site-packages".

Definition help_host : Host :=
  Sample.host Sample.no_file
              (fun tr c =>
                 match call_cmd c with
                 | CmdStr _ => Some (0%Z, help_text, EmptyString)
                 | CmdArgv _ => Some (0%Z, "created", EmptyString)
                 end).

(** [break_system_packages] for one package. *)
Definition break_params : Params :=
  {| p_state := present; p_name := Some ["six"]; p_version := None;
     p_requirements := None; p_virtualenv := None;
     p_virtualenv_site_packages := false; p_virtualenv_command := "uv venv";
     p_virtualenv_python := None; p_extra_args := None; p_editable := false;
     p_chdir := None; p_executable := Some "uv pip"; p_umask := None;
     p_break_system_packages := true; p_check_mode := false |}.

Definition break_world : World :=
  {| w_umask := 18; w_environ := [("PIP_BREAK_SYSTEM_PACKAGES", "1")]; w_trace := [] |}.

Definition break_locals : Locals :=
  {| l_env := None; l_chdir := "/tmp"; l_out := EmptyString; l_err := EmptyString;
     l_venv_created := false; l_pip := ["/usr/bin/uv"; "pip"];
     l_cmd := ["/usr/bin/uv"; "pip"; "install"; "--python"; "uv pip"; "six"];
     l_path_prefix := None; l_has_vcs := false; l_extra_args := None |}.

(** A requirement in two tokens, with extra arguments, in an existing
    virtual environment given relative to [chdir]. *)
Definition layout_host : Host :=
  Sample.host Sample.any_file (Sample.run_with Sample.silent EmptyString EmptyString).

Definition layout_params : Params :=
  {| p_state := present; p_name := Some ["django>1.11.1"; "<1.11.3"]; p_version := None;
     p_requirements := None; p_virtualenv := Some "venv";
     p_virtualenv_site_packages := false; p_virtualenv_command := "uv venv";
     p_virtualenv_python := None; p_extra_args := Some "--no-deps"; p_editable := false;
     p_chdir := Some "/srv/app"; p_executable := Some "uv pip"; p_umask := None;
     p_break_system_packages := false; p_check_mode := false |}.

Definition layout_locals : Locals :=
  {| l_env := Some "/srv/app/venv"; l_chdir := "/srv/app";
     l_out := EmptyString; l_err := EmptyString;
     l_venv_created := false; l_pip := ["/usr/bin/uv"; "pip"];
     l_cmd := ["/usr/bin/uv"; "pip"; "install"; "--python"; "/srv/app/venv/bin/python";
               "--no-deps"; "django>1.11.1,<1.11.3"];
     l_path_prefix := Some "/srv/app/venv/bin"; l_has_vcs := false;
     l_extra_args := Some "--no-deps" |}.

(** An editable installation with extra arguments. *)
Definition editable_params : Params :=
  {| p_state := present; p_name := Some ["./src/project"]; p_version := None;
     p_requirements := None; p_virtualenv := None;
     p_virtualenv_site_packages := false; p_virtualenv_command := "uv venv";
     p_virtualenv_python := None; p_extra_args := Some "--no-deps --quiet";
     p_editable := true;
     p_chdir := None; p_executable := Some "uv pip"; p_umask := None;
     p_break_system_packages := false; p_check_mode := false |}.

(** An empty [executable]. *)
Definition empty_executable_params : Params :=
  {| p_state := present; p_name := Some ["six"]; p_version := None;
     p_requirements := None; p_virtualenv := None;
     p_virtualenv_site_packages := false; p_virtualenv_command := "uv venv";
     p_virtualenv_python := None; p_extra_args := None; p_editable := false;
     p_chdir := None; p_executable := Some EmptyString; p_umask := None;
     p_break_system_packages := false; p_check_mode := false |}.

End Scenario.

(* ================================================================= *)
(** ** Properties of the string primitives *)

Lemma concat_cons2 (sep x y : string) (l : list string) :
  join sep (x :: y :: l) = x @@ sep @@ join sep (y :: l).
Proof. reflexivity. Qed.

Lemma append_empty_r (s : string) : s @@ EmptyString = s.
Proof. induction s as [|c s IH]; simpl; [reflexivity | now rewrite IH]. Qed.

Lemma append_assoc (a b c : string) : (a @@ b) @@ c = a @@ b @@ c.
Proof. induction a as [|x a IH]; simpl; [reflexivity | now rewrite IH]. Qed.

Lemma join_app (sep : string) (l1 l2 : list string) :
  l1 <> [] -> l2 <> [] ->
  join sep (l1 ++ l2) = join sep l1 @@ sep @@ join sep l2.
Proof.
  intros H1 H2. induction l1 as [|x l1 IH]; [congruence|].
  destruct l1 as [|y l1].
  - destruct l2 as [|z l2]; [congruence | reflexivity].
  - change ((x :: y :: l1) ++ l2) with (x :: y :: (l1 ++ l2)).
    rewrite !concat_cons2.
    change (y :: l1 ++ l2) with ((y :: l1) ++ l2).
    rewrite IH by discriminate. now rewrite !append_assoc.
Qed.

Lemma split_acc_nonempty (sep : ascii) (s cur : string) : split_acc sep cur s <> [].
Proof.
  revert cur. induction s as [|c s IH]; intros cur; simpl; [discriminate|].
  destruct (Ascii.eqb c sep); [discriminate | apply IH].
Qed.

Lemma join_split_acc (s cur : string) :
  join "," (split_acc ","%char cur s) = cur @@ s.
Proof.
  revert cur. induction s as [|c s IH]; intros cur.
  - simpl. now rewrite append_empty_r.
  - cbn [split_acc]. destruct (Ascii.eqb c ","%char) eqn:E.
    + apply Ascii.eqb_eq in E. subst c.
      pose proof (split_acc_nonempty ","%char s EmptyString) as Hne.
      destruct (split_acc ","%char EmptyString s) as [|y l] eqn:El; [congruence|].
      rewrite concat_cons2, <- El, IH. reflexivity.
    + rewrite IH, append_assoc. reflexivity.
Qed.

Lemma join_split (s : string) : join "," (split ","%char s) = s.
Proof. unfold split. now rewrite join_split_acc. Qed.

Lemma join_flatten_names (names : list string) :
  join "," (flatten_names names) = join "," names.
Proof.
  unfold flatten_names.
  induction names as [|x names IH]; [reflexivity|].
  destruct names as [|y names].
  - simpl. rewrite app_nil_r. apply join_split.
  - change (flat_map (split ","%char) (x :: y :: names))
      with (split ","%char x ++ flat_map (split ","%char) (y :: names)).
    rewrite join_app.
    + rewrite IH, join_split. reflexivity.
    + apply split_acc_nonempty.
    + simpl. intros H. apply app_eq_nil in H. destruct H as [H _].
      revert H. apply split_acc_nonempty.
Qed.

Lemma join_concat_groups (gs : list (list string)) :
  Forall (fun g => g <> []) gs ->
  join "," (map (join ",") gs) = join "," (concat gs).
Proof.
  induction 1 as [|g gs Hg Hgs IH]; [reflexivity|].
  destruct gs as [|g' gs].
  - simpl. now rewrite app_nil_r.
  - change (map (join ",") (g :: g' :: gs))
      with (join "," g :: join "," g' :: map (join ",") gs).
    rewrite concat_cons2.
    change (join "," g' :: map (join ",") gs) with (map (join ",") (g' :: gs)).
    rewrite IH. change (concat (g :: g' :: gs)) with (g ++ concat (g' :: gs)).
    rewrite join_app; [reflexivity | assumption |].
    simpl. inversion Hgs as [|? ? Hg' _]; subst.
    destruct g'; [congruence | discriminate].
Qed.

(* ================================================================= *)
(** ** The reconstruction loop and its groups *)

Lemma recover_loop_groups (l parts : list string) (groups : list (list string)) (ib : bool) :
  recover_loop l parts (map (join ",") groups) ib
  = map (join ",") (group_loop l parts groups ib).
Proof.
  revert parts groups ib. induction l as [|name rest IH]; intros parts groups ib.
  - simpl. now rewrite map_app.
  - cbn [recover_loop group_loop].
    destruct (_is_package_name name && negb ib).
    + destruct parts as [|x parts].
      * apply IH.
      * rewrite <- IH. now rewrite map_app.
    + apply IH.
Qed.

Lemma group_loop_acc (l parts : list string) (groups : list (list string)) (ib : bool) :
  group_loop l parts groups ib = groups ++ group_loop l parts [] ib.
Proof.
  revert parts groups ib. induction l as [|name rest IH]; intros parts groups ib.
  - reflexivity.
  - cbn [group_loop].
    destruct (_is_package_name name && negb ib).
    + destruct parts as [|x parts].
      * apply IH.
      * rewrite IH. rewrite (IH _ ([] ++ _)). now rewrite app_assoc.
    + apply IH.
Qed.

(** The groups of a run: the first one extends the tokens already
    collected, the tokens come out in order, and no later group is
    empty. *)
Lemma group_loop_shape (l parts : list string) (ib : bool) :
  exists g gs,
    group_loop l parts [] ib = (parts ++ g) :: gs
    /\ g ++ concat gs = l
    /\ Forall (fun x => x <> []) gs
    /\ (l <> [] -> parts ++ g <> []).
Proof.
  revert parts ib. induction l as [|name rest IH]; intros parts ib.
  - exists [], []. simpl. rewrite app_nil_r. repeat split; auto; congruence.
  - cbn [group_loop].
    destruct (_is_package_name name && negb ib).
    + destruct parts as [|x parts].
      * destruct (IH ([] ++ [name])
                    (if (if str_in "[" name then true else ib) && str_in "]" name
                     then false else if str_in "[" name then true else ib))
          as (g & gs & E & Hc & Hne & _).
        exists (name :: g), gs. rewrite E. simpl. repeat split; auto.
        -- now rewrite <- Hc.
        -- discriminate.
      * rewrite group_loop_acc.
        destruct (IH ([] ++ [name])
                    (if (if str_in "[" name then true else ib) && str_in "]" name
                     then false else if str_in "[" name then true else ib))
          as (g & gs & E & Hc & Hne & _).
        exists [], (([name] ++ g) :: gs). rewrite E. simpl. rewrite app_nil_r.
        repeat split; auto.
        -- now rewrite <- Hc.
        -- constructor; [discriminate | assumption].
        -- discriminate.
    + destruct (IH (parts ++ [name])
                  (if (if str_in "[" name then true else ib) && str_in "]" name
                   then false else if str_in "[" name then true else ib))
        as (g & gs & E & Hc & Hne & _).
      exists (name :: g), gs. rewrite E. rewrite <- app_assoc. simpl.
      repeat split; auto.
      * now rewrite <- Hc.
      * destruct parts; discriminate.
Qed.

(** Reading a prefix of the tokens leaves the loop in some state whose
    finished groups and collected tokens are that prefix. *)
Lemma group_loop_prefix (pre l parts : list string) (ib : bool) :
  exists gs1 g1 ib',
    group_loop (pre ++ l) parts [] ib = gs1 ++ group_loop l g1 [] ib'
    /\ concat gs1 ++ g1 = parts ++ pre.
Proof.
  revert parts ib. induction pre as [|name pre IH]; intros parts ib.
  - exists [], parts, ib. simpl. now rewrite app_nil_r.
  - change ((name :: pre) ++ l) with (name :: (pre ++ l)). cbn [group_loop].
    destruct (_is_package_name name && negb ib).
    + destruct parts as [|x parts].
      * destruct (IH ([] ++ [name])
                    (if (if str_in "[" name then true else ib) && str_in "]" name
                     then false else if str_in "[" name then true else ib))
          as (gs1 & g1 & ib' & E & Hc).
        exists gs1, g1, ib'. split; [exact E | exact Hc].
      * rewrite group_loop_acc.
        destruct (IH ([] ++ [name])
                    (if (if str_in "[" name then true else ib) && str_in "]" name
                     then false else if str_in "[" name then true else ib))
          as (gs1 & g1 & ib' & E & Hc).
        exists (([] ++ [x :: parts]) ++ gs1), g1, ib'. rewrite E. split.
        -- now rewrite app_assoc.
        -- simpl. rewrite <- app_assoc, Hc. reflexivity.
    + destruct (IH (parts ++ [name])
                  (if (if str_in "[" name then true else ib) && str_in "]" name
                   then false else if str_in "[" name then true else ib))
        as (gs1 & g1 & ib' & E & Hc).
      exists gs1, g1, ib'. split; [exact E|]. rewrite Hc. now rewrite <- app_assoc.
Qed.

(** Inside brackets, tokens without ["]"] are collected, whatever they
    look like. *)
Lemma group_loop_inside (mid l parts : list string) :
  Forall (fun x => str_in "]" x = false) mid ->
  group_loop (mid ++ l) parts [] true = group_loop l (parts ++ mid) [] true.
Proof.
  intros H. revert parts. induction H as [|name mid Hn Hmid IH]; intros parts.
  - simpl. now rewrite app_nil_r.
  - change ((name :: mid) ++ l) with (name :: (mid ++ l)). cbn [group_loop].
    rewrite andb_false_r, Hn.
    replace (if str_in "[" name then true else true) with true
      by (destruct (str_in "[" name); reflexivity).
    cbn [andb]. rewrite IH. now rewrite <- app_assoc.
Qed.

(** Inside brackets, the token with the ["]"] is collected too and ends
    the bracket. *)
Lemma group_loop_close (c : string) (l parts : list string) :
  str_in "]" c = true ->
  group_loop (c :: l) parts [] true = group_loop l (parts ++ [c]) [] false.
Proof.
  intros H. cbn [group_loop]. rewrite andb_false_r, H.
  replace (if str_in "[" c then true else true) with true
    by (destruct (str_in "[" c); reflexivity).
  reflexivity.
Qed.

(** A token with ["["] and no ["]"] opens the bracket: it joins the
    tokens collected so far or starts a requirement of its own. *)
Lemma group_loop_open (t : string) (l parts : list string) (ib : bool) :
  str_in "[" t = true -> str_in "]" t = false ->
  exists gs1 g1,
    group_loop (t :: l) parts [] ib = gs1 ++ group_loop l (g1 ++ [t]) [] true
    /\ concat gs1 ++ g1 = parts.
Proof.
  intros Ho Hc. cbn [group_loop]. rewrite Ho, Hc. cbn [andb].
  destruct (_is_package_name t && negb ib).
  - destruct parts as [|x parts].
    + exists [], []. split; reflexivity.
    + exists [x :: parts], []. split.
      * now rewrite group_loop_acc.
      * simpl. now rewrite !app_nil_r.
  - exists [], parts. split; reflexivity.
Qed.

(* ================================================================= *)
(** ** The Specifier Reconstructor *)

(** C1: the two inputs of the docstring of [_recover_package_name], the
    split list and the pre-joined list, are both mapped to exactly
    [django>1.11.1,<1.11.3], [ipaddress], [simpleproject>1.1.0,<2.0.0]. *)
Theorem C1_recover_docstring_examples :
  _recover_package_name
    ["django>1.11.1"; "<1.11.3"; "ipaddress"; "simpleproject>1.1.0"; "<2.0.0"]
  = ["django>1.11.1,<1.11.3"; "ipaddress"; "simpleproject>1.1.0,<2.0.0"]
  /\
  _recover_package_name
    ["django>1.11.1,<1.11.3,ipaddress"; "simpleproject>1.1.0,<2.0.0"]
  = ["django>1.11.1,<1.11.3"; "ipaddress"; "simpleproject>1.1.0,<2.0.0"].
Proof. split; reflexivity. Qed.

(** C2 (amended): bracket tracking.  Let the flattened tokens be
    [pre ++ t :: mid ++ c :: post], where [t] contains ["["] and no
    ["]"], no token of [mid] contains ["]"], and [c] contains ["]"] (so
    [c] is the first later token that does).  Then [t], the tokens of
    [mid] and [c] all lie, in this order and [","]-joined, in one and the
    same output requirement, whatever the tokens of [mid] and [c] begin
    with: the output is the [","]-join of a grouping of the tokens in
    which [t :: mid ++ [c]] is a segment of one group. *)
Theorem C2_bracket_tokens_stay_together
        (names pre : list string) (t : string) (mid : list string)
        (c : string) (post : list string) :
  flatten_names names = pre ++ t :: mid ++ c :: post ->
  str_in "[" t = true ->
  str_in "]" t = false ->
  Forall (fun x => str_in "]" x = false) mid ->
  str_in "]" c = true ->
  exists gs1 g1 g2 gs2,
    _recover_package_name names
    = map (join ",") gs1 ++ join "," (g1 ++ t :: mid ++ c :: g2) :: map (join ",") gs2
    /\ concat gs1 ++ g1 = pre
    /\ g2 ++ concat gs2 = post.
Proof.
  intros Hflat Ho Hc Hmid Hclose.
  unfold _recover_package_name. rewrite Hflat.
  change (recover_loop (pre ++ t :: mid ++ c :: post) [] [] false)
    with (recover_loop (pre ++ t :: mid ++ c :: post) [] (map (join ",") []) false).
  rewrite recover_loop_groups.
  destruct (group_loop_prefix pre (t :: mid ++ c :: post) [] false)
    as (gsa & ga & ib & Ea & Ha).
  destruct (group_loop_open t (mid ++ c :: post) ga ib Ho Hc)
    as (gsb & gb & Eb & Hb).
  destruct (group_loop_shape post ((gb ++ [t]) ++ mid ++ [c]) false)
    as (g2 & gs2 & Es & Hs & _ & _).
  rewrite Ea, Eb, (group_loop_inside mid (c :: post) (gb ++ [t]) Hmid).
  rewrite (group_loop_close c post _ Hclose).
  rewrite <- (app_assoc (gb ++ [t]) mid [c]), Es.
  exists (gsa ++ gsb), gb, g2, gs2. split; [|split].
  - rewrite !map_app. cbn [map]. rewrite <- !app_assoc. reflexivity.
  - rewrite concat_app, <- app_assoc, Hb. exact Ha.
  - exact Hs.
Qed.

Lemma C2_bracket_tokens_stay_together_witness :
  exists gs1 g1 g2 gs2,
    _recover_package_name ["dep"; "pkg[a,b,c"; "d]>1"; "other"]
    = map (join ",") gs1
      ++ join "," (g1 ++ "pkg[a" :: ["b"; "c"] ++ "d]>1" :: g2) :: map (join ",") gs2
    /\ concat gs1 ++ g1 = ["dep"]
    /\ g2 ++ concat gs2 = ["other"].
Proof.
  apply (C2_bracket_tokens_stay_together
           ["dep"; "pkg[a,b,c"; "d]>1"; "other"] ["dep"] "pkg[a" ["b"; "c"] "d]>1" ["other"]).
  - reflexivity.
  - reflexivity.
  - reflexivity.
  - repeat constructor.
  - reflexivity.
Defined.

(** Two inputs against C2 as stated.  In each, the first token between
    the commas has a ["["] that no ["]"] of the same token matches (it
    follows a closed pair, respectively a stray ["]"]), and the next
    token is the first later one that contains ["]"]; since the first
    token contains a ["]"] as well, the loop leaves the brackets at once
    and the output has a boundary between the two tokens. *)
Lemma C2_counterexample :
  (flatten_names ["pkg[a][b,c]"; "other"] = ["pkg[a][b"; "c]"; "other"]
   /\ _recover_package_name ["pkg[a][b,c]"; "other"] = ["pkg[a][b"; "c]"; "other"])
  /\
  (flatten_names ["x]y[z"; "w]"; "other"] = ["x]y[z"; "w]"; "other"]
   /\ _recover_package_name ["x]y[z"; "w]"; "other"] = ["x]y[z"; "w]"; "other"]).
Proof. repeat split; reflexivity. Qed.

(** C10: joining the output of [_recover_package_name] with [","] gives
    the same text as joining its input with [","] (for every input list,
    the empty one included); the output is the [","]-join of a grouping
    of the flattened tokens, all of them, in their order. *)
Theorem C10_recover_preserves_joined_text (names : list string) :
  join "," (_recover_package_name names) = join "," names
  /\ exists gs, _recover_package_name names = map (join ",") gs
                /\ concat gs = flatten_names names.
Proof.
  unfold _recover_package_name.
  change (recover_loop (flatten_names names) [] [] false)
    with (recover_loop (flatten_names names) [] (map (join ",") []) false).
  rewrite recover_loop_groups.
  destruct (group_loop_shape (flatten_names names) [] false)
    as (g & gs & E & Hc & Hne & Hg).
  rewrite E. cbn [app] in *. split.
  - destruct (flatten_names names) as [|tok toks] eqn:Ef.
    + apply app_eq_nil in Hc. destruct Hc as [-> Hgs].
      assert (gs = []) as ->.
      { destruct gs as [|g' gs]; [reflexivity|].
        inversion Hne as [|? ? Hg' _]; subst. simpl in Hgs.
        apply app_eq_nil in Hgs. destruct Hgs. congruence. }
      rewrite <- (join_flatten_names names), Ef. reflexivity.
    + rewrite join_concat_groups.
      * cbn [concat]. rewrite Hc, <- Ef. apply (join_flatten_names names).
      * constructor; [apply Hg; discriminate | exact Hne].
  - exists (g :: gs). split; [reflexivity | exact Hc].
Qed.

(* ================================================================= *)
(** ** Running the monad *)

Lemma bind_ret {A B} (m : M A) (f : A -> M B) (w w' : World) (a : A) :
  m w = (Ret a, w') -> bind m f w = f a w'.
Proof. intros H. unfold bind. now rewrite H. Qed.

Lemma bind_exit {A B} (m : M A) (f : A -> M B) (w w' : World) (kw : kwargs) :
  m w = (ExitJson kw, w') -> bind m f w = (ExitJson kw, w').
Proof. intros H. unfold bind. now rewrite H. Qed.

Lemma bind_fail {A B} (m : M A) (f : A -> M B) (w w' : World) (kw : kwargs) :
  m w = (FailJson kw, w') -> bind m f w = (FailJson kw, w').
Proof. intros H. unfold bind. now rewrite H. Qed.

Lemma bind_raise {A B} (m : M A) (f : A -> M B) (w w' : World) (e : string) :
  m w = (Raise e, w') -> bind m f w = (Raise e, w').
Proof. intros H. unfold bind. now rewrite H. Qed.

Lemma run_command_eq (h : Host) cmd cwd pp eu (w : World) (result : Z * string * string) :
  run h (w_trace w) (call_of cmd cwd pp eu w) = Some result ->
  run_command h cmd cwd pp eu w = (Ret result, add_call w (call_of cmd cwd pp eu w)).
Proof. intros H. unfold run_command. now rewrite H. Qed.

Lemma call_of_add_call cmd cwd pp eu (w : World) (c : Call) :
  call_of cmd cwd pp eu (add_call w c) = call_of cmd cwd pp eu w.
Proof. reflexivity. Qed.

(* ================================================================= *)
(** ** The umask is kept by every piece of the [try] block *)

Section KeepsUmask.

Context {A B : Type}.

Lemma keeps_lift (o : Outcome A) : keeps_umask (lift o).
Proof.
  intros w o' w' H. inversion H; subst. split; [reflexivity|].
  exists []. rewrite app_nil_r. split; [reflexivity | constructor].
Qed.

Lemma keeps_ret (a : A) : keeps_umask (ret a).
Proof. apply (keeps_lift (Ret a)). Qed.

Lemma keeps_exit_json (kw : kwargs) : keeps_umask (@exit_json A kw).
Proof. apply (keeps_lift (ExitJson kw)). Qed.

Lemma keeps_fail_json (kw : kwargs) : keeps_umask (@fail_json A kw).
Proof. apply (keeps_lift (FailJson kw)). Qed.

Lemma keeps_raise (e : string) : keeps_umask (@raise A e).
Proof. apply (keeps_lift (Raise e)). Qed.

Lemma keeps_bind (m : M A) (f : A -> M B) :
  keeps_umask m -> (forall a, keeps_umask (f a)) -> keeps_umask (bind m f).
Proof.
  intros Hm Hf w o w' H. unfold bind in H.
  destruct (m w) as [o1 w1] eqn:E.
  destruct (Hm _ _ _ E) as (Hu & calls & Ht & Hc).
  destruct o1 as [a|kw|kw|e];
    try (inversion H; subst; split; [exact Hu | exists calls; split; assumption]).
  destruct (Hf a _ _ _ H) as (Hu2 & calls2 & Ht2 & Hc2).
  split; [congruence|].
  exists (calls ++ calls2). split.
  - rewrite Ht2, Ht. now rewrite app_assoc.
  - apply Forall_app. split; [exact Hc|].
    rewrite Hu in Hc2. exact Hc2.
Qed.

End KeepsUmask.

Lemma keeps_when (c : bool) (m : M unit) : keeps_umask m -> keeps_umask (when c m).
Proof. intros H. destruct c; [exact H | apply keeps_ret]. Qed.

Lemma keeps_run_command (h : Host) cmd cwd pp eu :
  keeps_umask (run_command h cmd cwd pp eu).
Proof.
  intros w o w' H. unfold run_command in H.
  destruct (run h (w_trace w) (call_of cmd cwd pp eu w)); inversion H; subst.
  - split; [reflexivity|]. eexists. split; [reflexivity|].
    constructor; [reflexivity | constructor].
  - split; [reflexivity|]. exists []. rewrite app_nil_r.
    split; [reflexivity | constructor].
Qed.

Lemma keeps_os_environ_set (k v : string) : keeps_umask (os_environ_set k v).
Proof.
  intros w o w' H. inversion H; subst. split; [reflexivity|].
  exists []. simpl. rewrite app_nil_r. split; [reflexivity | constructor].
Qed.

Lemma keeps_module_get_bin_path (h : Host) (arg : string) :
  keeps_umask (module_get_bin_path h arg).
Proof.
  intros w o w' H. inversion H; subst. split; [reflexivity|].
  exists []. rewrite app_nil_r. split; [reflexivity | constructor].
Qed.

Lemma keeps_module_get_bin_path_required (h : Host) (arg : string) :
  keeps_umask (module_get_bin_path_required h arg).
Proof.
  intros w o w' H. unfold module_get_bin_path_required in H.
  destruct (get_bin_path h (w_trace w) arg); inversion H; subst;
    (split; [reflexivity|]; exists []; rewrite app_nil_r;
     split; [reflexivity | constructor]).
Qed.

Lemma keeps__fail {A} (cmd : list string) (out err : string) :
  keeps_umask (@_fail A cmd out err).
Proof. apply keeps_fail_json. Qed.

Create HintDb keeps.
#[local] Hint Resolve keeps_ret keeps_lift keeps_exit_json keeps_fail_json
  keeps_raise keeps_when keeps_run_command keeps_os_environ_set
  keeps_module_get_bin_path keeps_module_get_bin_path_required keeps__fail
  : keeps.

(** One step through a piece of monadic code. *)
Ltac keeps_step :=
  match goal with
  | |- keeps_umask (bind _ _) => apply keeps_bind; [|intros]
  | |- keeps_umask (when _ _) => apply keeps_when
  | |- keeps_umask (match ?x with _ => _ end) => destruct x
  | |- keeps_umask (if ?b then _ else _) => destruct b
  | |- keeps_umask (let _ := _ in _) => cbv zeta
  | |- keeps_umask _ => solve [auto with keeps]
  end.

Ltac keeps_tac := repeat keeps_step.

Lemma keeps_find_candidate (h : Host) (l : list (list string)) :
  keeps_umask (find_candidate h l).
Proof.
  induction l as [|argv l IH]; cbn [find_candidate]; [apply keeps_ret|].
  destruct argv as [|b rest]; [apply keeps_raise|].
  apply keeps_bind; [apply keeps_module_get_bin_path|].
  intros [uv|]; [apply keeps_ret | exact IH].
Qed.
#[local] Hint Resolve keeps_find_candidate : keeps.

Lemma keeps__get_pip (h : Host) (e : option string) : keeps_umask (_get_pip h e).
Proof. unfold _get_pip. keeps_tac. Qed.

Lemma keeps__get_cmd_options (h : Host) (cmd : string) :
  keeps_umask (_get_cmd_options h cmd).
Proof. unfold _get_cmd_options. keeps_tac. Qed.

Lemma keeps_get_best_parsable_locale (h : Host) :
  keeps_umask (get_best_parsable_locale h).
Proof. unfold get_best_parsable_locale. keeps_tac. Qed.
#[local] Hint Resolve keeps_get_best_parsable_locale : keeps.

Lemma keeps__get_packages (h : Host) (pip : list string) (chdir : string) :
  keeps_umask (_get_packages h pip chdir).
Proof. unfold _get_packages. keeps_tac. Qed.
#[local] Hint Resolve keeps__get_pip keeps__get_cmd_options keeps__get_packages : keeps.

Lemma keeps_setup_virtualenv (h : Host) (p : Params) (env chdir out err : string) :
  keeps_umask (setup_virtualenv h p env chdir out err).
Proof. unfold setup_virtualenv. keeps_tac. Qed.
#[local] Hint Resolve keeps_setup_virtualenv : keeps.

Lemma keeps_main_venv (h : Host) (p : Params) (env : option string) (chdir : string) :
  keeps_umask (main_venv h p env chdir).
Proof. unfold main_venv. keeps_tac. Qed.

Lemma keeps_main_packages (p : Params) : keeps_umask (main_packages p).
Proof. unfold main_packages. keeps_tac. Qed.
#[local] Hint Resolve keeps_main_venv keeps_main_packages : keeps.

Lemma keeps_main_prepare (h : Host) (p : Params) (env : option string) :
  keeps_umask (main_prepare h p env).
Proof. unfold main_prepare. keeps_tac. Qed.

Lemma keeps_main_check (h : Host) (p : Params) (L : Locals) :
  keeps_umask (main_check h p L).
Proof. unfold main_check. keeps_tac. Qed.

Lemma keeps_main_before (h : Host) (p : Params) (L : Locals) :
  keeps_umask (main_before h p L).
Proof. unfold main_before. keeps_tac. Qed.

Lemma keeps_main_report (h : Host) (p : Params) (L : Locals) before rc out_pip err_pip :
  keeps_umask (main_report h p L before rc out_pip err_pip).
Proof. unfold main_report. keeps_tac. Qed.
#[local] Hint Resolve keeps_main_prepare keeps_main_check keeps_main_before
  keeps_main_report : keeps.

Lemma keeps_main_apply (h : Host) (p : Params) (L : Locals) :
  keeps_umask (main_apply h p L).
Proof. unfold main_apply. keeps_tac. Qed.
#[local] Hint Resolve keeps_main_apply : keeps.

Lemma keeps_main_try (h : Host) (p : Params) : keeps_umask (main_try h p).
Proof. unfold main_try. keeps_tac. Qed.

(* ================================================================= *)
(** ** The umask override *)

Lemma land_511_small (z : Z) : (0 <= z < 512)%Z -> Z.land z 511 = z.
Proof.
  intros H. change 511%Z with (Z.ones 9).
  rewrite Z.land_ones by lia. apply Z.mod_small. simpl. lia.
Qed.

Lemma c_int_small (z : Z) :
  (0 <= z < 512)%Z -> ((- 2147483648 <=? z) && (z <=? 2147483647))%Z = true.
Proof. intros H. apply andb_true_intro. split; apply Z.leb_le; lia. Qed.

(** The [finally] clause puts back a nine-bit umask and runs nothing. *)
Lemma main_finally_restores (old : Z) (w1 : World) :
  (0 <= old < 512)%Z ->
  exists w2, main_finally (Some old) w1 = (Ret tt, w2)
             /\ w_umask w2 = old /\ w_trace w2 = w_trace w1
             /\ w_environ w2 = w_environ w1.
Proof.
  intros H. unfold main_finally, bind, os_umask. rewrite (c_int_small old H).
  eexists. split; [reflexivity|]. cbn. rewrite (land_511_small old H). auto.
Qed.

(** What [main_umask] returns and leaves behind. *)
Lemma main_umask_ret (h : Host) (p : Params) (w w0 : World) (old : option Z) :
  main_umask h p w = (Ret old, w0) ->
  w_trace w0 = w_trace w /\ w_environ w0 = w_environ w
  /\ match old with
     | Some z => z = w_umask w
     | None => w0 = w
     end.
Proof.
  unfold main_umask, bind, ret, fail_json, raise, os_umask.
  destruct (p_umask p) as [s|].
  - destruct (nonempty s).
    + destruct (int_base8 h s) as [z|e]; [|discriminate].
      destruct ((- 2147483648 <=? z) && (z <=? 2147483647))%Z; [|discriminate].
      intros H. inversion H; subst. cbn. auto.
    + discriminate.
  - intros H. inversion H; subst. auto.
Qed.

(** A run that gets through the umask prologue ends as the [try] block
    ends, having run the same subprocesses. *)
Lemma main_of_try (h : Host) (p : Params) (w w0 w1 : World)
      (old : option Z) (o : Outcome unit) :
  wf_world w ->
  main_umask h p w = (Ret old, w0) ->
  main_try h p w0 = (o, w1) ->
  exists w2, main h p w = (o, w2)
             /\ w_trace w2 = w_trace w1 /\ w_environ w2 = w_environ w1.
Proof.
  intros Hwf Hu Ht. unfold main. rewrite (bind_ret _ _ _ _ _ Hu).
  unfold try_finally. rewrite Ht.
  destruct (main_umask_ret _ _ _ _ _ Hu) as (_ & _ & Hold).
  destruct old as [z|].
  - subst z. destruct (main_finally_restores (w_umask w) w1 Hwf) as (w2 & E & _ & Htr & Hen).
    rewrite E. exists w2. auto.
  - exists w1. auto.
Qed.

(** A run that reaches the check-mode test ends as the block it then
    enters ends. *)
Lemma main_of_reach (h : Host) (p : Params) (w w1 w2 : World)
      (L : Locals) (o : Outcome unit) :
  wf_world w ->
  reaches_command h p w L w1 ->
  (if p_check_mode p then main_check h p L else main_apply h p L) w1 = (o, w2) ->
  exists w', main h p w = (o, w')
             /\ w_trace w' = w_trace w2 /\ w_environ w' = w_environ w2.
Proof.
  intros Hwf (old & w0 & Hu & Hp) Hb.
  apply (main_of_try h p w w0 w2 old o Hwf Hu).
  unfold main_try. rewrite (bind_ret _ _ _ _ _ Hp). exact Hb.
Qed.

Lemma main_of_reach_apply (h : Host) (p : Params) (w w1 w2 : World)
      (L : Locals) (o : Outcome unit) :
  wf_world w ->
  reaches_command h p w L w1 ->
  p_check_mode p = false ->
  main_apply h p L w1 = (o, w2) ->
  exists w', main h p w = (o, w')
             /\ w_trace w' = w_trace w2 /\ w_environ w' = w_environ w2.
Proof.
  intros Hwf Hr Hc Hb. apply (main_of_reach h p w w1 w2 L o Hwf Hr).
  rewrite Hc. exact Hb.
Qed.

Lemma main_of_reach_check (h : Host) (p : Params) (w w1 w2 : World)
      (L : Locals) (o : Outcome unit) :
  wf_world w ->
  reaches_command h p w L w1 ->
  p_check_mode p = true ->
  main_check h p L w1 = (o, w2) ->
  exists w', main h p w = (o, w')
             /\ w_trace w' = w_trace w2 /\ w_environ w' = w_environ w2.
Proof.
  intros Hwf Hr Hc Hb. apply (main_of_reach h p w w1 w2 L o Hwf Hr).
  rewrite Hc. exact Hb.
Qed.

(** C9: with a valid umask override (the text [s] parses as the octal
    number [m]), the process umask after [main] is the umask before it,
    however the run ends (the statement holds for every host, hence for
    every result of every subprocess and every outcome: normal exit,
    [fail_json] of a validation or of a subprocess, uncaught exception);
    and the override is what every subprocess of the run inherits. *)
Theorem C9_umask_restored_on_every_exit
        (h : Host) (p : Params) (w : World) (s : string) (m : Z) :
  wf_world w ->
  p_umask p = Some s ->
  nonempty s = true ->
  int_base8 h s = inl m ->
  w_umask (snd (main h p w)) = w_umask w
  /\ exists calls,
       w_trace (snd (main h p w)) = w_trace w ++ calls
       /\ Forall (fun c => call_umask c = Z.land m 511) calls.
Proof.
  intros Hwf Hs Hne Hm.
  destruct (main h p w) as [o' w'] eqn:Em. cbn [snd].
  unfold main in Em.
  assert (Hu : main_umask h p w
               = if ((- 2147483648 <=? m) && (m <=? 2147483647))%Z
                 then (Ret (Some (w_umask w)),
                       {| w_umask := Z.land m 511; w_environ := w_environ w;
                          w_trace := w_trace w |})
                 else (Raise "OverflowError", w)).
  { unfold main_umask, bind, ret, os_umask. rewrite Hs, Hne, Hm.
    destruct ((- 2147483648 <=? m) && (m <=? 2147483647))%Z; reflexivity. }
  destruct ((- 2147483648 <=? m) && (m <=? 2147483647))%Z.
  - rewrite (bind_ret _ _ _ _ _ Hu) in Em. unfold try_finally in Em.
    set (w0 := {| w_umask := Z.land m 511; w_environ := w_environ w;
                  w_trace := w_trace w |}) in *.
    destruct (main_try h p w0) as [o w1] eqn:Et.
    destruct (keeps_main_try h p _ _ _ Et) as (_ & calls & Htr & Hc).
    destruct (main_finally_restores (w_umask w) w1 Hwf) as (w2 & E & Hum & Htr2 & _).
    rewrite E in Em. inversion Em; subst o' w'. split; [exact Hum|].
    exists calls. split; [rewrite Htr2; exact Htr | exact Hc].
  - rewrite (bind_raise _ _ _ _ _ Hu) in Em. inversion Em; subst o' w'.
    split; [reflexivity|]. exists []. rewrite app_nil_r.
    split; [reflexivity | constructor].
Qed.

Lemma C9_umask_restored_on_every_exit_witness :
  w_umask (snd (main Scenario.umask_host Scenario.umask_params Sample.world)) = w_umask Sample.world
  /\ exists calls,
       w_trace (snd (main Scenario.umask_host Scenario.umask_params Sample.world))
       = w_trace Sample.world ++ calls
       /\ Forall (fun c => call_umask c = Z.land 23 511) calls.
Proof.
  apply (C9_umask_restored_on_every_exit Scenario.umask_host Scenario.umask_params Sample.world "027" 23).
  - unfold wf_world. simpl. lia.
  - reflexivity.
  - reflexivity.
  - reflexivity.
Defined.

(* ================================================================= *)
(** ** Pieces that start no subprocess, and how pieces can exit *)

Section Compositional.

Context {A B : Type}.

Lemma nothing_lift (o : Outcome A) : runs_nothing (lift o).
Proof. intros w o' w' H. now inversion H. Qed.

Lemma nothing_bind (m : M A) (f : A -> M B) :
  runs_nothing m -> (forall a, runs_nothing (f a)) -> runs_nothing (bind m f).
Proof.
  intros Hm Hf w o w' H. unfold bind in H.
  destruct (m w) as [o1 w1] eqn:E. pose proof (Hm _ _ _ E) as H1.
  destruct o1 as [a|kw|kw|e]; try (inversion H; subst; exact H1).
  rewrite <- H1. exact (Hf a _ _ _ H).
Qed.

Lemma exits_lift (P : kwargs -> Prop) (o : Outcome A) :
  match o with ExitJson kw => P kw | _ => True end -> exits_only P (lift o).
Proof. intros Ho w o' w' H. inversion H; subst. exact Ho. Qed.

Lemma exits_bind (P : kwargs -> Prop) (m : M A) (f : A -> M B) :
  exits_only P m -> (forall a, exits_only P (f a)) -> exits_only P (bind m f).
Proof.
  intros Hm Hf w o w' H. unfold bind in H.
  destruct (m w) as [o1 w1] eqn:E. pose proof (Hm _ _ _ E) as H1.
  destruct o1 as [a|kw|kw|e]; try (inversion H; subst; exact I).
  - exact (Hf a _ _ _ H).
  - inversion H; subst. exact H1.
Qed.

End Compositional.

Lemma nothing_ret {A} (a : A) : runs_nothing (ret a).
Proof. apply (nothing_lift (Ret a)). Qed.

Lemma nothing_exit_json {A} (kw : kwargs) : runs_nothing (@exit_json A kw).
Proof. apply (nothing_lift (ExitJson kw)). Qed.

Lemma nothing_fail_json {A} (kw : kwargs) : runs_nothing (@fail_json A kw).
Proof. apply (nothing_lift (FailJson kw)). Qed.

Lemma nothing_raise {A} (e : string) : runs_nothing (@raise A e).
Proof. apply (nothing_lift (Raise e)). Qed.

Lemma nothing_when (c : bool) (m : M unit) : runs_nothing m -> runs_nothing (when c m).
Proof. intros H. destruct c; [exact H | apply nothing_ret]. Qed.

Lemma nothing_os_environ_set (k v : string) : runs_nothing (os_environ_set k v).
Proof. intros w o w' H. now inversion H. Qed.

Lemma nothing_module_get_bin_path (h : Host) (arg : string) :
  runs_nothing (module_get_bin_path h arg).
Proof. intros w o w' H. now inversion H. Qed.

Lemma nothing_module_get_bin_path_required (h : Host) (arg : string) :
  runs_nothing (module_get_bin_path_required h arg).
Proof.
  intros w o w' H. unfold module_get_bin_path_required in H.
  destruct (get_bin_path h (w_trace w) arg); now inversion H.
Qed.

Create HintDb nothing.
#[local] Hint Resolve nothing_ret nothing_lift nothing_exit_json nothing_fail_json
  nothing_raise nothing_when nothing_os_environ_set nothing_module_get_bin_path
  nothing_module_get_bin_path_required : nothing.

Ltac nothing_step :=
  match goal with
  | |- runs_nothing (bind _ _) => apply nothing_bind; [|intros]
  | |- runs_nothing (when _ _) => apply nothing_when
  | |- runs_nothing (match ?x with _ => _ end) => destruct x
  | |- runs_nothing (if ?b then _ else _) => destruct b
  | |- runs_nothing (let _ := _ in _) => cbv zeta
  | |- runs_nothing _ => solve [auto with nothing]
  end.

Lemma nothing_find_candidate (h : Host) (l : list (list string)) :
  runs_nothing (find_candidate h l).
Proof.
  induction l as [|argv l IH]; cbn [find_candidate]; [apply nothing_ret|].
  destruct argv as [|b rest]; [apply nothing_raise|].
  apply nothing_bind; [apply nothing_module_get_bin_path|].
  intros [uv|]; [apply nothing_ret | exact IH].
Qed.
#[local] Hint Resolve nothing_find_candidate : nothing.

Lemma nothing__get_pip (h : Host) (e : option string) : runs_nothing (_get_pip h e).
Proof. unfold _get_pip. repeat nothing_step. Qed.

Lemma nothing_main_packages (p : Params) : runs_nothing (main_packages p).
Proof. unfold main_packages. repeat nothing_step. Qed.
#[local] Hint Resolve nothing__get_pip nothing_main_packages : nothing.

(** How the pieces can leave through [exit_json]. *)

Lemma exits_ret {A} (P : kwargs -> Prop) (a : A) : exits_only P (ret a).
Proof. apply (exits_lift P (Ret a)). exact I. Qed.

Lemma exits_fail_json {A} (P : kwargs -> Prop) (kw : kwargs) :
  exits_only P (@fail_json A kw).
Proof. apply (exits_lift P (FailJson kw)). exact I. Qed.

Lemma exits_raise {A} (P : kwargs -> Prop) (e : string) : exits_only P (@raise A e).
Proof. apply (exits_lift P (Raise e)). exact I. Qed.

Lemma exits_exit_json {A} (P : kwargs -> Prop) (kw : kwargs) :
  P kw -> exits_only P (@exit_json A kw).
Proof. intros H. apply (exits_lift P (ExitJson kw)). exact H. Qed.

Lemma exits_run_command (P : kwargs -> Prop) (h : Host) cmd cwd pp eu :
  exits_only P (run_command h cmd cwd pp eu).
Proof.
  intros w o w' H. unfold run_command in H.
  destruct (run h (w_trace w) (call_of cmd cwd pp eu w)); inversion H; exact I.
Qed.

Lemma exits_os_environ_set (P : kwargs -> Prop) (k v : string) :
  exits_only P (os_environ_set k v).
Proof. intros w o w' H. inversion H. exact I. Qed.

Lemma exits_module_get_bin_path (P : kwargs -> Prop) (h : Host) (arg : string) :
  exits_only P (module_get_bin_path h arg).
Proof. intros w o w' H. inversion H. exact I. Qed.

Lemma exits_module_get_bin_path_required (P : kwargs -> Prop) (h : Host) (arg : string) :
  exits_only P (module_get_bin_path_required h arg).
Proof.
  intros w o w' H. unfold module_get_bin_path_required in H.
  destruct (get_bin_path h (w_trace w) arg); inversion H; exact I.
Qed.

Lemma exits__is_venv_command (P : kwargs -> Prop) (h : Host) (command : string) :
  exits_only P (lift (_is_venv_command h command)).
Proof.
  apply exits_lift. unfold _is_venv_command.
  destruct (shlex_split h command) as [[|argv0 rest]|]; try exact I.
  destruct (String.eqb argv0 "pyvenv"); [exact I|].
  destruct (argparse_m h rest) as [[v|]|]; try exact I.
  destruct (String.eqb v "venv"); exact I.
Qed.

Create HintDb exits.
#[local] Hint Resolve exits_ret exits_fail_json exits_raise exits_run_command
  exits_os_environ_set exits_module_get_bin_path exits_module_get_bin_path_required
  exits__is_venv_command : exits.

Ltac exits_step :=
  match goal with
  | |- exits_only _ (bind _ _) => apply exits_bind; [|intros]
  | |- exits_only _ (_fail _ _ _) => apply exits_fail_json
  | |- exits_only _ (when ?c _) => unfold when; destruct c
  | |- exits_only _ (lift (_is_venv_command _ _)) => apply exits__is_venv_command
  | |- exits_only _ (match ?x with _ => _ end) => destruct x
  | |- exits_only _ (if ?b then _ else _) => destruct b
  | |- exits_only _ (let _ := _ in _) => cbv zeta
  | |- exits_only _ _ => solve [auto with exits]
  end.

Lemma exits_find_candidate (P : kwargs -> Prop) (h : Host) (l : list (list string)) :
  exits_only P (find_candidate h l).
Proof.
  induction l as [|argv l IH]; cbn [find_candidate]; [apply exits_ret|].
  destruct argv as [|b rest]; [apply exits_raise|].
  apply exits_bind; [apply exits_module_get_bin_path|].
  intros [uv|]; [apply exits_ret | exact IH].
Qed.
#[local] Hint Resolve exits_find_candidate : exits.

Lemma exits__get_pip (P : kwargs -> Prop) (h : Host) (e : option string) :
  exits_only P (_get_pip h e).
Proof. unfold _get_pip. repeat exits_step. Qed.

Lemma exits__get_cmd_options (P : kwargs -> Prop) (h : Host) (cmd : string) :
  exits_only P (_get_cmd_options h cmd).
Proof. unfold _get_cmd_options. repeat exits_step. Qed.

Lemma exits_main_packages (P : kwargs -> Prop) (p : Params) :
  exits_only P (main_packages p).
Proof. unfold main_packages. repeat exits_step. Qed.
#[local] Hint Resolve exits__get_pip exits__get_cmd_options exits_main_packages : exits.

(** [setup_virtualenv] exits only in check mode, with [changed=True]. *)
Lemma exits_setup_virtualenv (h : Host) (p : Params) (env chdir out err : string) :
  exits_only (fun kw => p_check_mode p = true /\ kw = [("changed", VBool true)])
             (setup_virtualenv h p env chdir out err).
Proof.
  unfold setup_virtualenv.
  apply exits_bind.
  - unfold when. destruct (p_check_mode p).
    + apply exits_exit_json. split; reflexivity.
    + apply exits_ret.
  - intros _. repeat exits_step.
Qed.

(* ================================================================= *)
(** ** The preparation of the command *)

Lemma bind_inv_ret {A B} (m : M A) (f : A -> M B) (w w' : World) (b : B) :
  bind m f w = (Ret b, w') ->
  exists a w1, m w = (Ret a, w1) /\ f a w1 = (Ret b, w').
Proof.
  unfold bind. destruct (m w) as [[a|kw|kw|e] w1]; try discriminate.
  intros H. exists a, w1. split; [reflexivity | exact H].
Qed.

Lemma when_fail_inv_ret (c : bool) (kw : kwargs) (w w' : World) (u : unit) :
  when c (fail_json kw) w = (Ret u, w') -> c = false /\ w' = w.
Proof.
  destruct c; cbn; [discriminate|]. intros H. inversion H. auto.
Qed.

Lemma recover_loop_nonempty (l parts pk : list string) (ib : bool) :
  recover_loop l parts pk ib <> [].
Proof.
  revert parts pk ib. induction l as [|name rest IH]; intros parts pk ib.
  - simpl. destruct pk; discriminate.
  - cbn [recover_loop]. destruct (_is_package_name name && negb ib); apply IH.
Qed.

Lemma setup_virtualenv_check_mode (h : Host) (p : Params) env chdir out err (w : World) :
  p_check_mode p = true ->
  setup_virtualenv h p env chdir out err w = (ExitJson [("changed", VBool true)], w).
Proof. intros H. unfold setup_virtualenv. rewrite H. reflexivity. Qed.

(** Without an environment to create, lines 561-567 only choose the
    interpreter. *)
Lemma main_venv_not_needed (h : Host) (p : Params) (env : option string)
      (chdir : string) (w : World) :
  truthy env && negb (path_exists h (PosixPath.join3 (str_of env) "bin" "activate")) = false ->
  exists py_bin,
    main_venv h p env chdir w = (Ret (false, EmptyString, EmptyString, py_bin), w).
Proof.
  intros H. unfold main_venv. destruct (truthy env); cbn [andb] in H.
  - rewrite H. eexists. reflexivity.
  - eexists. reflexivity.
Qed.

Lemma main_venv_ret (h : Host) (p : Params) (env : option string) (chdir : string)
      (w w' : World) vc out err py_bin :
  main_venv h p env chdir w = (Ret (vc, out, err, py_bin), w') ->
  vc = truthy env && negb (path_exists h (PosixPath.join3 (str_of env) "bin" "activate"))
  /\ (p_check_mode p = true -> w' = w).
Proof.
  unfold main_venv. destruct (truthy env); cbn [andb].
  - destruct (path_exists h _); cbn [negb].
    + intros H. inversion H; subst. auto.
    + intros H. apply bind_inv_ret in H. destruct H as ([o e] & w1 & Hs & H).
      inversion H; subst. split; [reflexivity|].
      intros Hc. rewrite (setup_virtualenv_check_mode _ _ _ _ _ _ _ Hc) in Hs.
      discriminate.
  - intros H. inversion H; subst. auto.
Qed.

Lemma has_vcs_of_no_name (p : Params) :
  truthy_list (p_name p) = false -> has_vcs_of p = false.
Proof.
  unfold has_vcs_of. destruct (p_name p) as [[|x l]|]; cbn; congruence.
Qed.

(** What [main_packages] returns. *)
Lemma main_packages_ret (p : Params) (w w' : World) has_vcs packages :
  main_packages p w = (Ret (has_vcs, packages), w') ->
  w' = w /\ has_vcs = has_vcs_of p
  /\ (truthy_list (p_name p) = true ->
      match p_version p with
      | None => packages = map Package_init (_recover_package_name (list_of (p_name p)))
      | Some v =>
          exists text,
            _recover_package_name (list_of (p_name p)) = [text]
            /\ has_version_specifier (Package_init text) = false
            /\ map Package_str packages = [text @@ "==" @@ v]
      end).
Proof.
  unfold main_packages. destruct (truthy_list (p_name p)) eqn:Hn.
  - destruct (p_version p) as [v|].
    + intros H. apply bind_inv_ret in H. destruct H as ([] & w1 & Hw & H).
      apply when_fail_inv_ret in Hw. destruct Hw as [Hlen ->].
      pose proof (recover_loop_nonempty (flatten_names (list_of (p_name p))) [] [] false) as Hne.
      fold (_recover_package_name (list_of (p_name p))) in Hne.
      destruct (_recover_package_name (list_of (p_name p))) as [|text [|t2 l]];
        [congruence | | cbn in Hlen; discriminate].
      cbn [map] in H. apply bind_inv_ret in H. destruct H as ([] & w2 & Hw & H).
      apply when_fail_inv_ret in Hw. destruct Hw as [Hspec ->].
      inversion H; subst. split; [reflexivity|]. split; [reflexivity|].
      intros _. exists text. auto.
    + intros H. inversion H; subst. auto.
  - intros H. inversion H; subst. split; [reflexivity|].
    split; [symmetry; apply has_vcs_of_no_name; exact Hn | discriminate].
Qed.

(** What the preparation leaves in the local variables. *)
Lemma main_prepare_ret (h : Host) (p : Params) (env : option string)
      (w0 w1 : World) (L : Locals) :
  main_prepare h p env w0 = (Ret L, w1) ->
  l_env L = env
  /\ l_extra_args L = main_extra_args p
  /\ l_has_vcs L = has_vcs_of p
  /\ l_venv_created L
     = truthy env && negb (path_exists h (PosixPath.join3 (str_of env) "bin" "activate"))
  /\ (p_check_mode p = true -> w_trace w1 = w_trace w0)
  /\ (truthy_list (p_name p) = true \/ truthy (p_requirements p) = true)
  /\ (truthy_list (p_name p) = true ->
      forall v, p_version p = Some v ->
      exists text py_bin extra,
        _recover_package_name (list_of (p_name p)) = [text]
        /\ has_version_specifier (Package_init text) = false
        /\ l_cmd L = ((l_pip L ++ state_map (p_state p)) ++ ["--python"; py_bin])
                       ++ extra ++ [text @@ "==" @@ v]).
Proof.
  unfold main_prepare. intros H.
  apply bind_inv_ret in H. destruct H as ([] & wa & Hw & H).
  apply when_fail_inv_ret in Hw. destruct Hw as [_ ->].
  apply bind_inv_ret in H. destruct H as ([[[vc out] err] py_bin] & wb & Hv & H).
  apply main_venv_ret in Hv. destruct Hv as [Hvc Hcheck].
  apply bind_inv_ret in H. destruct H as (pip & wc & Hpip & H).
  apply nothing__get_pip in Hpip.
  apply bind_inv_ret in H. destruct H as ([has_vcs packages] & wd & Hpk & H).
  apply main_packages_ret in Hpk. destruct Hpk as (-> & Hvcs & Hpkgs).
  apply bind_inv_ret in H. destruct H as (cmd1 & we & Hcmd1 & H).
  apply bind_inv_ret in H. destruct H as ([] & wf & Henv & H).
  apply bind_inv_ret in H. destruct H as (cmd2 & wg & Hcmd2 & H).
  inversion H; subst L w1. clear H. cbn [l_env l_extra_args l_has_vcs l_venv_created l_cmd l_pip].
  assert (Hextra : exists extra,
             cmd1 = ((pip ++ state_map (p_state p)) ++ ["--python"; py_bin]) ++ extra
             /\ we = wc).
  { destruct (truthy (main_extra_args p)).
    - destruct (shlex_split h (str_of (main_extra_args p))) as [args|]; [|discriminate].
      inversion Hcmd1; subst. exists args. auto.
    - inversion Hcmd1; subst. exists []. rewrite app_nil_r. auto. }
  destruct Hextra as (extra & -> & ->).
  assert (Htr : w_trace wf = w_trace wc).
  { unfold when in Henv. destruct (p_break_system_packages p); inversion Henv; reflexivity. }
  split; [reflexivity|]. split; [reflexivity|]. split; [exact Hvcs|].
  split; [exact Hvc|]. split; [|split].
  - intros Hc. destruct (truthy_list (p_name p)).
    + inversion Hcmd2; subst. rewrite Htr, Hpip. now rewrite (Hcheck Hc).
    + destruct (truthy (p_requirements p)); [|discriminate].
      inversion Hcmd2; subst. rewrite Htr, Hpip. now rewrite (Hcheck Hc).
  - destruct (truthy_list (p_name p)); [left; reflexivity|].
    destruct (truthy (p_requirements p)); [right; reflexivity | discriminate].
  - intros Hn v Hv. rewrite Hn in Hcmd2. inversion Hcmd2; subst.
    specialize (Hpkgs Hn). rewrite Hv in Hpkgs.
    destruct Hpkgs as (text & Hr & Hs & Hm).
    exists text, py_bin, extra. rewrite Hm, <- app_assoc. auto.
Qed.

(* ================================================================= *)
(** ** The change detector *)

Lemma reaches_locals (h : Host) (p : Params) (w w1 : World) (L : Locals) :
  reaches_command h p w L w1 ->
  l_venv_created L = venv_needed h p
  /\ l_has_vcs L = has_vcs_of p
  /\ l_extra_args L = main_extra_args p
  /\ (p_check_mode p = true -> w_trace w1 = w_trace w)
  /\ (truthy_list (p_name p) = true \/ truthy (p_requirements p) = true).
Proof.
  intros (old & w0 & Hu & Hp).
  destruct (main_prepare_ret _ _ _ _ _ _ Hp) as (_ & He & Hv & Hc & Ht & Hnr & _).
  destruct (main_umask_ret _ _ _ _ _ Hu) as (Htr & _).
  split; [exact Hc|]. split; [exact Hv|]. split; [exact He|]. split; [|exact Hnr].
  intros Hm. rewrite (Ht Hm). exact Htr.
Qed.

(** The last block of [main], once the snapshot before is taken and the
    command has run. *)
Lemma main_apply_report (h : Host) (p : Params) (L : Locals) (w1 w2 : World)
      (before : option string) (rc : Z) (out_pip err_pip : string) :
  main_before h p L w1 = (Ret before, w2) ->
  run h (w_trace w2) (main_call L w2) = Some (rc, out_pip, err_pip) ->
  main_apply h p L w1
  = main_report h p L before rc out_pip err_pip (add_call w2 (main_call L w2)).
Proof.
  intros Hb Hr. unfold main_apply. rewrite (bind_ret _ _ _ _ _ Hb).
  unfold bind at 1. unfold main_call in Hr. rewrite (run_command_eq _ _ _ _ _ _ _ Hr).
  reflexivity.
Qed.

Lemma main_before_none (h : Host) (p : Params) (L : Locals) (w : World) :
  truthy (p_requirements p) || l_has_vcs L = false ->
  main_before h p L w = (Ret None, w).
Proof. intros H. unfold main_before. rewrite H. reflexivity. Qed.

(** The snapshot before the command is the stdout of [_get_packages]. *)
Lemma main_before_some (h : Host) (p : Params) (L : Locals) (w w' : World)
      (text out err : string) :
  truthy (p_requirements p) || l_has_vcs L = true ->
  _get_packages h (l_pip L) (l_chdir L) w = (Ret (text, out, err), w') ->
  main_before h p L w = (Ret (Some out), w').
Proof.
  intros H Hr. unfold main_before. rewrite H.
  rewrite (bind_ret _ _ _ _ _ Hr). reflexivity.
Qed.

(** C4 (amended): for [state=absent], outside check mode, when the
    command exits with code 1 and ["not installed"] occurs in its stdout
    or its stderr, the module does not fail: it exits through
    [exit_json], and [changed] is true exactly when stdout also contains
    ["Successfully uninstalled"] or a virtual environment was created in
    this run (so [changed=false] when neither is the case).  Every other
    non-zero exit code of the command, and code 1 without the marker, is
    fatal. *)
Theorem C4_absent_not_installed_is_no_failure
        (h : Host) (p : Params) (w w1 w2 : World) (L : Locals)
        (before : option string) (rc : Z) (out_pip err_pip : string) :
  wf_world w ->
  reaches_command h p w L w1 ->
  p_check_mode p = false ->
  p_state p = absent ->
  main_before h p L w1 = (Ret before, w2) ->
  run h (w_trace w2) (main_call L w2) = Some (rc, out_pip, err_pip) ->
  (rc = 1%Z ->
   str_in "not installed" out_pip || str_in "not installed" err_pip = true ->
   exists kw w',
     main h p w = (ExitJson kw, w')
     /\ kw_get "changed" kw
        = Some (VBool (str_in "Successfully uninstalled" out_pip || venv_needed h p)))
  /\ (rc <> 0%Z ->
      (rc = 1%Z ->
       str_in "not installed" out_pip || str_in "not installed" err_pip = false) ->
      exists kw w', main h p w = (FailJson kw, w')).
Proof.
  intros Hwf Hreach Hcm Hst Hb Hr.
  destruct (reaches_locals _ _ _ _ _ Hreach) as (Hvc & _).
  pose proof (main_apply_report h p L w1 w2 before rc out_pip err_pip Hb Hr) as Ha.
  split.
  - intros Hrc Hmark.
    assert (E : main_report h p L before rc out_pip err_pip (add_call w2 (main_call L w2))
                = (ExitJson
                     [("changed", VBool (str_in "Successfully uninstalled" out_pip
                                         || l_venv_created L));
                      ("cmd", VList (l_cmd L));
                      ("name", opt_list (p_name p)); ("version", opt_str (p_version p));
                      ("state", VStr (state_name (p_state p)));
                      ("requirements", opt_str (p_requirements p));
                      ("virtualenv", opt_str (l_env L));
                      ("stdout", VStr (l_out L @@ out_pip));
                      ("stderr", VStr (l_err L @@ err_pip))],
                   add_call w2 (main_call L w2))).
    { unfold main_report. rewrite Hrc, Hst, Hmark. reflexivity. }
    rewrite E in Ha.
    destruct (main_of_reach_apply h p w w1 _ L _ Hwf Hreach Hcm Ha) as (w' & Hm & _).
    eexists. exists w'. split; [exact Hm|]. cbn [kw_get]. rewrite Hvc. reflexivity.
  - intros Hrc Hmark.
    assert (E : exists kw,
               main_report h p L before rc out_pip err_pip (add_call w2 (main_call L w2))
               = (FailJson kw, add_call w2 (main_call L w2))).
    { unfold main_report, _fail, fail_json, when, bind.
      destruct (rc =? 1)%Z eqn:E1.
      - apply Z.eqb_eq in E1. rewrite (Hmark E1), andb_false_r.
        subst rc. cbn. eexists. reflexivity.
      - cbn [andb]. destruct (rc =? 0)%Z eqn:E0.
        + apply Z.eqb_eq in E0. contradiction.
        + cbn. eexists. reflexivity. }
    destruct E as (kw & E). rewrite E in Ha.
    destruct (main_of_reach_apply h p w w1 _ L _ Hwf Hreach Hcm Ha) as (w' & Hm & _).
    exists kw, w'. exact Hm.
Qed.

Lemma C4_absent_not_installed_is_no_failure_witness :
  exists kw w',
    main Scenario.absent_host Scenario.absent_params Sample.world = (ExitJson kw, w')
    /\ kw_get "changed" kw = Some (VBool false).
Proof.
  refine (proj1 (C4_absent_not_installed_is_no_failure
                   Scenario.absent_host Scenario.absent_params
                   Sample.world Sample.world Sample.world _ None
                   1%Z EmptyString "warning: six is not installed"
                   _ _ _ _ _ _) _ _).
  - unfold wf_world. simpl. lia.
  - exists None, Sample.world. split; reflexivity.
  - reflexivity.
  - reflexivity.
  - reflexivity.
  - reflexivity.
  - reflexivity.
  - reflexivity.
Defined.

(** Two runs against C4 as stated: [state=absent], the command exits
    with code 1 and reports ["not installed"], and yet [changed] is true:
    in the first run because the virtual environment was created in the
    run, in the second because stdout also says
    ["Successfully uninstalled"]. *)
Lemma C4_counterexample :
  (p_state Scenario.absent_venv_params = absent
   /\ venv_needed Scenario.absent_host Scenario.absent_venv_params = true
   /\ (exists L w1,
          reaches_command Scenario.absent_host Scenario.absent_venv_params Sample.world L w1
          /\ run Scenario.absent_host (w_trace w1) (main_call L w1)
             = Some (1%Z, EmptyString, "warning: six is not installed"))
   /\ str_in "not installed" "warning: six is not installed" = true
   /\ exists kw w',
        main Scenario.absent_host Scenario.absent_venv_params Sample.world
        = (ExitJson kw, w')
        /\ kw_get "changed" kw = Some (VBool true))
  /\
  (p_state Scenario.absent_partly_params = absent
   /\ venv_needed Scenario.absent_partly_host Scenario.absent_partly_params = false
   /\ (exists L w1,
          reaches_command Scenario.absent_partly_host Scenario.absent_partly_params
                          Sample.world L w1
          /\ run Scenario.absent_partly_host (w_trace w1) (main_call L w1)
             = Some (1%Z, "Successfully uninstalled five-1.0", "warning: six is not installed"))
   /\ exists kw w',
        main Scenario.absent_partly_host Scenario.absent_partly_params Sample.world
        = (ExitJson kw, w')
        /\ kw_get "changed" kw = Some (VBool true)).
Proof.
  split.
  - split; [reflexivity|]. split; [reflexivity|]. split; [|split; [reflexivity|]].
    + eexists. eexists. split.
      * exists None, Sample.world. split; vm_compute; reflexivity.
      * vm_compute. reflexivity.
    + eexists. eexists. split; vm_compute; reflexivity.
  - split; [reflexivity|]. split; [reflexivity|]. split.
    + eexists. eexists. split.
      * exists None, Sample.world. split; vm_compute; reflexivity.
      * vm_compute. reflexivity.
    + eexists. eexists. split; vm_compute; reflexivity.
Qed.

Lemma State_eqb_absent_false (s : State) : s <> absent -> State_eqb s absent = false.
Proof. destruct s; intros H; try reflexivity. contradiction. Qed.

Lemma main_report_snapshot (h : Host) (p : Params) (L : Locals) (w w' : World)
      (before text after err2 out_pip err_pip : string) :
  State_eqb (p_state p) absent = false ->
  _get_packages h (l_pip L) (l_chdir L) w = (Ret (text, after, err2), w') ->
  main_report h p L (Some before) 0%Z out_pip err_pip w
  = (ExitJson
       [("changed", VBool (negb (String.eqb before after) || l_venv_created L));
        ("cmd", VList (l_cmd L));
        ("name", opt_list (p_name p)); ("version", opt_str (p_version p));
        ("state", VStr (state_name (p_state p)));
        ("requirements", opt_str (p_requirements p));
        ("virtualenv", opt_str (l_env L));
        ("stdout", VStr (l_out L @@ out_pip));
        ("stderr", VStr (l_err L @@ err_pip))],
     w').
Proof.
  intros Hst Hr. unfold main_report. rewrite Hst.
  change (0 =? 1)%Z with false. change (0 =? 0)%Z with true.
  cbn [andb negb when].
  rewrite (bind_ret _ _ w w tt) by reflexivity.
  erewrite bind_ret; [| rewrite (bind_ret _ _ _ _ _ Hr); reflexivity].
  reflexivity.
Qed.

(** C5 (amended): for the states present, latest and forcereinstall,
    outside check mode.  The listing of the installed packages is taken
    before the command if and only if a requirements file is given or
    some name is a version-control URL.  Without it, the command is the
    one subprocess that follows the preparation and, once it has
    succeeded, [changed] is true exactly when ["Successfully installed"]
    occurs in its stdout or a virtual environment was created in this
    run.  With it, [_get_packages] runs before the command and again
    after it (each time with the subprocesses of its own: the framework's
    [locale -a] and the listing), and once all have succeeded [changed]
    is true exactly when the two listings differ or a virtual
    environment was created in this run.  (When no environment was
    created, [changed] is therefore the marker test, respectively the
    inequality of the listings.) *)
Theorem C5_change_detection
        (h : Host) (p : Params) (w w1 : World) (L : Locals) :
  wf_world w ->
  reaches_command h p w L w1 ->
  p_check_mode p = false ->
  p_state p <> absent ->
  (truthy (p_requirements p) || has_vcs_of p = false ->
   forall out_pip err_pip,
     run h (w_trace w1) (main_call L w1) = Some (0%Z, out_pip, err_pip) ->
     exists kw w',
       main h p w = (ExitJson kw, w')
       /\ w_trace w' = w_trace w1 ++ [main_call L w1]
       /\ kw_get "changed" kw
          = Some (VBool (str_in "Successfully installed" out_pip || venv_needed h p)))
  /\
  (truthy (p_requirements p) || has_vcs_of p = true ->
   forall text1 before err1 w2 out_pip err_pip text2 after err2 w4,
     _get_packages h (l_pip L) (l_chdir L) w1 = (Ret (text1, before, err1), w2) ->
     run h (w_trace w2) (main_call L w2) = Some (0%Z, out_pip, err_pip) ->
     _get_packages h (l_pip L) (l_chdir L) (add_call w2 (main_call L w2))
     = (Ret (text2, after, err2), w4) ->
     exists kw w',
       main h p w = (ExitJson kw, w')
       /\ w_trace w' = w_trace w4
       /\ kw_get "changed" kw
          = Some (VBool (negb (String.eqb before after) || venv_needed h p))).
Proof.
  intros Hwf Hreach Hcm Hst.
  destruct (reaches_locals _ _ _ _ _ Hreach) as (Hvc & Hvcs & _).
  apply State_eqb_absent_false in Hst.
  split.
  - intros Hsnap out_pip err_pip Hr.
    rewrite <- Hvcs in Hsnap.
    pose proof (main_apply_report h p L w1 w1 None 0%Z out_pip err_pip
                                  (main_before_none h p L w1 Hsnap) Hr) as Ha.
    unfold main_report in Ha. rewrite Hst in Ha. cbn in Ha.
    destruct (main_of_reach_apply h p w w1 _ L _ Hwf Hreach Hcm Ha) as (w' & Hm & Htr & _).
    eexists. exists w'. split; [exact Hm|]. split; [exact Htr|].
    cbn [kw_get]. rewrite Hvc. reflexivity.
  - intros Hsnap text1 before err1 w2 out_pip err_pip text2 after err2 w4 Hg1 Hr2 Hg2.
    rewrite <- Hvcs in Hsnap.
    pose proof (main_before_some h p L w1 w2 text1 before err1 Hsnap Hg1) as Hb.
    pose proof (main_apply_report h p L w1 w2 _ 0%Z out_pip err_pip Hb Hr2) as Ha.
    rewrite (main_report_snapshot h p L _ w4 before text2 after err2 out_pip err_pip
                                  Hst Hg2) in Ha.
    destruct (main_of_reach_apply h p w w1 _ L _ Hwf Hreach Hcm Ha) as (w' & Hm & Htr & _).
    eexists. exists w'. split; [exact Hm|]. split; [exact Htr|].
    cbn [kw_get]. rewrite Hvc. reflexivity.
Qed.

Lemma C5_change_detection_witness :
  (exists kw w',
      main Scenario.upgrade_host Scenario.requirements_params Sample.world
      = (ExitJson kw, w')
      /\ kw_get "changed" kw = Some (VBool true))
  /\
  (exists kw w',
      main Scenario.satisfied_host Scenario.requirements_params Sample.world
      = (ExitJson kw, w')
      /\ kw_get "changed" kw = Some (VBool false)).
Proof.
  split.
  - epose proof (proj2 (C5_change_detection
                        Scenario.upgrade_host Scenario.requirements_params
                        Sample.world Sample.world
                        {| l_env := None; l_chdir := "/tmp"; l_out := EmptyString;
                           l_err := EmptyString; l_venv_created := false;
                           l_pip := ["/usr/bin/uv"; "pip"];
                           l_cmd := ["/usr/bin/uv"; "pip"; "install"; "--python"; "uv pip";
                                     "-r"; "requirements.txt"];
                           l_path_prefix := None; l_has_vcs := false;
                           l_extra_args := None |}
                        ltac:(unfold wf_world; simpl; lia)
                        ltac:(exists None, Sample.world; split; reflexivity)
                        eq_refl
                        ltac:(discriminate))
                     eq_refl
                     _ "six==1.15.0" EmptyString _ EmptyString EmptyString
                     _ "six==1.16.0" EmptyString _)
      as H.
    destruct H as (kw & w' & Hm & _ & Hc).
    + vm_compute. reflexivity.
    + vm_compute. reflexivity.
    + vm_compute. reflexivity.
    + exists kw, w'. split; [exact Hm | exact Hc].
  - epose proof (proj2 (C5_change_detection
                        Scenario.satisfied_host Scenario.requirements_params
                        Sample.world Sample.world
                        {| l_env := None; l_chdir := "/tmp"; l_out := EmptyString;
                           l_err := EmptyString; l_venv_created := false;
                           l_pip := ["/usr/bin/uv"; "pip"];
                           l_cmd := ["/usr/bin/uv"; "pip"; "install"; "--python"; "uv pip";
                                     "-r"; "requirements.txt"];
                           l_path_prefix := None; l_has_vcs := false;
                           l_extra_args := None |}
                        ltac:(unfold wf_world; simpl; lia)
                        ltac:(exists None, Sample.world; split; reflexivity)
                        eq_refl
                        ltac:(discriminate))
                     eq_refl
                     _ "six==1.16.0" EmptyString _ EmptyString EmptyString
                     _ "six==1.16.0" EmptyString _)
      as H.
    destruct H as (kw & w' & Hm & _ & Hc).
    + vm_compute. reflexivity.
    + vm_compute. reflexivity.
    + vm_compute. reflexivity.
    + exists kw, w'. split; [exact Hm | exact Hc].
Defined.

(** Two runs against C5 as stated, both in a virtual environment created
    in the run: without snapshots, stdout lacks
    ["Successfully installed"] and [changed] is true; with snapshots, the
    two listings are identical and [changed] is true. *)
Lemma C5_counterexample :
  (p_state Scenario.present_venv_params = present
   /\ truthy (p_requirements Scenario.present_venv_params)
      || has_vcs_of Scenario.present_venv_params = false
   /\ (exists L w1,
          reaches_command Scenario.audited_host Scenario.present_venv_params
                          Sample.world L w1
          /\ run Scenario.audited_host (w_trace w1) (main_call L w1)
             = Some (0%Z, "Audited 1 package", EmptyString))
   /\ str_in "Successfully installed" "Audited 1 package" = false
   /\ exists kw w',
        main Scenario.audited_host Scenario.present_venv_params Sample.world
        = (ExitJson kw, w')
        /\ kw_get "changed" kw = Some (VBool true))
  /\
  (p_state Scenario.requirements_venv_params = present
   /\ truthy (p_requirements Scenario.requirements_venv_params) = true
   /\ (exists L w1 text1 w2 text2 w4,
          reaches_command Scenario.satisfied_host Scenario.requirements_venv_params
                          Sample.world L w1
          /\ _get_packages Scenario.satisfied_host (l_pip L) (l_chdir L) w1
             = (Ret (text1, "six==1.16.0", EmptyString), w2)
          /\ _get_packages Scenario.satisfied_host (l_pip L) (l_chdir L)
                           (add_call w2 (main_call L w2))
             = (Ret (text2, "six==1.16.0", EmptyString), w4))
   /\ exists kw w',
        main Scenario.satisfied_host Scenario.requirements_venv_params Sample.world
        = (ExitJson kw, w')
        /\ kw_get "changed" kw = Some (VBool true)).
Proof.
  split.
  - split; [reflexivity|]. split; [reflexivity|]. split; [|split; [reflexivity|]].
    + eexists. eexists. split.
      * exists None, Sample.world. split; vm_compute; reflexivity.
      * vm_compute. reflexivity.
    + eexists. eexists. split; vm_compute; reflexivity.
  - split; [reflexivity|]. split; [reflexivity|]. split.
    + do 6 eexists. split; [|split].
      * exists None, Sample.world. split; vm_compute; reflexivity.
      * vm_compute. reflexivity.
      * vm_compute. reflexivity.
    + eexists. eexists. split; vm_compute; reflexivity.
Qed.

(* ================================================================= *)
(** ** Check mode *)

(** C6 (amended): in check mode, a run reaches the check-mode test only
    with a non-empty list of names or with a requirements file, and no
    subprocess has run by then.  If extra arguments are present (the [-e]
    implied by [editable] included), or a requirements file is given, or
    the state is latest, or no names are given, the module exits with
    [changed=True] and runs nothing.  Otherwise it runs the command with
    [--dry-run] appended; when that exits with code 0, [changed] is true
    exactly when a line of its stderr starts with ["Would uninstall"] or
    ["Would install"], and when it exits with another code the module
    fails. *)
Theorem C6_check_mode
        (h : Host) (p : Params) (w w1 : World) (L : Locals) :
  wf_world w ->
  reaches_command h p w L w1 ->
  p_check_mode p = true ->
  (truthy_list (p_name p) = true \/ truthy (p_requirements p) = true)
  /\
  (check_gate p (main_extra_args p) = true ->
   exists w',
     main h p w = (ExitJson [("changed", VBool true)], w')
     /\ w_trace w' = w_trace w)
  /\
  (check_gate p (main_extra_args p) = false ->
   forall rc dryrun_out dryrun_err,
     run h (w_trace w) (dry_run_call L w1) = Some (rc, dryrun_out, dryrun_err) ->
     (rc = 0%Z ->
      exists kw w',
        main h p w = (ExitJson kw, w')
        /\ w_trace w' = w_trace w ++ [dry_run_call L w1]
        /\ kw_get "changed" kw
           = Some (VBool (line_start_any ["Would uninstall"; "Would install"] dryrun_err)))
     /\ (rc <> 0%Z ->
         exists kw w',
           main h p w = (FailJson kw, w')
           /\ w_trace w' = w_trace w ++ [dry_run_call L w1])).
Proof.
  intros Hwf Hreach Hcm.
  destruct (reaches_locals _ _ _ _ _ Hreach) as (_ & _ & Hex & Htr & Hnr).
  specialize (Htr Hcm).
  split; [exact Hnr|].
  split.
  - intros Hg.
    assert (Hc : main_check h p L w1 = (ExitJson [("changed", VBool true)], w1)).
    { unfold main_check. rewrite Hex. fold (check_gate p (main_extra_args p)).
      rewrite Hg. reflexivity. }
    destruct (main_of_reach_check h p w w1 _ L _ Hwf Hreach Hcm Hc) as (w' & Hm & Ht & _).
    exists w'. split; [exact Hm | congruence].
  - intros Hg rc dryrun_out dryrun_err Hr. rewrite <- Htr in Hr.
    assert (Hc : main_check h p L w1
                 = if (rc =? 0)%Z then
                     (ExitJson
                        [("changed",
                          VBool (line_start_any ["Would uninstall"; "Would install"] dryrun_err));
                         ("cmd", VList (l_cmd L ++ ["--dry-run"]));
                         ("stdout", VStr (l_out L @@ dryrun_out));
                         ("stderr", VStr (l_err L @@ dryrun_err))],
                      add_call w1 (dry_run_call L w1))
                   else
                     _fail (l_cmd L ++ ["--dry-run"]) (l_out L @@ dryrun_out)
                           (l_err L @@ dryrun_err) (add_call w1 (dry_run_call L w1))).
    { unfold main_check. rewrite Hex. fold (check_gate p (main_extra_args p)).
      rewrite Hg. unfold when at 1. rewrite (bind_ret _ _ w1 w1 tt) by reflexivity.
      unfold bind at 1. unfold dry_run_call in Hr.
      rewrite (run_command_eq _ _ _ _ _ _ _ Hr).
      unfold when, bind. destruct (rc =? 0)%Z; reflexivity. }
    split.
    + intros ->. cbn [Z.eqb] in Hc.
      destruct (main_of_reach_check h p w w1 _ L _ Hwf Hreach Hcm Hc) as (w' & Hm & Ht & _).
      eexists. exists w'. split; [exact Hm|]. split; [|reflexivity].
      rewrite Ht. cbn [w_trace add_call]. now rewrite Htr.
    + intros Hrc. apply Z.eqb_neq in Hrc. rewrite Hrc in Hc.
      destruct (main_of_reach_check h p w w1 _ L _ Hwf Hreach Hcm Hc) as (w' & Hm & Ht & _).
      eexists. exists w'. split; [exact Hm|].
      rewrite Ht. cbn [w_trace add_call]. now rewrite Htr.
Qed.

Lemma C6_check_mode_witness :
  exists kw w',
    main Scenario.dry_run_host Scenario.check_params Sample.world = (ExitJson kw, w')
    /\ kw_get "changed" kw = Some (VBool true).
Proof.
  destruct (proj1 (proj2 (proj2 (C6_check_mode
                            Scenario.dry_run_host Scenario.check_params
                            Sample.world Sample.world
                            {| l_env := None; l_chdir := "/tmp"; l_out := EmptyString;
                               l_err := EmptyString; l_venv_created := false;
                               l_pip := ["/usr/bin/uv"; "pip"];
                               l_cmd := ["/usr/bin/uv"; "pip"; "install"; "--python";
                                         "uv pip"; "six"];
                               l_path_prefix := None; l_has_vcs := false;
                               l_extra_args := None |}
                            ltac:(unfold wf_world; simpl; lia)
                            ltac:(exists None, Sample.world; split; reflexivity)
                            eq_refl))
                         eq_refl
                         0%Z EmptyString
                         ("Resolved 1 package" @@ String newline "Would install six==1.16.0")
                         eq_refl)
                  eq_refl)
    as (kw & w' & Hm & _ & Hc).
  exists kw, w'. split; [exact Hm | exact Hc].
Defined.

(** Two runs against C6 as stated, both in check mode: with an empty
    list of names and no requirements file the module exits with
    [changed=False]; and a dry run that prints ["Would install"] on its
    stdout only gives [changed=False]. *)
Lemma C6_counterexample :
  (p_check_mode Scenario.check_no_name_params = true
   /\ truthy_list (p_name Scenario.check_no_name_params) = false
   /\ main Scenario.dry_run_host Scenario.check_no_name_params Sample.world
      = (ExitJson [("changed", VBool false);
                   ("warnings", VList ["No valid name or requirements file found."])],
         Sample.world))
  /\
  (p_check_mode Scenario.check_params = true
   /\ check_gate Scenario.check_params (main_extra_args Scenario.check_params) = false
   /\ (exists L w1,
          reaches_command Scenario.dry_run_stdout_host Scenario.check_params
                          Sample.world L w1
          /\ run Scenario.dry_run_stdout_host (w_trace w1) (dry_run_call L w1)
             = Some (0%Z, "Would install six==1.16.0", EmptyString))
   /\ line_start_any ["Would uninstall"; "Would install"] "Would install six==1.16.0" = true
   /\ exists kw w',
        main Scenario.dry_run_stdout_host Scenario.check_params Sample.world
        = (ExitJson kw, w')
        /\ kw_get "changed" kw = Some (VBool false)).
Proof.
  split.
  - split; [reflexivity|]. split; [reflexivity|]. vm_compute. reflexivity.
  - split; [reflexivity|]. split; [reflexivity|]. split; [|split; [reflexivity|]].
    + eexists. eexists. split.
      * exists None, Sample.world. split; vm_compute; reflexivity.
      * vm_compute. reflexivity.
    + eexists. eexists. split; vm_compute; reflexivity.
Qed.

(* ================================================================= *)
(** ** The version override *)

Lemma bind_inv {A B} (m : M A) (f : A -> M B) (w w' : World) (o : Outcome B) :
  bind m f w = (o, w') ->
  (exists a w1, m w = (Ret a, w1) /\ f a w1 = (o, w'))
  \/ (exists kw, m w = (ExitJson kw, w') /\ o = ExitJson kw)
  \/ (exists kw, m w = (FailJson kw, w') /\ o = FailJson kw)
  \/ (exists e, m w = (Raise e, w') /\ o = Raise e).
Proof.
  unfold bind. destruct (m w) as [[a|kw|kw|e] w1]; intros H.
  - left. exists a, w1. auto.
  - inversion H; subst. right. left. exists kw. auto.
  - inversion H; subst. right. right. left. exists kw. auto.
  - inversion H; subst. right. right. right. exists e. auto.
Qed.

Lemma exits_weaken {A} (P Q : kwargs -> Prop) (m : M A) :
  (forall kw, P kw -> Q kw) -> exits_only P m -> exits_only Q m.
Proof.
  intros HPQ Hm w o w' H. specialize (Hm _ _ _ H).
  destruct o; try exact I. apply HPQ. exact Hm.
Qed.

(** Lines 561-567 exit only in check mode, with an environment to
    create, and then with [changed=True]. *)
Lemma exits_main_venv (h : Host) (p : Params) (env : option string) (chdir : string) :
  exits_only
    (fun kw =>
       p_check_mode p = true /\ kw = [("changed", VBool true)]
       /\ truthy env
          && negb (path_exists h (PosixPath.join3 (str_of env) "bin" "activate")) = true)
    (main_venv h p env chdir).
Proof.
  unfold main_venv. destruct (truthy env); cbn [andb].
  - destruct (path_exists h _); cbn [negb].
    + apply exits_ret.
    + apply exits_bind.
      * apply (exits_weaken _ _ _ (fun kw H => conj (proj1 H) (conj (proj2 H) eq_refl))).
        apply exits_setup_virtualenv.
      * intros [o e]. apply exits_ret.
  - apply exits_ret.
Qed.

Lemma main_packages_rejected (p : Params) (w : World) (v : string) :
  truthy_list (p_name p) = true ->
  p_version p = Some v ->
  override_rejected p = true ->
  exists kw, main_packages p w = (FailJson kw, w).
Proof.
  intros Hn Hv Hbad. unfold main_packages. rewrite Hn, Hv.
  unfold override_rejected in Hbad. rewrite length_map.
  destruct (1 <? length (_recover_package_name (list_of (p_name p))))%nat eqn:Hlen.
  - eexists. reflexivity.
  - cbn [orb] in Hbad. unfold when at 1. rewrite (bind_ret _ _ w w tt) by reflexivity.
    destruct (_recover_package_name (list_of (p_name p))) as [|text rest].
    + cbv in Hbad. discriminate.
    + cbn [map hd] in *. unfold bind, when. rewrite Hbad. eexists. reflexivity.
Qed.

Lemma main_venv_check_mode_exit (h : Host) (p : Params) (env : option string)
      (chdir : string) (w w' : World) (kw : kwargs) :
  main_venv h p env chdir w = (ExitJson kw, w') ->
  p_check_mode p = true
  /\ kw = [("changed", VBool true)]
  /\ truthy env && negb (path_exists h (PosixPath.join3 (str_of env) "bin" "activate")) = true
  /\ w' = w.
Proof.
  intros H. pose proof (exits_main_venv h p env chdir _ _ _ H) as (Hc & Hk & Hn).
  repeat split; try assumption.
  unfold main_venv in H. destruct (truthy env); cbn [andb] in *; [|discriminate].
  destruct (path_exists h _); cbn [negb] in *; [discriminate|].
  unfold bind in H. rewrite (setup_virtualenv_check_mode _ _ _ _ _ _ _ Hc) in H.
  now inversion H.
Qed.

(** With a rejected override the preparation never completes: it fails,
    or, in check mode with an environment to create, it exits at once
    with [changed=True]; without an environment to create it fails
    before any subprocess. *)
Lemma main_prepare_rejected (h : Host) (p : Params) (env : option string)
      (w0 w1 : World) (v : string) (o : Outcome Locals) :
  truthy_list (p_name p) = true ->
  p_version p = Some v ->
  override_rejected p = true ->
  main_prepare h p env w0 = (o, w1) ->
  (is_fatal o
   \/ (p_check_mode p = true
       /\ truthy env
          && negb (path_exists h (PosixPath.join3 (str_of env) "bin" "activate")) = true
       /\ o = ExitJson [("changed", VBool true)]
       /\ w1 = w0))
  /\ (truthy env
      && negb (path_exists h (PosixPath.join3 (str_of env) "bin" "activate")) = false ->
      is_fatal o /\ w_trace w1 = w_trace w0).
Proof.
  intros Hn Hv Hbad H. unfold main_prepare in H.
  apply bind_inv in H.
  destruct H as [(u & wa & Hw & H) | [(kw & Hw & ->) | [(kw & Hw & ->) | (e & Hw & ->)]]].
  2:{ unfold when in Hw. destruct (_ && _); discriminate. }
  2:{ unfold when in Hw. destruct (_ && _); [|discriminate]. inversion Hw; subst.
      split; [left; exact I | intros _; split; [exact I | reflexivity]]. }
  2:{ unfold when in Hw. destruct (_ && _); discriminate. }
  apply when_fail_inv_ret in Hw. destruct Hw as [_ ->].
  apply bind_inv in H.
  destruct H as [(x & wb & Hvenv & H) | [(kw & Hvenv & ->) | [(kw & Hvenv & ->) | (e & Hvenv & ->)]]].
  2:{ apply main_venv_check_mode_exit in Hvenv. destruct Hvenv as (Hc & -> & Hneed & ->).
      split; [right; auto|]. intros Hf. rewrite Hf in Hneed. discriminate. }
  2:{ split; [left; exact I|]. intros Hf.
      destruct (main_venv_not_needed h p env
                  (match p_chdir p with Some c => c | None => gettempdir h end) w0 Hf)
        as (py & E).
      rewrite E in Hvenv. discriminate. }
  2:{ split; [left; exact I|]. intros Hf.
      destruct (main_venv_not_needed h p env
                  (match p_chdir p with Some c => c | None => gettempdir h end) w0 Hf)
        as (py & E).
      rewrite E in Hvenv. discriminate. }
  assert (Hwb : truthy env
                && negb (path_exists h (PosixPath.join3 (str_of env) "bin" "activate")) = false
                -> wb = w0).
  { intros Hf.
    destruct (main_venv_not_needed h p env
                (match p_chdir p with Some c => c | None => gettempdir h end) w0 Hf)
      as (py & E).
    rewrite E in Hvenv. now inversion Hvenv. }
  destruct x as [[[vc out] err] py_bin].
  apply bind_inv in H.
  destruct H as [(pip & wc & Hpip & H) | [(kw & Hpip & ->) | [(kw & Hpip & ->) | (e & Hpip & ->)]]].
  2:{ exfalso. exact (exits__get_pip (fun _ => False) h _ _ _ _ Hpip). }
  2:{ apply nothing__get_pip in Hpip. split; [left; exact I|].
      intros Hf. rewrite (Hwb Hf) in Hpip. split; [exact I | exact Hpip]. }
  2:{ apply nothing__get_pip in Hpip. split; [left; exact I|].
      intros Hf. rewrite (Hwb Hf) in Hpip. split; [exact I | exact Hpip]. }
  apply nothing__get_pip in Hpip.
  destruct (main_packages_rejected p wc v Hn Hv Hbad) as (kw & Hpk).
  rewrite (bind_fail _ _ _ _ _ Hpk) in H. inversion H; subst.
  split; [left; exact I|].
  intros Hf. rewrite (Hwb Hf) in Hpip. split; [exact I | exact Hpip].
Qed.

Lemma main_finally_cases (old : option Z) (w1 w2 : World) (o : Outcome unit) :
  main_finally old w1 = (o, w2) ->
  w_trace w2 = w_trace w1 /\ (o = Ret tt \/ exists e, o = Raise e).
Proof.
  unfold main_finally. destruct old as [z|].
  - unfold bind, os_umask.
    destruct ((- 2147483648 <=? z) && (z <=? 2147483647))%Z; intros H; inversion H; subst.
    + split; [reflexivity | left; reflexivity].
    + split; [reflexivity | right; eexists; reflexivity].
  - intros H. inversion H; subst. split; [reflexivity | left; reflexivity].
Qed.

Lemma main_umask_cases (h : Host) (p : Params) (w w0 : World) (o : Outcome (option Z)) :
  main_umask h p w = (o, w0) ->
  w_trace w0 = w_trace w
  /\ match o with ExitJson _ => False | _ => True end.
Proof.
  unfold main_umask, bind, ret, fail_json, raise, os_umask.
  destruct (p_umask p) as [s|].
  - destruct (nonempty s).
    + destruct (int_base8 h s) as [z|e].
      * destruct ((- 2147483648 <=? z) && (z <=? 2147483647))%Z;
          intros H; inversion H; subst; split; (reflexivity || exact I).
      * intros H; inversion H; subst; split; (reflexivity || exact I).
    + intros H; inversion H; subst; split; (reflexivity || exact I).
  - intros H; inversion H; subst; split; (reflexivity || exact I).
Qed.

(** C3 (amended): [name] is supplied together with a [version] override.
    If the reconstruction gives more than one requirement, or one
    requirement whose text contains a version operator, the run never
    reaches the command and the module fails; the only exception is check
    mode with a virtual environment to create, where the module exits at
    once with [changed=True].  When no virtual environment has to be
    created, the failure comes before any subprocess has run (when one
    has to be created, [setup_virtualenv] runs its subprocesses first).
    Otherwise, in every run that reaches the command, there is a single
    requirement and the command ends with its text followed by
    [==version]. *)
Theorem C3_version_override
        (h : Host) (p : Params) (w : World) (v : string) :
  truthy_list (p_name p) = true ->
  p_version p = Some v ->
  (override_rejected p = true ->
   (is_fatal (fst (main h p w))
    \/ (p_check_mode p = true /\ venv_needed h p = true
        /\ fst (main h p w) = ExitJson [("changed", VBool true)]
        /\ w_trace (snd (main h p w)) = w_trace w))
   /\ (venv_needed h p = false ->
       is_fatal (fst (main h p w)) /\ w_trace (snd (main h p w)) = w_trace w)
   /\ (forall L w1, ~ reaches_command h p w L w1))
  /\
  (forall L w1,
      reaches_command h p w L w1 ->
      exists text py_bin extra,
        _recover_package_name (list_of (p_name p)) = [text]
        /\ has_version_specifier (Package_init text) = false
        /\ l_cmd L = ((l_pip L ++ state_map (p_state p)) ++ ["--python"; py_bin])
                       ++ extra ++ [text @@ "==" @@ v]).
Proof.
  intros Hn Hv.
  assert (HB : forall L w1,
             reaches_command h p w L w1 ->
             exists text py_bin extra,
               _recover_package_name (list_of (p_name p)) = [text]
               /\ has_version_specifier (Package_init text) = false
               /\ l_cmd L = ((l_pip L ++ state_map (p_state p)) ++ ["--python"; py_bin])
                              ++ extra ++ [text @@ "==" @@ v]).
  { intros L w1 (old & w0 & Hu & Hp).
    destruct (main_prepare_ret _ _ _ _ _ _ Hp) as (_ & _ & _ & _ & _ & _ & Hcmd).
    exact (Hcmd Hn v Hv). }
  split; [|exact HB].
  intros Hbad.
  assert (Hnever : forall L w1, ~ reaches_command h p w L w1).
  { intros L w1 Hr. destruct (HB L w1 Hr) as (text & _ & _ & Hreq & Hspec & _).
    unfold override_rejected in Hbad. rewrite Hreq in Hbad. cbn [length hd] in Hbad.
    rewrite Hspec in Hbad. discriminate. }
  assert (Hmain :
            (is_fatal (fst (main h p w))
             \/ (p_check_mode p = true /\ venv_needed h p = true
                 /\ fst (main h p w) = ExitJson [("changed", VBool true)]
                 /\ w_trace (snd (main h p w)) = w_trace w))
            /\ (venv_needed h p = false ->
                is_fatal (fst (main h p w)) /\ w_trace (snd (main h p w)) = w_trace w)).
  { unfold main.
    destruct (main_umask h p w) as [ou w0] eqn:Hu.
    destruct (main_umask_cases _ _ _ _ _ Hu) as (Htr0 & Hnoexit).
    destruct ou as [old|kw|kw|e].
    2:{ contradiction. }
    2:{ rewrite (bind_fail _ _ _ _ _ Hu). cbn [fst snd].
        split; [left; exact I | intros _; split; [exact I | exact Htr0]]. }
    2:{ rewrite (bind_raise _ _ _ _ _ Hu). cbn [fst snd].
        split; [left; exact I | intros _; split; [exact I | exact Htr0]]. }
    rewrite (bind_ret _ _ _ _ _ Hu). unfold try_finally, main_try.
    destruct (main_prepare h p (main_env p) w0) as [op wp] eqn:Hp.
    destruct (main_prepare_rejected h p (main_env p) w0 wp v op Hn Hv Hbad Hp)
      as (Hcases & Hnone).
    fold (venv_needed h p) in Hcases, Hnone.
    assert (Hbind : bind (main_prepare h p (main_env p))
                         (fun L => if p_check_mode p then main_check h p L
                                   else main_apply h p L) w0
                    = (match op with
                       | Ret _ => Raise EmptyString
                       | ExitJson kw => ExitJson kw
                       | FailJson kw => FailJson kw
                       | Raise e => Raise e
                       end, wp)
                      /\ match op with Ret _ => False | _ => True end).
    { unfold bind. rewrite Hp. destruct op as [L|kw|kw|e]; try (split; [reflexivity | exact I]).
      exfalso. destruct Hcases as [Hf | (_ & _ & Hx & _)]; [exact Hf | discriminate]. }
    destruct Hbind as (Hbind & Hnr). rewrite Hbind.
    destruct (main_finally old wp) as [ofin w2] eqn:Hf.
    destruct (main_finally_cases _ _ _ _ Hf) as (Htr2 & Hof).
    destruct Hof as [-> | (e & ->)].
    - cbn [fst snd]. split.
      + destruct Hcases as [Hfat | (Hc & Hneed & -> & ->)].
        * left. destruct op; try contradiction; exact I.
        * right. repeat split; try assumption. rewrite Htr2. exact Htr0.
      + intros Hno. destruct (Hnone Hno) as (Hfat & Htr).
        split; [destruct op; try contradiction; exact I|].
        rewrite Htr2, Htr. exact Htr0.
    - cbn [fst snd]. split; [left; exact I|].
      intros Hno. destruct (Hnone Hno) as (_ & Htr).
      split; [exact I|]. rewrite Htr2, Htr. exact Htr0. }
  destruct Hmain as (H1 & H2). split; [exact H1|]. split; [exact H2 | exact Hnever].
Qed.

Lemma C3_version_override_witness :
  (is_fatal (fst (main Scenario.quiet_host Scenario.version_two_params Sample.world))
   /\ w_trace (snd (main Scenario.quiet_host Scenario.version_two_params Sample.world))
      = w_trace Sample.world)
  /\
  (exists text py_bin extra,
      _recover_package_name (list_of (p_name Scenario.version_params)) = [text]
      /\ has_version_specifier (Package_init text) = false
      /\ ["/usr/bin/uv"; "pip"; "install"; "--python"; "uv pip"; "six==1.16.0"]
         = ((["/usr/bin/uv"; "pip"] ++ state_map (p_state Scenario.version_params))
              ++ ["--python"; py_bin])
             ++ extra ++ [text @@ "==" @@ "1.16.0"]).
Proof.
  split.
  - exact (proj1 (proj2 (proj1 (C3_version_override
                                  Scenario.quiet_host Scenario.version_two_params
                                  Sample.world "1.16.0" eq_refl eq_refl)
                               eq_refl))
                 eq_refl).
  - exact (proj2 (C3_version_override
                    Scenario.quiet_host Scenario.version_params
                    Sample.world "1.16.0" eq_refl eq_refl)
                 {| l_env := None; l_chdir := "/tmp"; l_out := EmptyString;
                    l_err := EmptyString; l_venv_created := false;
                    l_pip := ["/usr/bin/uv"; "pip"];
                    l_cmd := ["/usr/bin/uv"; "pip"; "install"; "--python"; "uv pip";
                              "six==1.16.0"];
                    l_path_prefix := None; l_has_vcs := false;
                    l_extra_args := None |}
                 Sample.world
                 (ex_intro _ None (ex_intro _ Sample.world (conj eq_refl eq_refl)))).
Defined.

(** Two runs against C3 as stated, both with two requirements, a
    [version] override and a virtual environment to create: outside check
    mode two subprocesses run before the validation fails; in check mode
    the module does not fail but exits with [changed=True]. *)
Lemma C3_counterexample :
  (truthy_list (p_name Scenario.version_two_venv_params) = true
   /\ p_version Scenario.version_two_venv_params = Some "1.16.0"
   /\ _recover_package_name (list_of (p_name Scenario.version_two_venv_params))
      = ["six"; "five"]
   /\ exists w',
        main Scenario.quiet_host Scenario.version_two_venv_params Sample.world
        = (FailJson
             [("msg",
               VStr ("'version' argument is ambiguous when installing multiple package distributions. "
                     @@ "Please specify version restrictions next to each package in 'name' argument."))],
           w')
        /\ w_trace w'
           = [help_call "/usr/bin/uv" Sample.world;
              call_of (CmdArgv ["/usr/bin/uv"; "venv"; "--python-preference"; "only-system";
                                "-p/usr/bin/python3"; "/venv"])
                      (Some "/tmp") None [] Sample.world])
  /\
  (truthy_list (p_name Scenario.version_two_venv_check_params) = true
   /\ p_version Scenario.version_two_venv_check_params = Some "1.16.0"
   /\ main Scenario.quiet_host Scenario.version_two_venv_check_params Sample.world
      = (ExitJson [("changed", VBool true)], Sample.world)).
Proof.
  split.
  - split; [reflexivity|]. split; [reflexivity|]. split; [reflexivity|].
    eexists. split; vm_compute; reflexivity.
  - split; [reflexivity|]. split; [reflexivity|]. vm_compute. reflexivity.
Qed.

(* ================================================================= *)
(** ** Environment provisioning *)

(** C7 (amended): outside check mode, when the provisioning command is
    venv-style ([_is_venv_command] is true) and [virtualenv_python] is
    supplied, [setup_virtualenv] fails, and the command that creates the
    environment is never run.  With [virtualenv_site_packages] no
    subprocess at all runs before the failure; without it (the default)
    the [--help] probe of the provisioning tool runs first, whenever the
    tool is found and can be started. *)
Theorem C7_venv_style_rejects_interpreter
        (h : Host) (p : Params) (env chdir out err : string) (w : World) :
  p_check_mode p = false ->
  _is_venv_command h (p_virtualenv_command p) = Ret true ->
  truthy (p_virtualenv_python p) = true ->
  exists kw w',
    setup_virtualenv h p env chdir out err w = (FailJson kw, w')
    /\ (w' = w \/ exists tool, w' = add_call w (help_call tool w))
    /\ (p_virtualenv_site_packages p = true -> w' = w)
    /\ (p_virtualenv_site_packages p = false ->
        forall tool,
          provisioning_tool h p w = Some tool ->
          run h (w_trace w) (help_call tool w) <> None ->
          w' = add_call w (help_call tool w)).
Proof.
  intros Hcm Hvenv Hvp.
  assert (Hs : exists cmd0 rest, shlex_split h (p_virtualenv_command p) = Some (cmd0 :: rest)).
  { unfold _is_venv_command in Hvenv.
    destruct (shlex_split h (p_virtualenv_command p)) as [[|cmd0 rest]|]; try discriminate.
    exists cmd0, rest. reflexivity. }
  destruct Hs as (cmd0 & rest & Hs).
  unfold provisioning_tool, setup_virtualenv. rewrite Hcm, Hs, Hvenv, Hvp.
  unfold when at 1. rewrite (bind_ret _ _ w w tt) by reflexivity.
  (* what follows once the executable [tool] of the command is known *)
  lazymatch goal with
  | |- exists kw w', bind _ ?F w = _ /\ _ =>
      assert (Hprobe : forall tool,
                 exists kw w',
                   F (tool :: rest) w = (FailJson kw, w')
                   /\ (w' = w \/ exists tool', w' = add_call w (help_call tool' w))
                   /\ (p_virtualenv_site_packages p = true -> w' = w)
                   /\ (p_virtualenv_site_packages p = false ->
                       run h (w_trace w) (help_call tool w) <> None ->
                       w' = add_call w (help_call tool w)))
  end.
  { intros tool. cbv beta. destruct (p_virtualenv_site_packages p).
    - eexists. exists w. split; [reflexivity|]. split; [left; reflexivity|].
      split; [reflexivity | discriminate].
    - unfold _get_cmd_options. cbn [hd]. unfold bind, run_command.
      fold (help_call tool w).
      destruct (run h (w_trace w) (help_call tool w)) as [[[rc o] e]|].
      + unfold when. destruct (rc =? 0)%Z; cbn.
        * destruct (existsb _ _); cbn; eexists; eexists;
            (split; [reflexivity|]; split; [right; exists tool; reflexivity|];
             split; [discriminate|]; intros _ _; reflexivity).
        * eexists; eexists;
            (split; [reflexivity|]; split; [right; exists tool; reflexivity|];
             split; [discriminate|]; intros _ _; reflexivity).
      + eexists. exists w. split; [reflexivity|]. split; [left; reflexivity|].
        split; [discriminate | intros _ Hn; congruence]. }
  destruct (String.eqb (PosixPath.basename cmd0) cmd0).
  - unfold bind at 1. unfold bind at 1. unfold module_get_bin_path_required.
    destruct (get_bin_path h (w_trace w) cmd0) as [path|].
    + cbn [ret]. destruct (Hprobe path) as (kw & w' & E & H1 & H2 & H3).
      exists kw, w'. split; [exact E|]. split; [exact H1|]. split; [exact H2|].
      intros Hsite tool Ht. inversion Ht; subst. exact (H3 Hsite).
    + eexists. exists w. split; [reflexivity|]. split; [left; reflexivity|].
      split; [reflexivity | intros _ tool Ht; discriminate].
  - rewrite (bind_ret _ _ w w (cmd0 :: rest)) by reflexivity.
    destruct (Hprobe cmd0) as (kw & w' & E & H1 & H2 & H3).
    exists kw, w'. split; [exact E|]. split; [exact H1|]. split; [exact H2|].
    intros Hsite tool Ht. inversion Ht; subst. exact (H3 Hsite).
Qed.

Lemma C7_venv_style_rejects_interpreter_witness :
  exists kw w',
    setup_virtualenv Scenario.quiet_host Scenario.venv_python_params
                     "/venv" "/tmp" EmptyString EmptyString Sample.world
    = (FailJson kw, w')
    /\ (w' = Sample.world
        \/ exists tool, w' = add_call Sample.world (help_call tool Sample.world))
    /\ (p_virtualenv_site_packages Scenario.venv_python_params = true -> w' = Sample.world)
    /\ (p_virtualenv_site_packages Scenario.venv_python_params = false ->
        forall tool,
          provisioning_tool Scenario.quiet_host Scenario.venv_python_params Sample.world
          = Some tool ->
          run Scenario.quiet_host (w_trace Sample.world) (help_call tool Sample.world) <> None ->
          w' = add_call Sample.world (help_call tool Sample.world)).
Proof.
  apply (C7_venv_style_rejects_interpreter
           Scenario.quiet_host Scenario.venv_python_params
           "/venv" "/tmp" EmptyString EmptyString Sample.world).
  - reflexivity.
  - reflexivity.
  - reflexivity.
Defined.

(** A run against C7 as stated: the provisioning command is
    [python3 -m venv], [virtualenv_python] is given, and the [--help]
    probe runs before the failure is reported. *)
Lemma C7_counterexample :
  p_check_mode Scenario.venv_python_params = false
  /\ _is_venv_command Scenario.quiet_host (p_virtualenv_command Scenario.venv_python_params)
     = Ret true
  /\ p_virtualenv_python Scenario.venv_python_params = Some "python3.9"
  /\ exists w',
       main Scenario.quiet_host Scenario.venv_python_params Sample.world
       = (FailJson
            [("msg",
              VStr ("virtualenv_python should not be used when"
                    @@ " using the venv module or pyvenv as virtualenv_command"))],
          w')
       /\ w_trace w' = [help_call "/usr/bin/python3" Sample.world].
Proof.
  split; [reflexivity|]. split; [reflexivity|]. split; [reflexivity|].
  eexists. split; vm_compute; reflexivity.
Qed.

(* ================================================================= *)
(** ** Creation of the virtual environment and the reported change *)

(** C8, at the failing input: the list of names is empty, there is no
    requirements file, and the virtual environment does not exist.
    [main] creates the environment (the [--help] probe and the creation
    command run), and then leaves through the exit of line 632 with
    [changed=False]. *)
Theorem C8_environment_created_but_unchanged_reported :
  venv_needed Scenario.quiet_host Scenario.no_name_venv_params = true
  /\ exists w',
       main Scenario.quiet_host Scenario.no_name_venv_params Sample.world
       = (ExitJson [("changed", VBool false);
                    ("warnings", VList ["No valid name or requirements file found."])],
          w')
       /\ w_trace w'
          = [help_call "/usr/bin/uv" Sample.world;
             call_of (CmdArgv ["/usr/bin/uv"; "venv"; "--python-preference"; "only-system";
                               "-p/usr/bin/python3"; "/venv"])
                     (Some "/tmp") None [] Sample.world].
Proof.
  split; [reflexivity|]. eexists. split; vm_compute; reflexivity.
Qed.

(** Every other exit of a run that created the environment reports
    [changed=True]: this holds as soon as a name or a requirements file
    is given. *)

Lemma exits_get_best_parsable_locale (P : kwargs -> Prop) (h : Host) :
  exits_only P (get_best_parsable_locale h).
Proof. unfold get_best_parsable_locale. repeat exits_step. Qed.
#[local] Hint Resolve exits_get_best_parsable_locale : exits.

Lemma exits__get_packages (P : kwargs -> Prop) (h : Host) (pip : list string) (chdir : string) :
  exits_only P (_get_packages h pip chdir).
Proof. unfold _get_packages. repeat exits_step. Qed.
#[local] Hint Resolve exits__get_packages : exits.

Lemma main_venv_ret_created (h : Host) (p : Params) (env : option string) (chdir : string)
      (w w' : World) out err py_bin :
  main_venv h p env chdir w = (Ret (true, out, err, py_bin), w') ->
  p_check_mode p = false.
Proof.
  unfold main_venv. destruct (truthy env).
  - destruct (negb (path_exists h _)).
    + intros H. apply bind_inv_ret in H. destruct H as ([o e] & w1 & Hs & _).
      destruct (p_check_mode p) eqn:Hc; [|reflexivity].
      rewrite (setup_virtualenv_check_mode _ _ _ _ _ _ _ Hc) in Hs. discriminate.
    + discriminate.
  - discriminate.
Qed.

Lemma main_prepare_created (h : Host) (p : Params) (env : option string)
      (w0 w1 : World) (L : Locals) :
  main_prepare h p env w0 = (Ret L, w1) ->
  l_venv_created L = true ->
  p_check_mode p = false.
Proof.
  unfold main_prepare. intros H Hvc.
  apply bind_inv_ret in H. destruct H as ([] & wa & _ & H).
  apply bind_inv_ret in H. destruct H as ([[[vc out] err] py_bin] & wb & Hv & H).
  apply bind_inv_ret in H. destruct H as (pip & wc & _ & H).
  apply bind_inv_ret in H. destruct H as ([has_vcs packages] & wd & _ & H).
  apply bind_inv_ret in H. destruct H as (cmd1 & we & _ & H).
  apply bind_inv_ret in H. destruct H as ([] & wf & _ & H).
  apply bind_inv_ret in H. destruct H as (cmd2 & wg & _ & H).
  inversion H; subst L. cbn [l_venv_created] in Hvc. subst vc.
  exact (main_venv_ret_created _ _ _ _ _ _ _ _ _ Hv).
Qed.

Lemma exits_main_apply_created (h : Host) (p : Params) (L : Locals) :
  l_venv_created L = true ->
  exits_only reports_changed (main_apply h p L).
Proof.
  intros Hvc. unfold main_apply.
  apply exits_bind; [unfold main_before; repeat exits_step|]. intros before.
  apply exits_bind; [apply exits_run_command|]. intros [[rc out_pip] err_pip].
  unfold main_report.
  apply exits_bind; [repeat exits_step|]. intros _.
  apply exits_bind; [repeat exits_step|]. intros changed.
  apply exits_exit_json. unfold reports_changed. cbn [kw_get].
  rewrite Hvc, orb_true_r. reflexivity.
Qed.

Lemma exits_main_prepare_named (h : Host) (p : Params) (env : option string) :
  truthy_list (p_name p) || truthy (p_requirements p) = true ->
  exits_only reports_changed (main_prepare h p env).
Proof.
  intros Hnr. unfold main_prepare.
  apply exits_bind; [repeat exits_step|]. intros _.
  apply exits_bind.
  { eapply exits_weaken; [|apply exits_main_venv].
    intros kw (_ & -> & _). reflexivity. }
  intros [[[vc out] err] py_bin].
  apply exits_bind; [apply exits__get_pip|]. intros pip.
  apply exits_bind; [apply exits_main_packages|]. intros [has_vcs packages].
  apply exits_bind; [repeat exits_step|]. intros cmd1.
  apply exits_bind; [repeat exits_step|]. intros _.
  apply exits_bind; [|intros cmd2; apply exits_ret].
  destruct (truthy_list (p_name p)); [apply exits_ret|].
  destruct (truthy (p_requirements p)); [apply exits_ret | discriminate].
Qed.

(** X24: when the virtual environment had to be created and a name or
    a requirements file is given, every exit of the module through
    [exit_json] reports [changed=True], whatever the package manager
    did. *)
Lemma venv_creation_reported (h : Host) (p : Params) (w w' : World) (kw : kwargs) :
  venv_needed h p = true ->
  truthy_list (p_name p) || truthy (p_requirements p) = true ->
  main h p w = (ExitJson kw, w') ->
  kw_get "changed" kw = Some (VBool true).
Proof.
  intros Hneed Hnr H. unfold main in H.
  apply bind_inv in H.
  destruct H as [(old & w0 & Hu & H) | [(kw' & Hu & _) | [(kw' & _ & H) | (e & _ & H)]]];
    try discriminate.
  2:{ destruct (main_umask_cases _ _ _ _ _ Hu) as (_ & Hf). contradiction. }
  unfold try_finally in H.
  destruct (main_try h p w0) as [o w1] eqn:Ht.
  destruct (main_finally old w1) as [ofin w2] eqn:Hf.
  destruct (main_finally_cases _ _ _ _ Hf) as (_ & [-> | (e & ->)]); [|discriminate].
  inversion H; subst o w2. clear H.
  unfold main_try in Ht. apply bind_inv in Ht.
  destruct Ht as [(L & wp & Hp & Ht) | [(kw' & Hp & Hk) | [(kw' & _ & Hk) | (e & _ & Hk)]]];
    try discriminate.
  - destruct (main_prepare_ret _ _ _ _ _ _ Hp) as (_ & _ & _ & Hvc & _).
    fold (venv_needed h p) in Hvc. rewrite Hneed in Hvc.
    rewrite (main_prepare_created _ _ _ _ _ _ Hp Hvc) in Ht.
    exact (exits_main_apply_created h p L Hvc _ _ _ Ht).
  - inversion Hk; subst kw'.
    exact (exits_main_prepare_named h p (main_env p) Hnr _ _ _ Hp).
Qed.

Lemma venv_creation_reported_witness :
  exists kw w',
    main Scenario.audited_host Scenario.present_venv_params Sample.world = (ExitJson kw, w')
    /\ kw_get "changed" kw = Some (VBool true).
Proof.
  eexists _, _. split; [vm_compute; reflexivity|].
  apply (venv_creation_reported Scenario.audited_host Scenario.present_venv_params
                                Sample.world
                                (snd (main Scenario.audited_host Scenario.present_venv_params
                                           Sample.world))).
  - reflexivity.
  - reflexivity.
  - vm_compute. reflexivity.
Defined.

(* ================================================================= *)
(** ** Examples from the specification *)

Example has_version_specifier_bottle :
  has_version_specifier (Package_init "bottle==0.11") = true
  /\ has_version_specifier (Package_init "bottle") = false.
Proof. split; reflexivity. Qed.

Example recover_empty_list : _recover_package_name [] = [EmptyString].
Proof. reflexivity. Qed.

Example recover_leading_version_clause :
  _recover_package_name [">=1.0"; "six"] = [">=1.0"; "six"].
Proof. reflexivity. Qed.

Example recover_extras_group :
  _recover_package_name ["name[extra_one,extra_two]>=1.0"; "other"]
  = ["name[extra_one,extra_two]>=1.0"; "other"].
Proof. reflexivity. Qed.

Example is_venv_command_examples :
  _is_venv_command Scenario.quiet_host "pyvenv" = Ret true
  /\ _is_venv_command Scenario.quiet_host "python3 -m venv" = Ret true
  /\ _is_venv_command Scenario.quiet_host "uv venv" = Ret false.
Proof. repeat split; reflexivity. Qed.

(* ================================================================= *)
(** ** Further properties of the reconstruction *)

Lemma prefix_empty (s : string) : String.prefix EmptyString s = true.
Proof. destruct s; reflexivity. Qed.

Lemma prefix_cons (a : ascii) (p : string) (c : ascii) (s : string) :
  String.prefix (String a p) (String c s) = Ascii.eqb a c && String.prefix p s.
Proof.
  cbn [String.prefix]. destruct (ascii_dec a c) as [->|n].
  - now rewrite Ascii.eqb_refl.
  - apply Ascii.eqb_neq in n. now rewrite n.
Qed.

Section Separator.

(** A separator of one character; its text is [String sep EmptyString]. *)
Variable sep : ascii.

Lemma str_in_sep_cons (c : ascii) (t : string) :
  str_in (String sep EmptyString) (String c t) = false
  <-> c <> sep /\ str_in (String sep EmptyString) t = false.
Proof.
  cbn [str_in]. rewrite prefix_cons, prefix_empty, andb_true_r. split.
  - intros H. apply orb_false_elim in H. destruct H as [Hp Ht].
    split; [|exact Ht]. intros ->. now rewrite Ascii.eqb_refl in Hp.
  - intros [Hc Ht]. rewrite Ht, orb_false_r. apply Ascii.eqb_neq. congruence.
Qed.

Lemma str_in_sep_app (a b : string) :
  str_in (String sep EmptyString) a = false ->
  str_in (String sep EmptyString) b = false ->
  str_in (String sep EmptyString) (a @@ b) = false.
Proof.
  intros Ha Hb. induction a as [|c a IH]; [exact Hb|].
  apply str_in_sep_cons in Ha. destruct Ha as [Hc Ha].
  change (String c a @@ b) with (String c (a @@ b)).
  apply str_in_sep_cons. split; [exact Hc | exact (IH Ha)].
Qed.

(** The fields of a split hold no separator. *)
Lemma split_acc_sep_free (s cur : string) :
  str_in (String sep EmptyString) cur = false ->
  Forall (fun t => str_in (String sep EmptyString) t = false) (split_acc sep cur s).
Proof.
  revert cur. induction s as [|c s IH]; intros cur Hcur; cbn [split_acc].
  - constructor; [exact Hcur | constructor].
  - destruct (Ascii.eqb c sep) eqn:E.
    + constructor; [exact Hcur | apply IH; reflexivity].
    + apply IH. apply str_in_sep_app; [exact Hcur|].
      apply str_in_sep_cons. split; [|reflexivity].
      apply Ascii.eqb_neq. exact E.
Qed.

(** Splitting a text without separator gives the text; splitting the
    text of a join gives back the joined fields. *)
Lemma split_acc_last (t cur : string) :
  str_in (String sep EmptyString) t = false -> split_acc sep cur t = [cur @@ t].
Proof.
  revert cur. induction t as [|c t IH]; intros cur H; cbn [split_acc].
  - now rewrite append_empty_r.
  - apply str_in_sep_cons in H. destruct H as [Hc Ht].
    apply Ascii.eqb_neq in Hc. rewrite Hc, (IH _ Ht), append_assoc. reflexivity.
Qed.

Lemma split_acc_token (t cur rest : string) :
  str_in (String sep EmptyString) t = false ->
  split_acc sep cur (t @@ String sep rest)
  = (cur @@ t) :: split_acc sep EmptyString rest.
Proof.
  revert cur. induction t as [|c t IH]; intros cur H.
  - cbn. now rewrite Ascii.eqb_refl, append_empty_r.
  - apply str_in_sep_cons in H. destruct H as [Hc Ht].
    apply Ascii.eqb_neq in Hc.
    change (String c t @@ String sep rest) with (String c (t @@ String sep rest)).
    cbn [split_acc]. rewrite Hc, (IH _ Ht), append_assoc. reflexivity.
Qed.

Lemma split_join_tokens (l : list string) :
  l <> [] ->
  Forall (fun t => str_in (String sep EmptyString) t = false) l ->
  split sep (join (String sep EmptyString) l) = l.
Proof.
  intros Hne H. induction H as [|t l Ht Hl IH]; [congruence|].
  destruct l as [|y l].
  - unfold split. cbn. now rewrite (split_acc_last t EmptyString Ht).
  - rewrite concat_cons2. unfold split.
    change (String sep EmptyString @@ join (String sep EmptyString) (y :: l))
      with (String sep (join (String sep EmptyString) (y :: l))).
    rewrite (split_acc_token t EmptyString _ Ht). cbn [String.append].
    f_equal. apply IH. discriminate.
Qed.

End Separator.

Lemma flatten_names_comma_free (names : list string) :
  Forall (fun t => str_in "," t = false) (flatten_names names).
Proof.
  unfold flatten_names. induction names as [|x names IH]; [constructor|].
  cbn [flat_map]. apply Forall_app. split; [|exact IH].
  apply (split_acc_sep_free ","%char). reflexivity.
Qed.

Lemma Forall_concat_groups {A} (P : A -> Prop) (gs : list (list A)) :
  Forall P (concat gs) -> Forall (Forall P) gs.
Proof.
  induction gs as [|g gs IH]; intros H; [constructor|].
  cbn [concat] in H. apply Forall_app in H. destruct H as [Hg Hgs].
  constructor; [exact Hg | exact (IH Hgs)].
Qed.

(** Flattening the joined groups gives back their tokens. *)
Lemma flatten_joined_groups (gs : list (list string)) :
  Forall (fun g => g <> []) gs ->
  Forall (Forall (fun t => str_in "," t = false)) gs ->
  flatten_names (map (join ",") gs) = concat gs.
Proof.
  unfold flatten_names. intros Hne. induction Hne as [|g gs Hg Hgs IH]; intros Hc.
  - reflexivity.
  - inversion Hc as [|? ? Hcg Hcgs]; subst. cbn [map flat_map concat].
    rewrite (split_join_tokens ","%char g Hg Hcg), (IH Hcgs). reflexivity.
Qed.

(** The groups of a whole run over a non-empty token list. *)
Lemma recover_groups (l : list string) :
  l <> [] ->
  exists gs,
    recover_loop l [] [] false = map (join ",") gs
    /\ concat gs = l
    /\ Forall (fun g => g <> []) gs
    /\ gs = group_loop l [] [] false.
Proof.
  intros Hl.
  change (recover_loop l [] [] false) with (recover_loop l [] (map (join ",") []) false).
  rewrite recover_loop_groups.
  destruct (group_loop_shape l [] false) as (g & gs & E & Hc & Hne & Hg).
  exists (g :: gs). rewrite E. cbn [app] in *. repeat split; try assumption.
  constructor; [exact (Hg Hl) | exact Hne].
Qed.

Lemma flatten_recovered (names : list string) :
  flatten_names names <> [] ->
  flatten_names (_recover_package_name names) = flatten_names names.
Proof.
  intros Hne. unfold _recover_package_name at 1.
  destruct (recover_groups _ Hne) as (gs & E & Hc & Hg & _).
  rewrite E, flatten_joined_groups; [exact Hc | exact Hg |].
  apply Forall_concat_groups. rewrite Hc. apply flatten_names_comma_free.
Qed.

Lemma length_groups_le {A} (gs : list (list A)) :
  Forall (fun g => g <> []) gs -> (length gs <= length (concat gs))%nat.
Proof.
  induction 1 as [|g gs Hg Hgs IH]; [apply le_n|].
  cbn [concat length]. rewrite length_app.
  destruct g; [congruence|]. cbn [length]. lia.
Qed.

(** X1: [_recover_package_name] always returns at least one requirement
    (so [packages[0]] exists whenever [main] reads it), and never more
    requirements than there are tokens between the commas of its input
    (one, for an empty input). *)
Theorem recover_package_name_count (names : list string) :
  (1 <= length (_recover_package_name names)
   <= Nat.max 1 (length (flatten_names names)))%nat.
Proof.
  unfold _recover_package_name.
  destruct (flatten_names names) as [|tok toks] eqn:Ef.
  - cbn. lia.
  - destruct (recover_groups (tok :: toks)) as (gs & E & Hc & Hg & _); [discriminate|].
    rewrite E, length_map. pose proof (length_groups_le gs Hg) as Hle.
    rewrite Hc in Hle. destruct gs as [|g gs]; [discriminate|].
    cbn [length] in *. lia.
Qed.

(** X2: [_recover_package_name] is idempotent: its output, given back as
    input, is returned unchanged. *)
Theorem recover_package_name_idempotent (names : list string) :
  _recover_package_name (_recover_package_name names) = _recover_package_name names.
Proof.
  destruct (flatten_names names) as [|tok toks] eqn:Ef.
  - unfold _recover_package_name at 2 3. rewrite Ef. reflexivity.
  - unfold _recover_package_name at 1 3.
    rewrite flatten_recovered; [reflexivity | rewrite Ef; discriminate].
Qed.

(** Without operators and brackets every token is closed by the next. *)
Lemma recover_loop_plain (l : list string) (x : string) (pk : list string) :
  Forall (fun t => _is_package_name t = true /\ str_in "[" t = false) l ->
  recover_loop l [x] pk false = pk ++ x :: l.
Proof.
  intros H. revert x pk. induction H as [|t l [Hp Hb] Hl IH]; intros x pk.
  - reflexivity.
  - cbn [recover_loop]. rewrite Hp, Hb. cbn [andb negb app].
    rewrite IH, <- app_assoc. reflexivity.
Qed.

(** X3: when no token between the commas of the input begins with a
    version operator and none contains ["["], every token is a
    requirement of its own: the output is the list of the tokens. *)
Theorem recover_package_name_plain (names : list string) :
  flatten_names names <> [] ->
  Forall (fun t => _is_package_name t = true /\ str_in "[" t = false)
         (flatten_names names) ->
  _recover_package_name names = flatten_names names.
Proof.
  intros Hne H. unfold _recover_package_name.
  destruct (flatten_names names) as [|t l]; [congruence|].
  inversion H as [|? ? [Hp Hb] Hl]; subst.
  cbn [recover_loop]. rewrite Hp, Hb. cbn [andb negb app].
  apply (recover_loop_plain l t [] Hl).
Qed.

Lemma recover_package_name_plain_witness :
  _recover_package_name ["six,requests"; "flask"] = flatten_names ["six,requests"; "flask"].
Proof.
  apply (recover_package_name_plain ["six,requests"; "flask"]).
  - discriminate.
  - repeat constructor.
Defined.

(** A token that does not begin with a version operator still does not
    once text is joined to it with [","]. *)
Lemma prefix_eq_join (t r : string) :
  String.prefix "=" (t @@ String "," r) = String.prefix "=" t.
Proof.
  destruct t as [|d t]; [reflexivity|].
  cbn [String.append String.prefix].
  destruct (ascii_dec "=" d); [now rewrite !prefix_empty | reflexivity].
Qed.

Lemma startswith_ops_cons (c : ascii) (t r : string) :
  startswith_any (String c t) op_dict_keys = false ->
  startswith_any (String c (t @@ String "," r)) op_dict_keys = false.
Proof.
  unfold startswith_any, op_dict_keys. cbn [existsb String.prefix].
  rewrite !prefix_eq_join, !prefix_empty. intros H. exact H.
Qed.

Lemma is_package_name_join (t r : string) :
  _is_package_name t = true -> _is_package_name (t @@ String "," r) = true.
Proof.
  unfold _is_package_name. induction t as [|c t IH]; intros H.
  - reflexivity.
  - change (String c t @@ String "," r) with (String c (t @@ String "," r)).
    cbn [lstrip] in *. destruct (isspace c); [exact (IH H)|].
    apply negb_true_iff. apply negb_true_iff in H.
    apply startswith_ops_cons. exact H.
Qed.

Lemma is_package_name_group (t : string) (g : list string) :
  _is_package_name t = true -> _is_package_name (join "," (t :: g)) = true.
Proof.
  intros H. destruct g as [|y g]; [exact H|].
  rewrite concat_cons2. apply is_package_name_join. exact H.
Qed.

(** One token read by the loop: it closes the tokens collected so far
    or joins them. *)
Lemma group_loop_step (t : string) (l parts : list string) (ib : bool) :
  exists gs1 g1 ib',
    group_loop (t :: l) parts [] ib = gs1 ++ group_loop l (g1 ++ [t]) [] ib'
    /\ concat gs1 ++ g1 = parts.
Proof.
  cbn [group_loop]. destruct (_is_package_name t && negb ib).
  - destruct parts as [|x parts].
    + eexists [], [], _. split; reflexivity.
    + eexists [x :: parts], [], _. split.
      * now rewrite group_loop_acc.
      * simpl. now rewrite !app_nil_r.
  - eexists [], parts, _. split; reflexivity.
Qed.

(** A token that begins with a version operator joins the tokens
    collected so far. *)
Lemma group_loop_clause (c : string) (l parts : list string) (ib : bool) :
  _is_package_name c = false ->
  exists ib', group_loop (c :: l) parts [] ib = group_loop l (parts ++ [c]) [] ib'.
Proof.
  intros H. cbn [group_loop]. rewrite H. cbn [andb]. eexists. reflexivity.
Qed.

(** Every group after the first begins with a token that is a package
    name. *)
Lemma group_loop_heads (l parts : list string) (ib : bool) :
  Forall (fun g => exists t g', g = t :: g' /\ _is_package_name t = true)
         (tl (group_loop l parts [] ib)).
Proof.
  revert parts ib. induction l as [|name rest IH]; intros parts ib.
  - constructor.
  - cbn [group_loop]. destruct (_is_package_name name && negb ib) eqn:E.
    + apply andb_true_iff in E. destruct E as [Hp _].
      destruct parts as [|x parts]; [apply IH|].
      rewrite group_loop_acc. cbn [app tl].
      match goal with |- Forall _ (group_loop rest _ [] ?b) =>
        pose proof (IH [name] b) as Hrest;
        destruct (group_loop_shape rest [name] b) as (g & gs & Es & _ & _ & _)
      end.
      cbn [app] in Hrest. rewrite Es in *. cbn [tl] in Hrest.
      constructor; [|exact Hrest].
      exists name, g. split; [reflexivity | exact Hp].
    + apply IH.
Qed.

(** X4: every requirement of the output but the first begins with a
    package name, never with a version operator (the first one begins as
    the input does). *)
Theorem recover_package_name_heads (names : list string) :
  Forall (fun r => _is_package_name r = true) (tl (_recover_package_name names)).
Proof.
  unfold _recover_package_name.
  change (recover_loop (flatten_names names) [] [] false)
    with (recover_loop (flatten_names names) [] (map (join ",") []) false).
  rewrite recover_loop_groups.
  pose proof (group_loop_heads (flatten_names names) [] false) as H.
  destruct (group_loop (flatten_names names) [] [] false) as [|g gs]; [constructor|].
  cbn [map tl] in *. induction H as [|g' gs' (t & r & -> & Hp) Hgs IH]; cbn [map].
  - constructor.
  - constructor; [apply is_package_name_group; exact Hp | exact IH].
Qed.

(** X5: a token that begins with a version operator never opens a
    requirement when a token precedes it: it is joined with [","] to
    the requirement that holds the token before it. *)
Theorem recover_clause_joins_predecessor
        (names pre : list string) (t c : string) (post : list string) :
  flatten_names names = pre ++ t :: c :: post ->
  _is_package_name c = false ->
  exists gs1 g1 g2 gs2,
    _recover_package_name names
    = map (join ",") gs1 ++ join "," (g1 ++ t :: c :: g2) :: map (join ",") gs2
    /\ concat gs1 ++ g1 = pre
    /\ g2 ++ concat gs2 = post.
Proof.
  intros Hflat Hc. unfold _recover_package_name. rewrite Hflat.
  change (recover_loop (pre ++ t :: c :: post) [] [] false)
    with (recover_loop (pre ++ t :: c :: post) [] (map (join ",") []) false).
  rewrite recover_loop_groups.
  destruct (group_loop_prefix pre (t :: c :: post) [] false) as (gsa & ga & ib & Ea & Ha).
  destruct (group_loop_step t (c :: post) ga ib) as (gsb & gb & ib' & Eb & Hb).
  destruct (group_loop_clause c post (gb ++ [t]) ib' Hc) as (ib2 & Ec).
  destruct (group_loop_shape post ((gb ++ [t]) ++ [c]) ib2) as (g2 & gs2 & Es & Hs & _ & _).
  rewrite Ea, Eb, Ec, Es.
  exists (gsa ++ gsb), gb, g2, gs2. split; [|split].
  - rewrite !map_app. cbn [map]. rewrite <- !app_assoc. reflexivity.
  - rewrite concat_app, <- app_assoc, Hb. exact Ha.
  - exact Hs.
Qed.

Lemma recover_clause_joins_predecessor_witness :
  exists gs1 g1 g2 gs2,
    _recover_package_name ["six"; "django>1.11.1"; "<1.11.3"; "flask"]
    = map (join ",") gs1 ++ join "," (g1 ++ "django>1.11.1" :: "<1.11.3" :: g2)
                         :: map (join ",") gs2
    /\ concat gs1 ++ g1 = ["six"]
    /\ g2 ++ concat gs2 = ["flask"].
Proof.
  apply (recover_clause_joins_predecessor
           ["six"; "django>1.11.1"; "<1.11.3"; "flask"] ["six"] "django>1.11.1" "<1.11.3" ["flask"]).
  - reflexivity.
  - reflexivity.
Defined.

(* ================================================================= *)
(** ** The [Package] class *)

Lemma str_in_prefix (sub s : string) : String.prefix sub s = true -> str_in sub s = true.
Proof. intros H. destruct s; cbn [str_in]; rewrite H; reflexivity. Qed.

Lemma str_in_app_r (sub a b : string) : str_in sub b = true -> str_in sub (a @@ b) = true.
Proof.
  intros H. induction a as [|c a IH]; [exact H|].
  change (String c a @@ b) with (String c (a @@ b)). cbn [str_in].
  rewrite IH. apply orb_true_r.
Qed.

(** X6: once a version is spliced into a requirement, as [main] does
    with the [version] parameter, the requirement has a version
    specifier, whatever the requirement and the version are. *)
Theorem spliced_version_is_a_specifier (pkg : Package) (version : string) :
  has_version_specifier (Package_init (Package_str pkg @@ "==" @@ version)) = true.
Proof.
  unfold has_version_specifier, Package_init, Package_str. cbn [_unparsed].
  apply existsb_exists. exists "==". split.
  - unfold op_dict_keys. cbn. tauto.
  - apply str_in_app_r. apply str_in_prefix. cbn. apply prefix_empty.
Qed.

(** *** [canonicalize_name] *)

Lemma lower_char_idempotent (c : ascii) : lower_char (lower_char c) = lower_char c.
Proof. destruct c as [[] [] [] [] [] [] [] []]; reflexivity. Qed.

Lemma is_separator_lower_char (c : ascii) : is_separator (lower_char c) = is_separator c.
Proof. destruct c as [[] [] [] [] [] [] [] []]; reflexivity. Qed.

Lemma lower_idempotent (s : string) : lower (lower s) = lower s.
Proof.
  induction s as [|c s IH]; [reflexivity|].
  cbn [lower]. now rewrite lower_char_idempotent, IH.
Qed.

Lemma sub_runs_lower (b : bool) (s : string) :
  sub_runs b (lower s) = lower (sub_runs b s).
Proof.
  revert b. induction s as [|c s IH]; intros b; [reflexivity|].
  cbn [lower sub_runs]. rewrite is_separator_lower_char.
  destruct (is_separator c).
  - destruct b; [apply IH|]. cbn [lower]. now rewrite IH.
  - cbn [lower]. now rewrite IH.
Qed.

Lemma sub_runs_idempotent (s : string) :
  (forall b, sub_runs false (sub_runs b s) = sub_runs b s)
  /\ sub_runs true (sub_runs true s) = sub_runs true s.
Proof.
  induction s as [|c s [IH1 IH2]]; [split; [intros b|]; reflexivity|].
  split.
  - intros b. cbn [sub_runs]. destruct (is_separator c) eqn:E.
    + destruct b; [apply IH1|].
      cbn [sub_runs]. change (is_separator "-") with true. cbn iota.
      now rewrite IH2.
    + cbn [sub_runs]. rewrite E. now rewrite IH1.
  - cbn [sub_runs]. destruct (is_separator c) eqn:E; [exact IH2|].
    cbn [sub_runs]. rewrite E. now rewrite IH1.
Qed.

(** X7: [canonicalize_name] is idempotent: a canonical name is its own
    canonical form. *)
Theorem canonicalize_name_idempotent (name : string) :
  canonicalize_name (canonicalize_name name) = canonicalize_name name.
Proof.
  unfold canonicalize_name.
  rewrite sub_runs_lower, lower_idempotent.
  now rewrite (proj1 (sub_runs_idempotent name) false).
Qed.

Lemma not_separator_dash (c : ascii) :
  is_separator c = false -> Ascii.eqb "-" c = false.
Proof.
  unfold is_separator. intros H.
  apply orb_false_elim in H. destruct H as [H _].
  apply orb_false_elim in H. destruct H as [H _].
  now rewrite Ascii.eqb_sym.
Qed.

Lemma sub_runs_true_head (s : string) : String.prefix "-" (sub_runs true s) = false.
Proof.
  induction s as [|c s IH]; [reflexivity|].
  cbn [sub_runs]. destruct (is_separator c) eqn:E; [exact IH|].
  now rewrite prefix_cons, (not_separator_dash c E).
Qed.

Lemma sub_runs_no_double_dash (b : bool) (s : string) :
  str_in "--" (sub_runs b s) = false.
Proof.
  revert b. induction s as [|c s IH]; intros b; [reflexivity|].
  cbn [sub_runs]. destruct (is_separator c) eqn:E.
  - destruct b; [apply IH|].
    cbn [str_in]. rewrite IH, orb_false_r, prefix_cons, sub_runs_true_head.
    apply andb_false_r.
  - cbn [str_in]. rewrite IH, orb_false_r, prefix_cons, (not_separator_dash c E).
    reflexivity.
Qed.

Lemma sub_runs_chars (b : bool) (s : string) (c : ascii) :
  In c (list_ascii_of_string (sub_runs b s)) -> c <> "_"%char /\ c <> "."%char.
Proof.
  revert b. induction s as [|d s IH]; intros b; [intros []|].
  cbn [sub_runs]. destruct (is_separator d) eqn:E.
  - destruct b; [apply IH|]. cbn [list_ascii_of_string In].
    intros [<- | H]; [split; discriminate | exact (IH _ H)].
  - cbn [list_ascii_of_string In]. intros [<- | H]; [|exact (IH _ H)].
    split; intros ->; discriminate E.
Qed.

Lemma lower_chars (s : string) (c : ascii) :
  In c (list_ascii_of_string (lower s)) ->
  exists d, In d (list_ascii_of_string s) /\ c = lower_char d.
Proof.
  induction s as [|d s IH]; [intros []|].
  cbn [lower list_ascii_of_string In]. intros [<- | H].
  - exists d. auto.
  - destruct (IH H) as (d' & Hd & ->). exists d'. auto.
Qed.

Lemma lower_char_separator (d : ascii) :
  lower_char d = "_"%char \/ lower_char d = "."%char -> d = "_"%char \/ d = "."%char.
Proof.
  destruct d as [[] [] [] [] [] [] [] []]; cbv; intros [H|H]; try discriminate H; auto.
Qed.

(** X8: a canonical name is in normal form: it holds no ["_"] and no
    ["."], no two ["-"] in a row, and no letter that has a lower-case
    form. *)
Theorem canonicalize_name_normal_form (name : string) :
  (forall c, In c (list_ascii_of_string (canonicalize_name name)) ->
             c <> "_"%char /\ c <> "."%char /\ lower_char c = c)
  /\ str_in "--" (canonicalize_name name) = false.
Proof.
  unfold canonicalize_name. split.
  - intros c H. apply lower_chars in H. destruct H as (d & Hd & ->).
    apply sub_runs_chars in Hd.
    repeat split.
    + intros E. destruct (lower_char_separator d (or_introl E)); tauto.
    + intros E. destruct (lower_char_separator d (or_intror E)); tauto.
    + apply lower_char_idempotent.
  - rewrite <- sub_runs_lower. apply sub_runs_no_double_dash.
Qed.

Lemma sub_runs_separator (b : bool) (a : string) (c1 c2 : ascii) (rest : string) :
  is_separator c1 = true -> is_separator c2 = true ->
  sub_runs b (a @@ String c1 rest) = sub_runs b (a @@ String c2 rest).
Proof.
  intros H1 H2. revert b. induction a as [|d a IH]; intros b.
  - cbn [String.append sub_runs]. now rewrite H1, H2.
  - change (String d a @@ String c1 rest) with (String d (a @@ String c1 rest)).
    change (String d a @@ String c2 rest) with (String d (a @@ String c2 rest)).
    cbn [sub_runs]. now rewrite !IH.
Qed.

(** X9: names that differ only in which of ["-"], ["_"] and ["."]
    stands at some place have the same canonical form. *)
Theorem canonicalize_name_separators
        (a : string) (c1 c2 : ascii) (rest : string) :
  is_separator c1 = true ->
  is_separator c2 = true ->
  canonicalize_name (a @@ String c1 rest) = canonicalize_name (a @@ String c2 rest).
Proof.
  intros H1 H2. unfold canonicalize_name.
  now rewrite (sub_runs_separator false a c1 c2 rest H1 H2).
Qed.

Lemma canonicalize_name_separators_witness :
  canonicalize_name ("zope" @@ String "." "interface")
  = canonicalize_name ("zope" @@ String "_" "interface").
Proof.
  apply (canonicalize_name_separators "zope" "." "_" "interface"); reflexivity.
Defined.

(** X29: on names of Latin-1 characters (code points below 256, the
    texts of this development, where the lower-case form of a text is
    that of its characters one by one), [canonicalize_name] ignores the
    case of the letters: a name and its lower-case form have the same
    canonical form. *)
Theorem canonicalize_name_latin1_ignores_case (name : string) :
  canonicalize_name (lower name) = canonicalize_name name.
Proof.
  unfold canonicalize_name. now rewrite sub_runs_lower, lower_idempotent.
Qed.

(* ================================================================= *)
(** ** How [main] ends *)

Section NeverReturns.

Context {A B : Type}.

Lemma never_bind (m : M A) (f : A -> M B) :
  (forall a, never_returns (f a)) -> never_returns (bind m f).
Proof.
  intros Hf w b w' H. unfold bind in H.
  destruct (m w) as [[a|kw|kw|e] w1]; try discriminate.
  exact (Hf a _ _ _ H).
Qed.

Lemma never_exit_json (kw : kwargs) : never_returns (@exit_json A kw).
Proof. intros w a w' H. discriminate. Qed.

Lemma never_fail_json (kw : kwargs) : never_returns (@fail_json A kw).
Proof. intros w a w' H. discriminate. Qed.

Lemma never_try_finally (body : M A) (fin : M unit) :
  never_returns body -> never_returns (try_finally body fin).
Proof.
  intros Hb w a w' H. unfold try_finally in H.
  destruct (body w) as [o w1] eqn:E.
  destruct (fin w1) as [[u|kw|kw|e] w2]; try discriminate.
  inversion H; subst. exact (Hb _ _ _ E).
Qed.

End NeverReturns.

Lemma never_main_check (h : Host) (p : Params) (L : Locals) :
  never_returns (main_check h p L).
Proof.
  unfold main_check. apply never_bind. intros _.
  apply never_bind. intros [[rc out] err].
  apply never_bind. intros _. apply never_exit_json.
Qed.

Lemma never_main_apply (h : Host) (p : Params) (L : Locals) :
  never_returns (main_apply h p L).
Proof.
  unfold main_apply. apply never_bind. intros before.
  apply never_bind. intros [[rc out] err].
  unfold main_report. apply never_bind. intros _.
  apply never_bind. intros changed. apply never_exit_json.
Qed.

(** X10: [main] never falls off its end: every run leaves through
    [exit_json] or [fail_json], or with an exception (from the check
    mode block and from the report at the latest). *)
Theorem main_always_reports (h : Host) (p : Params) :
  never_returns (main h p).
Proof.
  unfold main. apply never_bind. intros old. apply never_try_finally.
  unfold main_try. apply never_bind. intros L.
  destruct (p_check_mode p); [apply never_main_check | apply never_main_apply].
Qed.

(** The subprocesses of a run are those of its [try] block. *)
Lemma main_trace (h : Host) (p : Params) (w : World) :
  (w_trace (snd (main h p w)) = w_trace w
   /\ is_fatal (fst (main h p w)))
  \/ exists old w0,
       main_umask h p w = (Ret old, w0)
       /\ w_trace w0 = w_trace w
       /\ w_trace (snd (main h p w)) = w_trace (snd (main_try h p w0))
       /\ (fst (main h p w) = fst (main_try h p w0) \/ is_fatal (fst (main h p w))).
Proof.
  unfold main, bind.
  destruct (main_umask h p w) as [o w0] eqn:Hu.
  destruct (main_umask_cases _ _ _ _ _ Hu) as (Htr & Hne).
  destruct o as [old|kw|kw|e]; [|contradiction|left; split; [exact Htr | exact I]..].
  right. exists old, w0. split; [reflexivity|]. split; [exact Htr|].
  unfold try_finally. destruct (main_try h p w0) as [o1 w1].
  destruct (main_finally old w1) as [ofin w2] eqn:Hf.
  destruct (main_finally_cases _ _ _ _ Hf) as (Htr2 & [-> | (e & ->)]); cbn [fst snd].
  - split; [exact Htr2 | left; reflexivity].
  - split; [exact Htr2 | right; exact I].
Qed.

Lemma main_umask_accepted (h : Host) (p : Params) (w : World) :
  umask_accepted h p -> exists old w0, main_umask h p w = (Ret old, w0).
Proof.
  unfold umask_accepted, main_umask, bind, ret, os_umask.
  destruct (p_umask p) as [s|].
  - intros (Hs & m & Hm & Hlo & Hhi). rewrite Hs, Hm.
    replace ((- 2147483648 <=? m) && (m <=? 2147483647))%Z with true.
    + eexists _, _. reflexivity.
    + symmetry. apply andb_true_intro. split; apply Z.leb_le; assumption.
  - intros _. eexists _, _. reflexivity.
Qed.

(** X11: [state=latest] with a [version] is rejected before anything
    else is done: when the umask parameter is accepted, the module fails
    with the message of line 552 and no subprocess has run, not even to
    create the virtual environment. *)
Theorem latest_rejects_version (h : Host) (p : Params) (w : World) (v : string) :
  wf_world w ->
  umask_accepted h p ->
  p_state p = latest ->
  p_version p = Some v ->
  exists w',
    main h p w
    = (FailJson [("msg", VStr "version is incompatible with state=latest")], w')
    /\ w_trace w' = w_trace w.
Proof.
  intros Hwf Hacc Hs Hv.
  destruct (main_umask_accepted h p w Hacc) as (old & w0 & Hu).
  assert (Htry : main_try h p w0
                 = (FailJson [("msg", VStr "version is incompatible with state=latest")], w0)).
  { unfold main_try, main_prepare. rewrite Hs, Hv. reflexivity. }
  destruct (main_of_try h p w w0 w0 old _ Hwf Hu Htry) as (w2 & E & Htr & _).
  exists w2. split; [exact E|].
  rewrite Htr. exact (proj1 (main_umask_ret _ _ _ _ _ Hu)).
Qed.

Lemma latest_rejects_version_witness :
  exists w',
    main Scenario.quiet_host Scenario.latest_version_params Sample.world
    = (FailJson [("msg", VStr "version is incompatible with state=latest")], w')
    /\ w_trace w' = w_trace Sample.world.
Proof.
  apply (latest_rejects_version Scenario.quiet_host Scenario.latest_version_params
                                Sample.world "1.16.0").
  - unfold wf_world. simpl. lia.
  - exact I.
  - reflexivity.
  - reflexivity.
Defined.

(** X12: a [umask] that is no octal number is rejected before anything
    is done, with the text of the conversion error as [details]: neither
    the umask nor the environment is touched and no subprocess runs. *)
Theorem umask_rejected (h : Host) (p : Params) (w : World) (s e : string) :
  p_umask p = Some s ->
  nonempty s = true ->
  int_base8 h s = inr e ->
  main h p w = (FailJson [("msg", VStr "umask must be an octal integer");
                          ("details", VStr e)], w).
Proof.
  intros Hs Hne He. unfold main, main_umask, bind. rewrite Hs, Hne, He. reflexivity.
Qed.

Lemma umask_rejected_witness :
  main Scenario.quiet_host Scenario.bad_umask_params Sample.world
  = (FailJson [("msg", VStr "umask must be an octal integer");
               ("details", VStr "invalid literal for int() with base 8: '028'")],
     Sample.world).
Proof.
  apply (umask_rejected Scenario.quiet_host Scenario.bad_umask_params
                        Sample.world "028"); reflexivity.
Defined.

(** X13: an empty [umask] is not parsed (it is false) but it is not
    [None] either: [os.umask] is called with the text and raises
    [TypeError], before the [try] block, so nothing has been done. *)
Theorem empty_umask_raises (h : Host) (p : Params) (w : World) :
  p_umask p = Some EmptyString ->
  main h p w = (Raise "TypeError", w).
Proof.
  intros Hs. unfold main, main_umask, bind. rewrite Hs. reflexivity.
Qed.

Lemma empty_umask_raises_witness :
  main Scenario.quiet_host Scenario.empty_umask_params Sample.world
  = (Raise "TypeError", Sample.world).
Proof.
  apply (empty_umask_raises Scenario.quiet_host Scenario.empty_umask_params Sample.world).
  reflexivity.
Defined.

(* ================================================================= *)
(** ** Check mode *)

Lemma nothing_main_venv_check (h : Host) (p : Params) (env : option string)
      (chdir : string) :
  p_check_mode p = true -> runs_nothing (main_venv h p env chdir).
Proof.
  intros Hc w o w' H. unfold main_venv in H.
  destruct (truthy env).
  - destruct (negb (path_exists h _)).
    + unfold bind in H. rewrite (setup_virtualenv_check_mode _ _ _ _ _ _ _ Hc) in H.
      now inversion H.
    + now inversion H.
  - now inversion H.
Qed.

Lemma nothing_main_prepare_check (h : Host) (p : Params) (env : option string) :
  p_check_mode p = true -> runs_nothing (main_prepare h p env).
Proof.
  intros Hc. unfold main_prepare.
  apply nothing_bind; [repeat nothing_step|]. intros _. cbv zeta.
  apply nothing_bind; [apply nothing_main_venv_check; exact Hc|].
  intros [[[vc out] err] py_bin].
  repeat nothing_step.
Qed.

(** The check-mode block starts nothing, or the dry run alone. *)
Lemma main_check_trace (h : Host) (p : Params) (L : Locals) (w w' : World)
      (o : Outcome unit) :
  main_check h p L w = (o, w') ->
  w_trace w' = w_trace w \/ w_trace w' = w_trace w ++ [dry_run_call L w].
Proof.
  unfold main_check, bind, when, run_command, exit_json, ret.
  destruct (_ || _).
  - intros H. inversion H. left. reflexivity.
  - fold (dry_run_call L w).
    destruct (run h (w_trace w) (dry_run_call L w)) as [[[rc out] err]|].
    + destruct (negb (rc =? 0)%Z); intros H; inversion H; right; reflexivity.
    + intros H. inversion H. left. reflexivity.
Qed.

(** X14: in check mode the module starts at most one subprocess, and
    that one is a dry run: no environment is created, no package is
    installed or removed, no package list is taken. *)
Theorem check_mode_only_dry_runs (h : Host) (p : Params) (w : World) :
  p_check_mode p = true ->
  exists calls,
    w_trace (snd (main h p w)) = w_trace w ++ calls
    /\ (length calls <= 1)%nat
    /\ Forall is_dry_run calls.
Proof.
  intros Hc.
  destruct (main_trace h p w) as [[Htr _] | (old & w0 & Hu & Htr0 & Htr & _)].
  - exists []. rewrite app_nil_r. split; [exact Htr|]. split; [apply le_0_n | constructor].
  - rewrite Htr. unfold main_try, bind.
    destruct (main_prepare h p (main_env p) w0) as [o1 w1] eqn:Hp.
    pose proof (nothing_main_prepare_check h p (main_env p) Hc _ _ _ Hp) as Htr1.
    assert (Hnone : exists calls : list Call,
               w_trace w1 = w_trace w ++ calls
               /\ (length calls <= 1)%nat /\ Forall is_dry_run calls).
    { exists []. rewrite app_nil_r, Htr1, Htr0.
      split; [reflexivity|]. split; [apply le_0_n | constructor]. }
    destruct o1 as [L|kw|kw|e]; cbn [snd]; try exact Hnone.
    rewrite Hc. destruct (main_check h p L w1) as [o2 w2] eqn:Hk. cbn [snd].
    destruct (main_check_trace _ _ _ _ _ _ Hk) as [E | E]; rewrite E, Htr1, Htr0.
    + exists []. rewrite app_nil_r.
      split; [reflexivity|]. split; [apply le_0_n | constructor].
    + exists [dry_run_call L w1].
      split; [reflexivity|]. split; [apply le_n|].
      constructor; [|constructor]. exists (l_cmd L). reflexivity.
Qed.

Lemma check_mode_only_dry_runs_witness :
  exists calls,
    w_trace (snd (main Scenario.dry_run_host Scenario.check_params Sample.world))
    = w_trace Sample.world ++ calls
    /\ (length calls <= 1)%nat
    /\ Forall is_dry_run calls.
Proof.
  apply (check_mode_only_dry_runs Scenario.dry_run_host Scenario.check_params Sample.world).
  reflexivity.
Defined.

(** X15: in check mode, when the virtual environment does not exist
    yet, the module reports [changed=True] at once, without any
    subprocess: neither the names nor the version override are looked
    at, and the package manager is not searched. *)
Theorem check_mode_reports_missing_environment (h : Host) (p : Params) (w : World) :
  wf_world w ->
  umask_accepted h p ->
  p_check_mode p = true ->
  venv_needed h p = true ->
  (p_state p = latest -> p_version p = None) ->
  exists w',
    main h p w = (ExitJson [("changed", VBool true)], w')
    /\ w_trace w' = w_trace w.
Proof.
  intros Hwf Hacc Hc Hneed Hlatest.
  destruct (main_umask_accepted h p w Hacc) as (old & w0 & Hu).
  assert (Hprep : main_prepare h p (main_env p) w0
                  = (ExitJson [("changed", VBool true)], w0)).
  { unfold main_prepare.
    assert (Hl : State_eqb (p_state p) latest
                 && match p_version p with Some _ => true | None => false end = false).
    { destruct (p_state p); try reflexivity. rewrite (Hlatest eq_refl). reflexivity. }
    rewrite Hl. rewrite (bind_ret _ _ w0 w0 tt) by reflexivity. cbv zeta.
    unfold venv_needed in Hneed. apply andb_true_iff in Hneed. destruct Hneed as [He Hx].
    apply bind_exit. unfold main_venv. rewrite He, Hx. unfold bind.
    now rewrite (setup_virtualenv_check_mode _ _ _ _ _ _ _ Hc). }
  assert (Htry : main_try h p w0 = (ExitJson [("changed", VBool true)], w0)).
  { unfold main_try. now rewrite (bind_exit _ _ _ _ _ Hprep). }
  destruct (main_of_try h p w w0 w0 old _ Hwf Hu Htry) as (w2 & E & Htr & _).
  exists w2. split; [exact E|].
  rewrite Htr. exact (proj1 (main_umask_ret _ _ _ _ _ Hu)).
Qed.

Lemma check_mode_reports_missing_environment_witness :
  exists w',
    main Scenario.quiet_host Scenario.version_two_venv_check_params Sample.world
    = (ExitJson [("changed", VBool true)], w')
    /\ w_trace w' = w_trace Sample.world.
Proof.
  apply (check_mode_reports_missing_environment
           Scenario.quiet_host Scenario.version_two_venv_check_params Sample.world).
  - unfold wf_world. simpl. lia.
  - exact I.
  - reflexivity.
  - reflexivity.
  - discriminate.
Defined.

(* ================================================================= *)
(** ** The package manager and the options of a command *)

Lemma find_candidate_state (h : Host) (l : list (list string)) (w w' : World)
      (o : Outcome (option (list string))) :
  find_candidate h l w = (o, w') -> w' = w.
Proof.
  induction l as [|argv l IH]; cbn [find_candidate].
  - intros H. now inversion H.
  - destruct argv as [|b rest]; [intros H; now inversion H|].
    unfold bind, module_get_bin_path.
    destruct (get_bin_path h (w_trace w) b); [intros H; now inversion H | exact IH].
Qed.

Lemma _get_pip_state (h : Host) (e : option string) (w w' : World)
      (o : Outcome (list string)) :
  _get_pip h e w = (o, w') -> w' = w.
Proof.
  unfold _get_pip. intros H. apply bind_inv in H.
  destruct H as [([pip cands] & w1 & Hc & H) | [(kw & Hc & _) | [(kw & Hc & _) | (x & Hc & _)]]].
  - assert (w1 = w) as ->.
    { destruct e as [e|]; [|now inversion Hc].
      destruct (shlex_split h e) as [[|a r]|]; try now inversion Hc.
      destruct (PosixPath.isabs a); now inversion Hc. }
    destruct pip as [pip|]; [now inversion H|].
    apply bind_inv in H.
    destruct H as [(f & w2 & Hf & H) | [(kw & Hf & _) | [(kw & Hf & _) | (x & Hf & _)]]];
      try exact (find_candidate_state _ _ _ _ _ Hf).
    apply find_candidate_state in Hf. subst w2.
    destruct f; now inversion H.
  - destruct e as [e|]; [|now inversion Hc].
    destruct (shlex_split h e) as [[|a r]|]; try now inversion Hc.
    destruct (PosixPath.isabs a); now inversion Hc.
  - destruct e as [e|]; [|now inversion Hc].
    destruct (shlex_split h e) as [[|a r]|]; try now inversion Hc.
    destruct (PosixPath.isabs a); now inversion Hc.
  - destruct e as [e|]; [|now inversion Hc].
    destruct (shlex_split h e) as [[|a r]|]; try now inversion Hc.
    destruct (PosixPath.isabs a); now inversion Hc.
Qed.

(** X16: [_get_pip] changes nothing and starts nothing.  What it
    returns is the words of [executable] (of [uv pip] without one), with
    the first word kept when [executable] gives an absolute path and
    replaced by the path found for it otherwise; the other words are
    kept as they are. *)
Theorem get_pip_result (h : Host) (e : option string) (w w' : World) (pip : list string) :
  _get_pip h e w = (Ret pip, w') ->
  w' = w
  /\ exists argv0 rest,
       match e with
       | Some text => shlex_split h text
       | None => Some ["uv"; "pip"]
       end = Some (argv0 :: rest)
       /\ ((e <> None /\ PosixPath.isabs argv0 = true /\ pip = argv0 :: rest)
           \/ ((e = None \/ PosixPath.isabs argv0 = false)
               /\ exists path,
                    get_bin_path h (w_trace w) argv0 = Some path
                    /\ pip = path :: rest)).
Proof.
  intros H. split; [exact (_get_pip_state _ _ _ _ _ H)|].
  unfold _get_pip in H. destruct e as [text|].
  - destruct (shlex_split h text) as [[|a r]|]; try discriminate.
    exists a, r. split; [reflexivity|].
    destruct (PosixPath.isabs a) eqn:Ea.
    + left. cbn in H. inversion H. repeat split. discriminate.
    + right. split; [right; reflexivity|].
      cbn in H. unfold bind, module_get_bin_path in H. cbn in H.
      destruct (get_bin_path h (w_trace w) a) as [path|]; [|discriminate].
      exists path. inversion H. auto.
  - exists "uv", ["pip"]. split; [reflexivity|]. right. split; [left; reflexivity|].
    cbn in H. unfold bind, module_get_bin_path in H. cbn in H.
    destruct (get_bin_path h (w_trace w) "uv") as [path|]; [|discriminate].
    exists path. inversion H. auto.
Qed.

Lemma get_pip_result_witness :
  Sample.world = Sample.world
  /\ exists argv0 rest,
       shlex_split Scenario.quiet_host "uv pip" = Some (argv0 :: rest)
       /\ ((Some "uv pip" <> None /\ PosixPath.isabs argv0 = true
            /\ ["/usr/bin/uv"; "pip"] = argv0 :: rest)
           \/ ((Some "uv pip" = None \/ PosixPath.isabs argv0 = false)
               /\ exists path,
                    get_bin_path Scenario.quiet_host (w_trace Sample.world) argv0 = Some path
                    /\ ["/usr/bin/uv"; "pip"] = path :: rest)).
Proof.
  apply (get_pip_result Scenario.quiet_host (Some "uv pip") Sample.world Sample.world
                        ["/usr/bin/uv"; "pip"]).
  reflexivity.
Defined.

(** X17: when the first word of [executable] (or [uv], without one) is
    to be searched and is not found, [_get_pip] fails, and its message
    names that word alone: a given [executable] is the only candidate,
    [uv] is not tried after it. *)
Theorem get_pip_not_found (h : Host) (e : option string) (w : World)
        (argv0 : string) (rest : list string) :
  match e with
  | Some text => shlex_split h text
  | None => Some ["uv"; "pip"]
  end = Some (argv0 :: rest) ->
  e = None \/ PosixPath.isabs argv0 = false ->
  get_bin_path h (w_trace w) argv0 = None ->
  _get_pip h e w
  = (FailJson [("msg", VStr ("Unable to find any of " @@ argv0
                             @@ " to use. uv needs to be installed."))], w).
Proof.
  intros Hargv Hsearch Hnone. unfold _get_pip. destruct e as [text|].
  - rewrite Hargv. destruct Hsearch as [|Habs]; [discriminate|]. rewrite Habs.
    cbn. unfold bind, module_get_bin_path. cbn. rewrite Hnone. reflexivity.
  - inversion Hargv; subst.
    cbn. unfold bind, module_get_bin_path. cbn. rewrite Hnone. reflexivity.
Qed.

Lemma get_pip_not_found_witness :
  _get_pip Scenario.bare_host (Some "pipx run uv") Sample.world
  = (FailJson [("msg", VStr ("Unable to find any of " @@ "pipx"
                             @@ " to use. uv needs to be installed."))], Sample.world).
Proof.
  apply (get_pip_not_found Scenario.bare_host (Some "pipx run uv") Sample.world
                           "pipx" ["run"; "uv"]).
  - reflexivity.
  - right. reflexivity.
  - reflexivity.
Defined.

(** What [_get_cmd_options] returns, and what it has run by then. *)
Lemma _get_cmd_options_ret (h : Host) (cmd : string) (w w' : World) (opts : list string) :
  _get_cmd_options h cmd w = (Ret opts, w') ->
  w' = add_call w (help_call cmd w)
  /\ exists out err,
       run h (w_trace w) (help_call cmd w) = Some (0%Z, out, err)
       /\ opts = filter (fun x => String.prefix "--" x) (words out).
Proof.
  unfold _get_cmd_options, bind, run_command. fold (help_call cmd w).
  destruct (run h (w_trace w) (help_call cmd w)) as [[[rc out] err]|]; [|discriminate].
  unfold when. destruct (rc =? 0)%Z eqn:E; cbn [negb]; [|discriminate].
  intros H. inversion H; subst. split; [reflexivity|].
  apply Z.eqb_eq in E. subst rc. exists out, err. auto.
Qed.

(** X18: [_get_cmd_options] returns only when [cmd --help] has exited
    with code 0, and that is the one subprocess it has run; the options
    returned are the words of its stdout that begin with ["--"], and
    they are all of them. *)
Theorem get_cmd_options_result (h : Host) (cmd : string) (w w' : World)
        (opts : list string) :
  _get_cmd_options h cmd w = (Ret opts, w') ->
  w' = add_call w (help_call cmd w)
  /\ exists out err,
       run h (w_trace w) (help_call cmd w) = Some (0%Z, out, err)
       /\ forall o, In o opts <-> In o (words out) /\ String.prefix "--" o = true.
Proof.
  intros H. apply _get_cmd_options_ret in H.
  destruct H as (Hw & out & err & Hr & ->).
  split; [exact Hw|]. exists out, err. split; [exact Hr|].
  intros o. apply filter_In.
Qed.

Lemma get_cmd_options_result_witness :
  add_call Sample.world (help_call "/usr/bin/virtualenv" Sample.world)
  = add_call Sample.world (help_call "/usr/bin/virtualenv" Sample.world)
  /\ exists out err,
       run Scenario.help_host (w_trace Sample.world)
           (help_call "/usr/bin/virtualenv" Sample.world) = Some (0%Z, out, err)
       /\ forall o, In o ["--no-site-packages"; "--system-site-packages"]
                    <-> In o (words out) /\ String.prefix "--" o = true.
Proof.
  apply (get_cmd_options_result Scenario.help_host "/usr/bin/virtualenv" Sample.world).
  reflexivity.
Defined.

(* ================================================================= *)
(** ** The creation of the virtual environment *)

Lemma when_exit_inv_ret (c : bool) (kw : kwargs) (w w' : World) (u : unit) :
  when c (exit_json kw) w = (Ret u, w') -> c = false /\ w' = w.
Proof.
  destruct c; cbn; [discriminate|]. intros H. inversion H. auto.
Qed.

Lemma lift_inv_ret {A} (o : Outcome A) (w w' : World) (a : A) :
  lift o w = (Ret a, w') -> o = Ret a /\ w' = w.
Proof. unfold lift. intros H. inversion H. auto. Qed.

Lemma run_command_inv_ret (h : Host) cmd cwd pp eu (w w' : World)
      (result : Z * string * string) :
  run_command h cmd cwd pp eu w = (Ret result, w') ->
  run h (w_trace w) (call_of cmd cwd pp eu w) = Some result
  /\ w' = add_call w (call_of cmd cwd pp eu w).
Proof.
  unfold run_command.
  destruct (run h (w_trace w) (call_of cmd cwd pp eu w)); [|discriminate].
  intros H. inversion H. auto.
Qed.

(** X19: when [setup_virtualenv] returns, it has run the creation
    command with exit code 0, after the [--help] probe of the tool and
    nothing else (after nothing, with [virtualenv_site_packages]).  The
    command is the words of [virtualenv_command], the first one resolved
    on the search path when it is a bare name, then
    [--system-site-packages] if asked for, or [--no-site-packages] if
    the probe lists it, then [--python-preference only-system], then
    [-p] with the interpreter unless the command is venv-style (and then
    no interpreter was asked for), and last the path of the environment;
    it runs in [chdir], and its output is appended to [out] and
    [err]. *)
Theorem setup_virtualenv_result
        (h : Host) (p : Params) (env chdir out err : string) (w w' : World)
        (out' err' : string) :
  setup_virtualenv h p env chdir out err w = (Ret (out', err'), w') ->
  p_check_mode p = false
  /\ exists cmd0 rest tool probe site is_venv interp out_venv err_venv,
       shlex_split h (p_virtualenv_command p) = Some (cmd0 :: rest)
       /\ provisioning_tool h p w = Some tool
       /\ (if p_virtualenv_site_packages p
           then probe = [] /\ site = ["--system-site-packages"]
           else exists help_out help_err,
                  probe = [help_call tool w]
                  /\ run h (w_trace w) (help_call tool w) = Some (0%Z, help_out, help_err)
                  /\ ((site = ["--no-site-packages"]
                       /\ In "--no-site-packages" (words help_out))
                      \/ (site = [] /\ ~ In "--no-site-packages" (words help_out))))
       /\ _is_venv_command h (p_virtualenv_command p) = Ret is_venv
       /\ (if is_venv
           then interp = [] /\ truthy (p_virtualenv_python p) = false
           else interp = ["-p" @@ (if truthy (p_virtualenv_python p)
                                   then str_of (p_virtualenv_python p)
                                   else sys_executable h)])
       /\ let call :=
            venv_call ((tool :: rest) ++ site ++ ["--python-preference"; "only-system"]
                                      ++ interp)
                      env chdir w in
          w_trace w' = w_trace w ++ probe ++ [call]
          /\ run h (w_trace w ++ probe) call = Some (0%Z, out_venv, err_venv)
          /\ out' = out @@ out_venv
          /\ err' = err @@ err_venv.
Proof.
  unfold setup_virtualenv. intros H.
  apply bind_inv_ret in H. destruct H as ([] & wa & Hw & H).
  apply when_exit_inv_ret in Hw. destruct Hw as [Hcheck ->].
  split; [exact Hcheck|].
  apply bind_inv_ret in H. destruct H as (cmd1 & wb & Hcmd1 & H).
  destruct (shlex_split h (p_virtualenv_command p)) as [[|cmd0 rest]|] eqn:Hsplit;
    try discriminate.
  assert (Htool : exists tool,
             provisioning_tool h p w = Some tool /\ cmd1 = tool :: rest /\ wb = w).
  { unfold provisioning_tool. rewrite Hsplit.
    destruct (String.eqb (PosixPath.basename cmd0) cmd0).
    - unfold bind, module_get_bin_path_required in Hcmd1.
      destruct (get_bin_path h (w_trace w) cmd0) as [path|]; [|discriminate].
      inversion Hcmd1; subst. exists path. auto.
    - inversion Hcmd1; subst. exists cmd0. auto. }
  destruct Htool as (tool & Htool & -> & ->).
  apply bind_inv_ret in H. destruct H as (cmd2 & wc & Hcmd2 & H).
  assert (Hsite : exists probe site,
             (if p_virtualenv_site_packages p
              then probe = [] /\ site = ["--system-site-packages"]
              else exists help_out help_err,
                     probe = [help_call tool w]
                     /\ run h (w_trace w) (help_call tool w) = Some (0%Z, help_out, help_err)
                     /\ ((site = ["--no-site-packages"]
                          /\ In "--no-site-packages" (words help_out))
                         \/ (site = [] /\ ~ In "--no-site-packages" (words help_out))))
             /\ cmd2 = (tool :: rest) ++ site
             /\ w_trace wc = w_trace w ++ probe
             /\ w_umask wc = w_umask w /\ w_environ wc = w_environ w).
  { destruct (p_virtualenv_site_packages p).
    - inversion Hcmd2; subst. exists [], ["--system-site-packages"].
      rewrite app_nil_r. auto.
    - apply bind_inv_ret in Hcmd2. destruct Hcmd2 as (opts & wx & Hopts & Hcmd2).
      cbn [hd] in Hopts. apply _get_cmd_options_ret in Hopts.
      destruct Hopts as (-> & help_out & help_err & Hhelp & ->).
      destruct (existsb (String.eqb "--no-site-packages")
                        (filter (fun x => String.prefix "--" x) (words help_out))) eqn:Ex;
        inversion Hcmd2; subst.
      + exists [help_call tool w], ["--no-site-packages"].
        split; [|cbn; auto]. exists help_out, help_err.
        split; [reflexivity|]. split; [exact Hhelp|]. left. split; [reflexivity|].
        apply existsb_exists in Ex. destruct Ex as (x & Hx & Ex).
        apply String.eqb_eq in Ex. subst x. apply filter_In in Hx. tauto.
      + exists [help_call tool w], []. rewrite app_nil_r.
        split; [|cbn; auto]. exists help_out, help_err.
        split; [reflexivity|]. split; [exact Hhelp|]. right. split; [reflexivity|].
        intros Hin.
        assert (Ht : existsb (String.eqb "--no-site-packages")
                             (filter (fun x => String.prefix "--" x) (words help_out)) = true).
        { apply existsb_exists. exists "--no-site-packages".
          split; [|apply String.eqb_refl].
          apply filter_In. split; [exact Hin | reflexivity]. }
        congruence. }
  destruct Hsite as (probe & site & Hsite & -> & Htr & Hum & Hen).
  apply bind_inv_ret in H. destruct H as (is_venv & wd & Hv & H).
  apply lift_inv_ret in Hv. destruct Hv as [Hv ->].
  apply bind_inv_ret in H. destruct H as (cmd3 & we & Hcmd3 & H).
  assert (Hinterp : exists interp,
             (if is_venv
              then interp = [] /\ truthy (p_virtualenv_python p) = false
              else interp = ["-p" @@ (if truthy (p_virtualenv_python p)
                                      then str_of (p_virtualenv_python p)
                                      else sys_executable h)])
             /\ cmd3 = ((tool :: rest) ++ site) ++ ["--python-preference"; "only-system"]
                                                ++ interp
             /\ we = wc).
  { destruct is_venv; cbn [negb] in Hcmd3.
    - destruct (truthy (p_virtualenv_python p)); [discriminate|].
      inversion Hcmd3; subst. exists []. rewrite !app_nil_r. auto.
    - unfold truthy. destruct (p_virtualenv_python p) as [v|].
      + destruct (nonempty v); inversion Hcmd3; subst;
          eexists; (split; [reflexivity|]); rewrite <- app_assoc; auto.
      + inversion Hcmd3; subst.
        eexists; (split; [reflexivity|]); rewrite <- app_assoc; auto. }
  destruct Hinterp as (interp & Hinterp & -> & ->).
  apply bind_inv_ret in H. destruct H as ([[rc out_venv] err_venv] & wf & Hrun & H).
  apply run_command_inv_ret in Hrun. destruct Hrun as [Hrun ->].
  apply bind_inv_ret in H. destruct H as ([] & wg & Hrc & H).
  unfold _fail in Hrc. apply when_fail_inv_ret in Hrc. destruct Hrc as [Hrc ->].
  apply negb_false_iff, Z.eqb_eq in Hrc. subst rc.
  inversion H; subst. clear H.
  exists cmd0, rest, tool, probe, site, is_venv, interp, out_venv, err_venv.
  split; [reflexivity|]. split; [exact Htool|]. split; [exact Hsite|].
  split; [exact Hv|]. split; [exact Hinterp|].
  assert (Hcall : call_of (CmdArgv ((((tool :: rest) ++ site)
                                       ++ ["--python-preference"; "only-system"] ++ interp)
                                      ++ [env])) (Some chdir) None [] wc
                  = venv_call ((tool :: rest) ++ site
                                 ++ ["--python-preference"; "only-system"] ++ interp)
                              env chdir w).
  { unfold venv_call, call_of. rewrite Hum, Hen, <- !app_assoc. reflexivity. }
  cbv zeta. rewrite <- Hcall. split; [|split; [|split; reflexivity]].
  - unfold add_call. cbn [w_trace]. rewrite Htr, <- app_assoc. reflexivity.
  - rewrite <- Htr. exact Hrun.
Qed.

Lemma setup_virtualenv_result_witness :
  p_check_mode Scenario.present_venv_params = false
  /\ exists cmd0 rest tool probe site is_venv interp out_venv err_venv,
       shlex_split Scenario.help_host (p_virtualenv_command Scenario.present_venv_params)
       = Some (cmd0 :: rest)
       /\ provisioning_tool Scenario.help_host Scenario.present_venv_params Sample.world
          = Some tool
       /\ (if p_virtualenv_site_packages Scenario.present_venv_params
           then probe = [] /\ site = ["--system-site-packages"]
           else exists help_out help_err,
                  probe = [help_call tool Sample.world]
                  /\ run Scenario.help_host (w_trace Sample.world)
                         (help_call tool Sample.world) = Some (0%Z, help_out, help_err)
                  /\ ((site = ["--no-site-packages"]
                       /\ In "--no-site-packages" (words help_out))
                      \/ (site = [] /\ ~ In "--no-site-packages" (words help_out))))
       /\ _is_venv_command Scenario.help_host
                           (p_virtualenv_command Scenario.present_venv_params)
          = Ret is_venv
       /\ (if is_venv
           then interp = [] /\ truthy (p_virtualenv_python Scenario.present_venv_params) = false
           else interp = ["-p" @@ (if truthy (p_virtualenv_python Scenario.present_venv_params)
                                   then str_of (p_virtualenv_python Scenario.present_venv_params)
                                   else sys_executable Scenario.help_host)])
       /\ let call :=
            venv_call ((tool :: rest) ++ site ++ ["--python-preference"; "only-system"]
                                      ++ interp)
                      "/venv" "/tmp" Sample.world in
          w_trace (snd (setup_virtualenv Scenario.help_host Scenario.present_venv_params
                                         "/venv" "/tmp" EmptyString EmptyString Sample.world))
          = w_trace Sample.world ++ probe ++ [call]
          /\ run Scenario.help_host (w_trace Sample.world ++ probe) call
             = Some (0%Z, out_venv, err_venv)
          /\ "created" = EmptyString @@ out_venv
          /\ EmptyString = EmptyString @@ err_venv.
Proof.
  apply (setup_virtualenv_result Scenario.help_host Scenario.present_venv_params
                                 "/venv" "/tmp" EmptyString EmptyString Sample.world).
  reflexivity.
Defined.

(* ================================================================= *)
(** ** The environment of the subprocesses *)

Section InheritsEnviron.

Context {A B : Type}.

Lemma environ_lift (o : Outcome A) : inherits_environ (lift o).
Proof.
  intros w o' w' H. inversion H; subst. split; [reflexivity|].
  exists []. rewrite app_nil_r. split; [reflexivity | constructor].
Qed.

Lemma environ_bind (m : M A) (f : A -> M B) :
  inherits_environ m -> (forall a, inherits_environ (f a)) -> inherits_environ (bind m f).
Proof.
  intros Hm Hf w o w' H. unfold bind in H.
  destruct (m w) as [o1 w1] eqn:E.
  destruct (Hm _ _ _ E) as (Hu & calls & Ht & Hc).
  destruct o1 as [a|kw|kw|e];
    try (inversion H; subst; split; [exact Hu | exists calls; split; assumption]).
  destruct (Hf a _ _ _ H) as (Hu2 & calls2 & Ht2 & Hc2).
  split; [congruence|].
  exists (calls ++ calls2). split.
  - rewrite Ht2, Ht. now rewrite app_assoc.
  - apply Forall_app. split; [exact Hc|].
    rewrite Hu in Hc2. exact Hc2.
Qed.

End InheritsEnviron.

Lemma environ_ret {A} (a : A) : inherits_environ (ret a).
Proof. apply (environ_lift (Ret a)). Qed.

Lemma environ_exit_json {A} (kw : kwargs) : inherits_environ (@exit_json A kw).
Proof. apply (environ_lift (ExitJson kw)). Qed.

Lemma environ_fail_json {A} (kw : kwargs) : inherits_environ (@fail_json A kw).
Proof. apply (environ_lift (FailJson kw)). Qed.

Lemma environ_raise {A} (e : string) : inherits_environ (@raise A e).
Proof. apply (environ_lift (Raise e)). Qed.

Lemma environ_when (c : bool) (m : M unit) :
  inherits_environ m -> inherits_environ (when c m).
Proof. intros H. destruct c; [exact H | apply environ_ret]. Qed.

Lemma environ_run_command (h : Host) cmd cwd pp eu :
  inherits_environ (run_command h cmd cwd pp eu).
Proof.
  intros w o w' H. unfold run_command in H.
  destruct (run h (w_trace w) (call_of cmd cwd pp eu w)); inversion H; subst.
  - split; [reflexivity|]. eexists. split; [reflexivity|].
    constructor; [reflexivity | constructor].
  - split; [reflexivity|]. exists []. rewrite app_nil_r.
    split; [reflexivity | constructor].
Qed.

Lemma environ_module_get_bin_path (h : Host) (arg : string) :
  inherits_environ (module_get_bin_path h arg).
Proof.
  intros w o w' H. inversion H; subst. split; [reflexivity|].
  exists []. rewrite app_nil_r. split; [reflexivity | constructor].
Qed.

Lemma environ_module_get_bin_path_required (h : Host) (arg : string) :
  inherits_environ (module_get_bin_path_required h arg).
Proof.
  intros w o w' H. unfold module_get_bin_path_required in H.
  destruct (get_bin_path h (w_trace w) arg); inversion H; subst;
    (split; [reflexivity|]; exists []; rewrite app_nil_r;
     split; [reflexivity | constructor]).
Qed.

Lemma environ__fail {A} (cmd : list string) (out err : string) :
  inherits_environ (@_fail A cmd out err).
Proof. apply environ_fail_json. Qed.

Create HintDb environ.
#[local] Hint Resolve environ_ret environ_lift environ_exit_json environ_fail_json
  environ_raise environ_when environ_run_command
  environ_module_get_bin_path environ_module_get_bin_path_required environ__fail
  : environ.

Ltac environ_step :=
  match goal with
  | |- inherits_environ (bind _ _) => apply environ_bind; [|intros]
  | |- inherits_environ (when _ _) => apply environ_when
  | |- inherits_environ (match ?x with _ => _ end) => destruct x
  | |- inherits_environ (if ?b then _ else _) => destruct b
  | |- inherits_environ (let _ := _ in _) => cbv zeta
  | |- inherits_environ _ => solve [auto with environ]
  end.

Lemma environ__get_pip (h : Host) (e : option string) : inherits_environ (_get_pip h e).
Proof.
  intros w o w' H. apply _get_pip_state in H. subst w'. split; [reflexivity|].
  exists []. rewrite app_nil_r. split; [reflexivity | constructor].
Qed.

Lemma environ__get_cmd_options (h : Host) (cmd : string) :
  inherits_environ (_get_cmd_options h cmd).
Proof. unfold _get_cmd_options. repeat environ_step. Qed.

Lemma environ_get_best_parsable_locale (h : Host) :
  inherits_environ (get_best_parsable_locale h).
Proof. unfold get_best_parsable_locale. repeat environ_step. Qed.
#[local] Hint Resolve environ_get_best_parsable_locale : environ.

Lemma environ__get_packages (h : Host) (pip : list string) (chdir : string) :
  inherits_environ (_get_packages h pip chdir).
Proof. unfold _get_packages. repeat environ_step. Qed.
#[local] Hint Resolve environ__get_pip environ__get_cmd_options environ__get_packages
  : environ.

Lemma environ_setup_virtualenv (h : Host) (p : Params) (env chdir out err : string) :
  inherits_environ (setup_virtualenv h p env chdir out err).
Proof. unfold setup_virtualenv. repeat environ_step. Qed.
#[local] Hint Resolve environ_setup_virtualenv : environ.

Lemma environ_main_venv (h : Host) (p : Params) (env : option string) (chdir : string) :
  inherits_environ (main_venv h p env chdir).
Proof. unfold main_venv. repeat environ_step. Qed.

Lemma environ_main_check (h : Host) (p : Params) (L : Locals) :
  inherits_environ (main_check h p L).
Proof. unfold main_check. repeat environ_step. Qed.

Lemma environ_main_apply (h : Host) (p : Params) (L : Locals) :
  inherits_environ (main_apply h p L).
Proof. unfold main_apply, main_before, main_report. repeat environ_step. Qed.

(** What the preparation leaves behind: the local variables and the
    environment. *)
Lemma main_prepare_layout (h : Host) (p : Params) (w0 w1 : World) (L : Locals) :
  main_prepare h p (main_env p) w0 = (Ret L, w1) ->
  l_chdir L = chdir_of h p
  /\ l_path_prefix L = path_prefix_of p
  /\ (exists extra,
        (if truthy (main_extra_args p)
         then shlex_split h (str_of (main_extra_args p)) = Some extra
         else extra = [])
        /\ l_cmd L = l_pip L ++ state_map (p_state p) ++ ["--python"; py_bin_of h p]
                           ++ extra ++ requirement_args p)
  /\ w_environ w1
     = w_environ w0 ++ (if p_break_system_packages p
                        then [("PIP_BREAK_SYSTEM_PACKAGES", "1")] else []).
Proof.
  unfold main_prepare. intros H.
  apply bind_inv_ret in H. destruct H as ([] & wa & Hw & H).
  apply when_fail_inv_ret in Hw. destruct Hw as [_ ->].
  apply bind_inv_ret in H. destruct H as ([[[vc out] err] py_bin] & wb & Hv & H).
  assert (Hpy : py_bin = py_bin_of h p).
  { unfold main_venv, py_bin_of in *. destruct (truthy (main_env p)).
    - destruct (negb (path_exists h _)).
      + apply bind_inv_ret in Hv. destruct Hv as ([o e] & wx & _ & Hv). now inversion Hv.
      + now inversion Hv.
    - now inversion Hv. }
  apply environ_main_venv in Hv. destruct Hv as [Hen1 _].
  apply bind_inv_ret in H. destruct H as (pip & wc & Hpip & H).
  apply _get_pip_state in Hpip. subst wc.
  apply bind_inv_ret in H. destruct H as ([has_vcs packages] & wd & Hpk & H).
  apply main_packages_ret in Hpk. destruct Hpk as (-> & _ & Hpkgs).
  apply bind_inv_ret in H. destruct H as (cmd1 & we & Hcmd1 & H).
  apply bind_inv_ret in H. destruct H as ([] & wf & Henv & H).
  apply bind_inv_ret in H. destruct H as (cmd2 & wg & Hcmd2 & H).
  inversion H; subst L w1. clear H. cbn [l_chdir l_path_prefix l_cmd l_pip].
  assert (Hextra : exists extra,
             (if truthy (main_extra_args p)
              then shlex_split h (str_of (main_extra_args p)) = Some extra
              else extra = [])
             /\ cmd1 = ((pip ++ state_map (p_state p)) ++ ["--python"; py_bin]) ++ extra
             /\ we = wb).
  { destruct (truthy (main_extra_args p)).
    - destruct (shlex_split h (str_of (main_extra_args p))) as [args|]; [|discriminate].
      inversion Hcmd1; subst. exists args. auto.
    - inversion Hcmd1; subst. exists []. rewrite app_nil_r. auto. }
  destruct Hextra as (extra & Hextra & -> & ->).
  assert (Hreq : cmd2 = (((pip ++ state_map (p_state p)) ++ ["--python"; py_bin]) ++ extra)
                          ++ requirement_args p
                 /\ wg = wf).
  { unfold requirement_args. destruct (truthy_list (p_name p)) eqn:Hn.
    - inversion Hcmd2; subst. split; [|reflexivity]. f_equal.
      specialize (Hpkgs eq_refl). destruct (p_version p) as [v|].
      + destruct Hpkgs as (text & Hr & _ & Hm). rewrite Hm, Hr. reflexivity.
      + rewrite Hpkgs, map_map. apply map_id.
    - destruct (truthy (p_requirements p)); [|discriminate].
      inversion Hcmd2; subst. auto. }
  destruct Hreq as [-> ->].
  split; [reflexivity|]. split; [reflexivity|]. split.
  - exists extra. split; [exact Hextra|]. subst py_bin.
    rewrite <- !app_assoc. reflexivity.
  - unfold when in Henv. destruct (p_break_system_packages p).
    + unfold os_environ_set in Henv. inversion Henv; subst. cbn [w_environ].
      now rewrite Hen1.
    + inversion Henv; subst. now rewrite app_nil_r.
Qed.

(** X20: [break_system_packages] reaches the package manager through
    the environment: in a run that gets as far as the command, the
    environment then is the one the module started with, followed by
    [PIP_BREAK_SYSTEM_PACKAGES=1] exactly when the option is set, and
    every subprocess from there on (the command or its dry run, and the
    package lists) inherits it. *)
Theorem break_system_packages_environment
        (h : Host) (p : Params) (w w1 w2 : World) (L : Locals) (o : Outcome unit) :
  reaches_command h p w L w1 ->
  (if p_check_mode p then main_check h p L else main_apply h p L) w1 = (o, w2) ->
  w_environ w1
  = w_environ w ++ (if p_break_system_packages p
                    then [("PIP_BREAK_SYSTEM_PACKAGES", "1")] else [])
  /\ exists calls,
       w_trace w2 = w_trace w1 ++ calls
       /\ Forall (fun c => call_environ c = w_environ w1) calls.
Proof.
  intros (old & w0 & Hu & Hp) Hb. split.
  - destruct (main_prepare_layout _ _ _ _ _ Hp) as (_ & _ & _ & He).
    rewrite He. now rewrite (proj1 (proj2 (main_umask_ret _ _ _ _ _ Hu))).
  - destruct (p_check_mode p).
    + exact (proj2 (environ_main_check h p L _ _ _ Hb)).
    + exact (proj2 (environ_main_apply h p L _ _ _ Hb)).
Qed.

Lemma break_system_packages_environment_witness :
  w_environ Scenario.break_world
  = w_environ Sample.world ++ [("PIP_BREAK_SYSTEM_PACKAGES", "1")]
  /\ exists calls,
       w_trace (snd (main_apply Scenario.quiet_host Scenario.break_params
                                Scenario.break_locals Scenario.break_world))
       = w_trace Scenario.break_world ++ calls
       /\ Forall (fun c => call_environ c = w_environ Scenario.break_world) calls.
Proof.
  apply (break_system_packages_environment
           Scenario.quiet_host Scenario.break_params Sample.world Scenario.break_world
           (snd (main_apply Scenario.quiet_host Scenario.break_params
                            Scenario.break_locals Scenario.break_world))
           Scenario.break_locals
           (fst (main_apply Scenario.quiet_host Scenario.break_params
                            Scenario.break_locals Scenario.break_world))).
  - exists None, Sample.world. split; reflexivity.
  - reflexivity.
Defined.

(** X21: the layout of the command in a run that gets as far as it: the
    package manager's words, the words of the state ([install],
    [uninstall], [install -U], ...), [--python] with the interpreter of
    the virtual environment (without one: the [executable] parameter,
    or [sys.executable] when that is empty), the words of the extra
    arguments, and last the reconstructed requirements (with the version
    spliced in) or [-r] with the requirements file.  It runs in [chdir],
    by default the directory of temporary files, with the [bin]
    directory of the environment in front of the search path. *)
Theorem command_layout (h : Host) (p : Params) (w w1 : World) (L : Locals) :
  reaches_command h p w L w1 ->
  (exists extra,
     (if truthy (main_extra_args p)
      then shlex_split h (str_of (main_extra_args p)) = Some extra
      else extra = [])
     /\ l_cmd L = l_pip L ++ state_map (p_state p) ++ ["--python"; py_bin_of h p]
                        ++ extra ++ requirement_args p)
  /\ call_cwd (main_call L w1) = Some (chdir_of h p)
  /\ call_path_prefix (main_call L w1) = path_prefix_of p.
Proof.
  intros (old & w0 & Hu & Hp).
  destruct (main_prepare_layout _ _ _ _ _ Hp) as (Hc & Hpp & Hcmd & _).
  split; [exact Hcmd|]. unfold main_call, call_of. cbn [call_cwd call_path_prefix].
  rewrite Hc, Hpp. auto.
Qed.

Lemma command_layout_witness :
  (exists extra,
     shlex_split Scenario.layout_host "--no-deps" = Some extra
     /\ l_cmd Scenario.layout_locals
        = ["/usr/bin/uv"; "pip"] ++ ["install"] ++ ["--python"; "/srv/app/venv/bin/python"]
            ++ extra ++ ["django>1.11.1,<1.11.3"])
  /\ call_cwd (main_call Scenario.layout_locals Sample.world) = Some "/srv/app"
  /\ call_path_prefix (main_call Scenario.layout_locals Sample.world)
     = Some "/srv/app/venv/bin".
Proof.
  apply (command_layout Scenario.layout_host Scenario.layout_params
                        Sample.world Sample.world Scenario.layout_locals).
  exists None, Sample.world. split; reflexivity.
Defined.

(* ================================================================= *)
(** ** The extra arguments and the executable *)

Lemma nonempty_append_cons (a : string) (c : ascii) (r : string) :
  nonempty (a @@ String c r) = true.
Proof. destruct a; reflexivity. Qed.

Lemma join_nonempty_last (sep : ascii) (l : list string) (x : string) :
  nonempty x = true -> nonempty (join (String sep EmptyString) (l ++ [x])) = true.
Proof.
  intros Hx. destruct l as [|a l]; [exact Hx|].
  destruct (l ++ [x]) as [|y l'] eqn:E.
  - destruct l; discriminate.
  - change ((a :: l) ++ [x]) with (a :: (l ++ [x])). rewrite E, concat_cons2.
    apply nonempty_append_cons.
Qed.

(** X22: with [editable], the extra arguments that reach the command
    are never empty, and their words (between single blanks) are those
    of [extra_args] followed by [-e], or those of [extra_args] alone
    when [-e] is one of them already: [-e] is there, once more at
    most. *)
Theorem editable_extra_args (p : Params) :
  p_editable p = true ->
  truthy (main_extra_args p) = true
  /\ split " "%char (str_of (main_extra_args p))
     = (let args_list := if truthy (p_extra_args p)
                         then split " "%char (str_of (p_extra_args p)) else [] in
        if existsb (String.eqb "-e") args_list then args_list
        else args_list ++ ["-e"]).
Proof.
  intros He. unfold main_extra_args. rewrite He. cbv zeta.
  destruct (existsb (String.eqb "-e")
                    (if truthy (p_extra_args p)
                     then split " "%char (str_of (p_extra_args p)) else [])) eqn:E;
    cbn [negb].
  - destruct (truthy (p_extra_args p)); [auto | discriminate E].
  - cbn [truthy str_of]. split.
    + apply (join_nonempty_last " "%char). reflexivity.
    + apply (split_join_tokens " "%char).
      * destruct (if truthy (p_extra_args p) then _ else _); discriminate.
      * apply Forall_app. split; [|repeat constructor].
        destruct (truthy (p_extra_args p)); [|constructor].
        apply (split_acc_sep_free " "%char). reflexivity.
Qed.

Lemma editable_extra_args_witness :
  truthy (main_extra_args Scenario.editable_params) = true
  /\ split " "%char (str_of (main_extra_args Scenario.editable_params))
     = ["--no-deps"; "--quiet"; "-e"].
Proof.
  apply (editable_extra_args Scenario.editable_params). reflexivity.
Defined.

(** X23: an empty [executable] is not replaced by the default: when no
    virtual environment has to be created, [_get_pip] reads the first
    of its words, there is none, and the module ends with [IndexError]
    before any subprocess has run. *)
Theorem empty_executable_raises (h : Host) (p : Params) (w : World) (e : string) :
  wf_world w ->
  umask_accepted h p ->
  p_executable p = Some e ->
  shlex_split h e = Some [] ->
  venv_needed h p = false ->
  (p_state p = latest -> p_version p = None) ->
  exists w',
    main h p w = (Raise "IndexError", w')
    /\ w_trace w' = w_trace w.
Proof.
  intros Hwf Hacc He Hsplit Hneed Hlatest.
  destruct (main_umask_accepted h p w Hacc) as (old & w0 & Hu).
  assert (Hprep : main_prepare h p (main_env p) w0 = (Raise "IndexError", w0)).
  { unfold main_prepare.
    assert (Hl : State_eqb (p_state p) latest
                 && match p_version p with Some _ => true | None => false end = false).
    { destruct (p_state p); try reflexivity. rewrite (Hlatest eq_refl). reflexivity. }
    rewrite Hl. rewrite (bind_ret _ _ w0 w0 tt) by reflexivity. cbv zeta.
    destruct (main_venv_not_needed h p (main_env p)
                (match p_chdir p with Some c => c | None => gettempdir h end) w0 Hneed)
      as (py_bin & Hv).
    rewrite (bind_ret _ _ _ _ _ Hv).
    apply bind_raise. unfold _get_pip. rewrite He, Hsplit. reflexivity. }
  assert (Htry : main_try h p w0 = (Raise "IndexError", w0)).
  { unfold main_try. now rewrite (bind_raise _ _ _ _ _ Hprep). }
  destruct (main_of_try h p w w0 w0 old _ Hwf Hu Htry) as (w2 & E & Htr & _).
  exists w2. split; [exact E|].
  rewrite Htr. exact (proj1 (main_umask_ret _ _ _ _ _ Hu)).
Qed.

Lemma empty_executable_raises_witness :
  exists w',
    main Scenario.quiet_host Scenario.empty_executable_params Sample.world
    = (Raise "IndexError", w')
    /\ w_trace w' = w_trace Sample.world.
Proof.
  apply (empty_executable_raises Scenario.quiet_host Scenario.empty_executable_params
                                 Sample.world EmptyString).
  - unfold wf_world. simpl. lia.
  - exact I.
  - reflexivity.
  - reflexivity.
  - reflexivity.
  - discriminate.
Defined.

(* ================================================================= *)
(** ** The reconstruction reads the joined text; the package list *)

Lemma split_acc_app (sep : ascii) (x cur r : string) :
  split_acc sep cur (x @@ String sep r)
  = split_acc sep cur x ++ split_acc sep EmptyString r.
Proof.
  revert cur. induction x as [|c x IH]; intros cur.
  - cbn. now rewrite Ascii.eqb_refl.
  - change (String c x @@ String sep r) with (String c (x @@ String sep r)).
    cbn [split_acc]. destruct (Ascii.eqb c sep); rewrite IH; reflexivity.
Qed.

Lemma flatten_names_joined (names : list string) :
  names <> [] -> flatten_names names = split ","%char (join "," names).
Proof.
  unfold flatten_names. induction names as [|x names IH]; [congruence|]. intros _.
  destruct names as [|y names].
  - cbn. apply app_nil_r.
  - rewrite concat_cons2.
    change ("," @@ join "," (y :: names)) with (String "," (join "," (y :: names))).
    change (flat_map (split ","%char) (x :: y :: names))
      with (split ","%char x ++ flat_map (split ","%char) (y :: names)).
    rewrite IH by discriminate. unfold split. now rewrite split_acc_app.
Qed.

Lemma recover_of_joined (names : list string) :
  _recover_package_name names
  = recover_loop (split ","%char (join "," names)) [] [] false.
Proof.
  unfold _recover_package_name. destruct names as [|x names]; [reflexivity|].
  rewrite flatten_names_joined by discriminate. reflexivity.
Qed.

(** X25: [_recover_package_name] reads its input as one text: two lists
    whose [","]-joins are the same text give the same requirements,
    however the text is cut into list elements (the two inputs of the
    docstring are one instance). *)
Theorem recover_depends_on_joined_text (names1 names2 : list string) :
  join "," names1 = join "," names2 ->
  _recover_package_name names1 = _recover_package_name names2.
Proof.
  intros H. rewrite (recover_of_joined names1), (recover_of_joined names2), H.
  reflexivity.
Qed.

Lemma recover_depends_on_joined_text_witness :
  _recover_package_name ["django>1.11.1"; "<1.11.3"; "ipaddress"]
  = _recover_package_name ["django>1.11.1,<1.11.3,ipaddress"].
Proof.
  apply (recover_depends_on_joined_text ["django>1.11.1"; "<1.11.3"; "ipaddress"]
                                        ["django>1.11.1,<1.11.3,ipaddress"]).
  reflexivity.
Defined.

(** What [get_best_parsable_locale] returns, and what it has run. *)
Lemma get_best_parsable_locale_ret (h : Host) (w w' : World) (locale : string) :
  get_best_parsable_locale h w = (Ret locale, w') ->
  match locale_tool h w with
  | Some tool =>
      w' = add_call w (locale_call tool w)
      /\ exists result,
           run h (w_trace w) (locale_call tool w) = Some result
           /\ locale = best_parsable_locale h result
  | None => w' = w /\ locale = "C"
  end.
Proof.
  unfold get_best_parsable_locale, locale_tool, bind, module_get_bin_path.
  destruct (get_bin_path h (w_trace w) "locale") as [tool|].
  - destruct (nonempty tool).
    + unfold run_command. fold (locale_call tool w).
      destruct (run h (w_trace w) (locale_call tool w)) as [result|]; [|discriminate].
      intros H. inversion H; subst. split; [reflexivity|]. exists result. auto.
    + intros H. inversion H. auto.
  - intros H. inversion H. auto.
Qed.

(** X26: when [_get_packages] returns, the last subprocess it has run
    is the package manager with [list --format=freeze], in [chdir], with
    [LANG], [LC_ALL] and [LC_MESSAGES] set to one locale, and that
    subprocess has exited with code 0.  Before it, the framework's
    [get_best_parsable_locale] has run [locale -a] when it finds a
    [locale] tool on the search path, and nothing otherwise; the locale
    is what the framework picks from the result of [locale -a], and
    ["C"] without the tool.  What is returned is the command's words
    joined by blanks, and the stdout and stderr of the listing as they
    are. *)
Theorem get_packages_result (h : Host) (pip : list string) (chdir : string)
        (w w' : World) (text out err : string) :
  _get_packages h pip chdir w = (Ret (text, out, err), w') ->
  exists probe locale,
    match locale_tool h w with
    | Some tool =>
        probe = [locale_call tool w]
        /\ exists result,
             run h (w_trace w) (locale_call tool w) = Some result
             /\ locale = best_parsable_locale h result
    | None => probe = [] /\ locale = "C"
    end
    /\ w_trace w' = w_trace w ++ probe ++ [list_call locale pip chdir w]
    /\ run h (w_trace w ++ probe) (list_call locale pip chdir w) = Some (0%Z, out, err)
    /\ text = join " " (pip ++ ["list"; "--format=freeze"]).
Proof.
  unfold _get_packages. cbv zeta. intros H.
  apply bind_inv_ret in H. destruct H as (locale & w1 & Hloc & H).
  apply get_best_parsable_locale_ret in Hloc.
  apply bind_inv_ret in H. destruct H as ([[rc o] e] & w2 & Hrun & H).
  apply run_command_inv_ret in Hrun. destruct Hrun as [Hrun ->].
  apply bind_inv_ret in H. destruct H as ([] & w3 & Hrc & H).
  unfold _fail in Hrc. apply when_fail_inv_ret in Hrc. destruct Hrc as [Hrc ->].
  apply negb_false_iff, Z.eqb_eq in Hrc. subst rc.
  inversion H; subst. clear H.
  destruct (locale_tool h w) as [tool|].
  - destruct Hloc as (-> & result & Hres & ->).
    exists [locale_call tool w], (best_parsable_locale h result).
    split; [split; [reflexivity | exists result; auto]|].
    split; [|split; [exact Hrun | reflexivity]].
    cbn [add_call w_trace]. rewrite <- app_assoc. reflexivity.
  - destruct Hloc as (-> & ->). exists [], "C".
    split; [auto|]. rewrite app_nil_r.
    split; [reflexivity | split; [exact Hrun | reflexivity]].
Qed.

Lemma get_packages_result_witness :
  exists probe locale,
    match locale_tool Scenario.upgrade_host Sample.world with
    | Some tool =>
        probe = [locale_call tool Sample.world]
        /\ exists result,
             run Scenario.upgrade_host (w_trace Sample.world) (locale_call tool Sample.world)
             = Some result
             /\ locale = best_parsable_locale Scenario.upgrade_host result
    | None => probe = [] /\ locale = "C"
    end
    /\ w_trace (snd (_get_packages Scenario.upgrade_host ["/usr/bin/uv"; "pip"] "/tmp"
                                   Sample.world))
       = w_trace Sample.world ++ probe
           ++ [list_call locale ["/usr/bin/uv"; "pip"] "/tmp" Sample.world]
    /\ run Scenario.upgrade_host (w_trace Sample.world ++ probe)
           (list_call locale ["/usr/bin/uv"; "pip"] "/tmp" Sample.world)
       = Some (0%Z, "six==1.15.0", EmptyString)
    /\ "/usr/bin/uv pip list --format=freeze"
       = join " " (["/usr/bin/uv"; "pip"] ++ ["list"; "--format=freeze"]).
Proof.
  apply (get_packages_result Scenario.upgrade_host ["/usr/bin/uv"; "pip"] "/tmp"
                             Sample.world).
  reflexivity.
Defined.

(* ================================================================= *)
(** ** An unclosed bracket; the message of a failed command *)

(** X27: a bracket that is never closed swallows the rest of the input:
    when a token contains ["["] and neither it nor any later token
    contains ["]"], that token and all the tokens after it are in the
    last requirement of the output, joined with [","], whatever they
    begin with. *)
Theorem recover_unclosed_bracket
        (names pre : list string) (t : string) (post : list string) :
  flatten_names names = pre ++ t :: post ->
  str_in "[" t = true ->
  str_in "]" t = false ->
  Forall (fun x => str_in "]" x = false) post ->
  exists gs g1,
    _recover_package_name names = map (join ",") gs ++ [join "," (g1 ++ t :: post)]
    /\ concat gs ++ g1 = pre.
Proof.
  intros Hflat Ho Hc Hpost. unfold _recover_package_name. rewrite Hflat.
  change (recover_loop (pre ++ t :: post) [] [] false)
    with (recover_loop (pre ++ t :: post) [] (map (join ",") []) false).
  rewrite recover_loop_groups.
  destruct (group_loop_prefix pre (t :: post) [] false) as (gsa & ga & ib & Ea & Ha).
  destruct (group_loop_open t post ga ib Ho Hc) as (gsb & gb & Eb & Hb).
  rewrite Ea, Eb.
  replace (group_loop post (gb ++ [t]) [] true)
    with (group_loop (post ++ []) (gb ++ [t]) [] true) by now rewrite app_nil_r.
  rewrite (group_loop_inside post [] (gb ++ [t]) Hpost).
  cbn [group_loop app]. rewrite <- app_assoc.
  exists (gsa ++ gsb), gb. split.
  - rewrite !map_app. cbn [map]. rewrite <- !app_assoc. reflexivity.
  - rewrite concat_app, <- app_assoc, Hb. exact Ha.
Qed.

Lemma recover_unclosed_bracket_witness :
  exists gs g1,
    _recover_package_name ["six"; "pkg[extra"; "other"; "<2.0"]
    = map (join ",") gs ++ [join "," (g1 ++ "pkg[extra" :: ["other"; "<2.0"])]
    /\ concat gs ++ g1 = ["six"].
Proof.
  apply (recover_unclosed_bracket ["six"; "pkg[extra"; "other"; "<2.0"]
                                  ["six"] "pkg[extra" ["other"; "<2.0"]).
  - reflexivity.
  - reflexivity.
  - reflexivity.
  - repeat constructor.
Defined.

Lemma prefix_append (a b : string) : String.prefix a (a @@ b) = true.
Proof.
  induction a as [|c a IH]; [apply prefix_empty|].
  change (String c a @@ b) with (String c (a @@ b)).
  now rewrite prefix_cons, Ascii.eqb_refl, IH.
Qed.

Lemma prefix_refl (s : string) : String.prefix s s = true.
Proof.
  induction s as [|c s IH]; [reflexivity|]. now rewrite prefix_cons, Ascii.eqb_refl, IH.
Qed.

Lemma str_in_refl (s : string) : str_in s s = true.
Proof. apply str_in_prefix. apply prefix_refl. Qed.

(** X28: [_fail] always ends the module through [fail_json], with the
    command, and touches nothing.  Its message begins with the stdout
    given (after ["stdout: "]) when that is not empty, it contains the
    stderr given when that is not empty, and it is empty exactly when
    both are empty: a command that fails silently is reported with an
    empty message. *)
Theorem fail_reports_streams {A} (cmd : list string) (out err : string) (w : World) :
  exists msg,
    @_fail A cmd out err w = (FailJson [("cmd", VList cmd); ("msg", VStr msg)], w)
    /\ (msg = EmptyString <-> out = EmptyString /\ err = EmptyString)
    /\ (nonempty out = true -> String.prefix ("stdout: " @@ out) msg = true)
    /\ (nonempty err = true -> str_in err msg = true).
Proof.
  unfold _fail. cbv zeta. eexists. split; [reflexivity|].
  destruct out as [|c out], err as [|d err]; cbn [nonempty].
  - repeat split; auto; discriminate.
  - repeat split; try discriminate; try tauto.
    + intros [_ H]. discriminate H.
    + intros _. apply str_in_app_r. apply str_in_app_r. apply str_in_refl.
  - repeat split; try discriminate.
    + intros [H _]. discriminate H.
    + intros _. apply prefix_refl.
  - repeat split; try discriminate.
    + intros [H _]. discriminate H.
    + intros _. apply (prefix_append ("stdout: " @@ String c out)).
    + intros _. apply str_in_app_r. apply str_in_app_r. apply str_in_refl.
Qed.
